(** * vless2json: a VLESS share link turned into an Xray configuration

    A shallow embedding of [xray-configs/vless2json.py]: the
    [DotAccessibleDict] accessor, [build_config], [parse_vless_link],
    [build_proxies] and [main], together with the parts of
    [urllib.parse] and [json] that the script calls (as they are in
    CPython 3.12), followed by the properties of the program.

    Conventions.
    - A Python [str] is a [string], one [ascii] per character, so the
      development covers text whose code points are below 256 (a URI is
      ASCII text by RFC 3986).
    - A Python [dict] is an association list in insertion order.
    - A Python call that may raise or leave the process returns a
      [result].
    - What a run finds around it, the encoding of config.json and
      whether the file opens and takes what is written, is an
      [Environment]. *)

From Stdlib Require Import String Ascii List ZArith Bool Lia.
From Stdlib Require Import DecimalString DecimalPos.
Import ListNotations.

Set Warnings "-register-all".

Open Scope list_scope.
Open Scope string_scope.

(** ** Python values and exceptions *)

Inductive value : Type :=
| VNone
| VBool (b : bool)
| VInt (n : Z)
| VStr (s : string)
| VList (elements : list value)
| VDict (entries : list (string * value))
    (* a plain [dict] *)
| VDot (is_missing : bool) (entries : list (string * value))
    (* a [DotAccessibleDict] with its private flag [__is_missing] *)
| VBuiltin (name : string).
    (* the bound method or class object that ordinary lookup finds as [name] *)

(** The places of [urllib.parse] that raise [ValueError]. *)
Inductive value_error : Type :=
| InvalidIPv6URL          (* urlsplit: unbalanced bracket in the netloc *)
| InvalidBracketedHost    (* urlsplit: the check of a bracketed host *)
| PortNotInteger          (* port: "Port could not be cast to integer value" *)
| IntegerTooLong          (* int(): more than 4300 digits *)
| PortOutOfRange.         (* port: "Port out of range 0-65535" *)

Inductive exn : Type :=
| SystemExit (message : string)     (* sys.exit(message): message on stderr, status 1 *)
| UsageError (message : string)     (* parser.error(message): usage on stderr, status 2 *)
| ValueError (site : value_error)   (* uncaught: traceback, status 1 *)
| AttributeError (name : string)    (* uncaught: traceback, status 1 *)
| TypeError                         (* json: object not serializable *)
| UnicodeEncodeError                (* fp.write: a character the file's encoding lacks *)
| OSError.                          (* open or fp.write: the operating system refuses *)

Inductive result (A : Type) : Type :=
| Ok (a : A)
| Raise (e : exn).

Arguments Ok {A} a.
Arguments Raise {A} e.

Definition bind {A B : Type} (r : result A) (k : A -> result B) : result B :=
  match r with
  | Ok a => k a
  | Raise e => Raise e
  end.

Notation "x <- r ;; k" := (bind r (fun x => k))
  (at level 61, r at next level, right associativity).

(** ** str methods *)

Definition code (c : ascii) : N := N_of_ascii c.

Definition in_range (lo hi : N) (c : ascii) : bool :=
  (N.leb lo (code c) && N.leb (code c) hi)%bool.

(** Upper-case letters below code point 256: A-Z, and the Latin-1 letters
    U+00C0-U+00DE without the multiplication sign U+00D7. *)
Definition is_upper (c : ascii) : bool :=
  in_range 65 90 c || (in_range 192 222 c && negb (N.eqb (code c) 215)).

Definition lower_char (c : ascii) : ascii :=
  if is_upper c then ascii_of_N (code c + 32) else c.

(** [s.lower()] *)
Fixpoint lower (s : string) : string :=
  match s with
  | EmptyString => EmptyString
  | String c rest => String (lower_char c) (lower rest)
  end.

(** [s.startswith(p)] *)
Definition startswith (s p : string) : bool := String.prefix p s.

(** [c in s] *)
Fixpoint contains (c : ascii) (s : string) : bool :=
  match s with
  | EmptyString => false
  | String d rest => Ascii.eqb d c || contains c rest
  end.

(** The text before the first character that satisfies [stop], and the text
    from that character on (empty when there is none). *)
Fixpoint break (stop : ascii -> bool) (s : string) : string * string :=
  match s with
  | EmptyString => (EmptyString, EmptyString)
  | String c rest =>
      if stop c then (EmptyString, s)
      else let (head, tail) := break stop rest in (String c head, tail)
  end.

(** [s.partition(sep)] for a one-character separator; the flag tells whether
    the separator was found. *)
Definition partition (sep : ascii) (s : string) : string * bool * string :=
  match break (Ascii.eqb sep) s with
  | (head, String _ tail) => (head, true, tail)
  | (_, EmptyString) => (s, false, EmptyString)
  end.

(** [s.rpartition(sep)] *)
Fixpoint rpartition (sep : ascii) (s : string) : string * bool * string :=
  match s with
  | EmptyString => (EmptyString, false, EmptyString)
  | String c rest =>
      match rpartition sep rest with
      | (head, true, tail) => (String c head, true, tail)
      | (_, false, _) =>
          if Ascii.eqb c sep then (EmptyString, true, rest)
          else (EmptyString, false, s)
      end
  end.

(** [s.split(sep)] *)
Fixpoint split (sep : ascii) (s : string) : list string :=
  match s with
  | EmptyString => [EmptyString]
  | String c rest =>
      if Ascii.eqb c sep then EmptyString :: split sep rest
      else match split sep rest with
           | first :: others => String c first :: others
           | [] => [String c EmptyString]
           end
  end.

(** [s.split(sep, 1)] *)
Definition split1 (sep : ascii) (s : string) : list string :=
  match partition sep s with
  | (head, true, tail) => [head; tail]
  | (_, false, _) => [s]
  end.

(** [s.replace(c, "")] *)
Fixpoint remove_char (c : ascii) (s : string) : string :=
  match s with
  | EmptyString => EmptyString
  | String d rest =>
      if Ascii.eqb d c then remove_char c rest else String d (remove_char c rest)
  end.

(** [s.replace(c, d)] *)
Fixpoint replace_char (c d : ascii) (s : string) : string :=
  match s with
  | EmptyString => EmptyString
  | String e rest =>
      String (if Ascii.eqb e c then d else e) (replace_char c d rest)
  end.

(** [s.lstrip(chars)] *)
Fixpoint lstrip (strip : ascii -> bool) (s : string) : string :=
  match s with
  | EmptyString => EmptyString
  | String c rest => if strip c then lstrip strip rest else s
  end.

(** [s[n:]] *)
Fixpoint drop (n : nat) (s : string) : string :=
  match n, s with
  | S m, String _ rest => drop m rest
  | _, _ => s
  end.

Fixpoint all_chars (p : ascii -> bool) (s : string) : bool :=
  match s with
  | EmptyString => true
  | String c rest => p c && all_chars p rest
  end.

Definition is_ascii_digit (c : ascii) : bool := in_range 48 57 c.

Definition is_ascii_alpha (c : ascii) : bool :=
  in_range 65 90 c || in_range 97 122 c.

(** [s.isdigit() and s.isascii()] *)
Definition isdigit_ascii (s : string) : bool :=
  negb (String.eqb s "") && all_chars is_ascii_digit s.

(** [int(s)] on ASCII digits *)
Definition int_of_digits (s : string) : Z :=
  fold_left (fun acc c => (10 * acc + Z.of_N (code c - 48))%Z)
            (list_ascii_of_string s) 0%Z.

(** ** Dictionaries *)

Fixpoint dict_get {A : Type} (key : string) (d : list (string * A)) : option A :=
  match d with
  | [] => None
  | (k, v) :: rest => if String.eqb key k then Some v else dict_get key rest
  end.

(** [d[key] = v]: replaces the value of a present key in place, appends a new one. *)
Fixpoint dict_set {A : Type} (key : string) (v : A) (d : list (string * A))
  : list (string * A) :=
  match d with
  | [] => [(key, v)]
  | (k, w) :: rest =>
      if String.eqb key k then (k, v) :: rest else (k, w) :: dict_set key v rest
  end.

(** ** Truth value testing *)

Definition truthy (v : value) : bool :=
  match v with
  | VNone => false
  | VBool b => b
  | VInt n => negb (Z.eqb n 0)
  | VStr s => negb (String.eqb s "")
  | VList l => match l with [] => false | _ => true end
  | VDict d => match d with [] => false | _ => true end
  | VDot is_missing _ => negb is_missing      (* DotAccessibleDict.__bool__ *)
  | VBuiltin _ => true
  end.

(** [a or b] *)
Definition py_or (a b : value) : value := if truthy a then a else b.

(** ** DotAccessibleDict *)

(** What [__init__] stores for a value: every [dict] (a [DotAccessibleDict]
    is one) is replaced by [DotAccessibleDict(False, value)], whose own
    constructor does the same one level down. *)
Fixpoint wrap_value (v : value) : value :=
  match v with
  | VDict kvs => VDot false (map (fun kv => (fst kv, wrap_value (snd kv))) kvs)
  | VDot _ kvs => VDot false (map (fun kv => (fst kv, wrap_value (snd kv))) kvs)
  | other => other
  end.

Definition wrap_entries (kvs : list (string * value)) : list (string * value) :=
  map (fun kv => (fst kv, wrap_value (snd kv))) kvs.

(** [DotAccessibleDict(missing, mapping)] *)
Definition DotAccessibleDict (missing : bool) (mapping : list (string * value)) : value :=
  VDot missing (wrap_entries mapping).

(** [DotAccessibleDict(missing=True)] *)
Definition absent : value := DotAccessibleDict true [].

(** [DotAccessibleDict.__getattr__(self, key)]; an attribute name is never
    [None], so the first disjunct of the guard is the flag alone. *)
Definition __getattr__ (is_missing : bool) (entries : list (string * value))
    (key : string) : value :=
  if is_missing then absent
  else
    match dict_get key entries with
    | Some v => py_or v absent
    | None => absent                       (* except KeyError *)
    end.

(** The loop of [get_path] over the parts of the path. *)
Fixpoint get_path_parts (current : value) (parts : list string) (default : value)
  : value :=
  match parts with
  | [] => current
  | part :: rest =>
      match current with
      | VDict d | VDot _ d =>
          match dict_get part d with
          | Some v => get_path_parts v rest default
          | None => default
          end
      | _ => default
      end
  end.

(** [self.get_path(path, default)] *)
Definition get_path (self : value) (path : string) (default : value) : value :=
  get_path_parts self (split "." path) default.

(** Ordinary attribute lookup on an instance, which Python tries before
    the hook [__getattr__]: the instance attribute that [__init__] sets
    (under its mangled name), the methods of the class body and what
    [dict] and [object] provide. *)
Definition class_methods : list string :=
  ["__init__"; "__bool__"; "__getattr__"; "get_path";
   "clear"; "copy"; "fromkeys"; "get"; "items"; "keys"; "pop"; "popitem";
   "setdefault"; "update"; "values";
   "__class__"; "__class_getitem__"; "__contains__"; "__delattr__";
   "__delitem__"; "__dir__"; "__eq__"; "__format__"; "__ge__";
   "__getattribute__"; "__getitem__"; "__getstate__"; "__gt__";
   "__init_subclass__"; "__ior__"; "__iter__"; "__le__"; "__len__"; "__lt__";
   "__ne__"; "__new__"; "__or__"; "__reduce__"; "__reduce_ex__"; "__repr__";
   "__reversed__"; "__ror__"; "__setattr__"; "__setitem__"; "__sizeof__";
   "__str__"; "__subclasshook__"].

Definition ordinary_lookup (is_missing : bool) (name : string) : option value :=
  if String.eqb name "_DotAccessibleDict__is_missing" then Some (VBool is_missing)
  else if String.eqb name "__dict__"
  then Some (VDict [("_DotAccessibleDict__is_missing", VBool is_missing)])
  else if existsb (String.eqb name) ["__doc__"; "__weakref__"; "__hash__"]
  then Some VNone
  else if String.eqb name "__module__" then Some (VStr "__main__")
  else if existsb (String.eqb name) class_methods then Some (VBuiltin name)
  else None.

(** [obj.name].  On a [DotAccessibleDict] the hook [__getattr__] runs only
    when ordinary lookup fails.  On the other values every name read by
    this program is missing, which raises [AttributeError]. *)
Definition getattr (obj : value) (name : string) : result value :=
  match obj with
  | VDot is_missing entries =>
      match ordinary_lookup is_missing name with
      | Some found => Ok found
      | None => Ok (__getattr__ is_missing entries name)
      end
  | _ => Raise (AttributeError name)
  end.

Definition dot (obj : result value) (name : string) : result value :=
  o <- obj ;; getattr o name.

Notation "obj '.>' name" := (dot obj name) (at level 40, left associativity).

(** ** build_config *)

Definition build_config (raw_params : list (string * value)) : result value :=
  let params := Ok (DotAccessibleDict false raw_params) in
  socks_port <- params .> "proxies" .> "socks_port" ;;
  http_port <- params .> "proxies" .> "http_port" ;;
  host <- params .> "server" .> "host" ;;
  port <- params .> "server" .> "port" ;;
  uuid <- params .> "uuid" ;;
  flow <- params .> "params" .> "flow" ;;
  type <- params .> "params" .> "type" ;;
  security <- params .> "params" .> "security" ;;
  fp <- params .> "params" .> "fp" ;;
  sni <- params .> "params" .> "sni" ;;
  pbk <- params .> "params" .> "pbk" ;;
  sid <- params .> "params" .> "sid" ;;
  Ok (VDict [
    ("log", VDict [
        ("access", VStr "none");
        ("error", VStr "");
        ("loglevel", VStr "warning");
        ("dnsLog", VBool false)]);
    ("stats", VDict []);
    ("policy", VDict [
        ("levels", VDict [
            ("0", VDict [
                ("statsUserUplink", VBool true);
                ("statsUserDownlink", VBool true)])]);
        ("system", VDict [
            ("statsOutboundUplink", VBool true);
            ("statsOutboundDownlink", VBool true)])]);
    ("api", VDict [
        ("tag", VStr "api");
        ("services", VList [VStr "StatsService"])]);
    ("inbounds", VList [
        VDict [
          ("tag", VStr "socks");
          ("port", py_or socks_port (VInt 8107));
          ("listen", VStr "127.0.0.1");
          ("protocol", VStr "socks");
          ("sniffing", VDict [
              ("enabled", VBool true);
              ("destOverride", VList [VStr "http"; VStr "tls"]);
              ("routeOnly", VBool true)]);
          ("settings", VDict [
              ("auth", VStr "noauth");
              ("udp", VBool true)])];
        VDict [
          ("tag", VStr "http");
          ("port", py_or http_port (VInt 8108));
          ("listen", VStr "127.0.0.1");
          ("protocol", VStr "http");
          ("sniffing", VDict [
              ("enabled", VBool true);
              ("destOverride", VList [VStr "http"; VStr "tls"]);
              ("routeOnly", VBool true)]);
          ("settings", VDict [
              ("auth", VStr "noauth");
              ("udp", VBool true)])]]);
    ("outbounds", VList [
        VDict [
          ("tag", VStr "proxy");
          ("protocol", VStr "vless");
          ("settings", VDict [
              ("vnext", VList [
                  VDict [
                    ("address", host);
                    ("port", port);
                    ("users", VList [
                        VDict [
                          ("id", uuid);
                          ("encryption", VStr "none");
                          ("flow", py_or flow (VStr "xtls-rprx-vision-udp443"))]])]])]);
          ("streamSettings", VDict [
              ("network", py_or type (VStr "tcp"));
              ("security", py_or security (VStr "reality"));
              ("realitySettings", VDict [
                  ("fingerprint", fp);
                  ("serverName", sni);
                  ("show", VBool false);
                  ("publicKey", pbk);
                  ("shortId", sid)])])];
        VDict [
          ("tag", VStr "direct");
          ("protocol", VStr "freedom");
          ("settings", VDict [])];
        VDict [
          ("protocol", VStr "blackhole");
          ("tag", VStr "block")]]);
    ("routing", VDict [
        ("domainStrategy", VStr "AsIs");
        ("rules", VList [
            VDict [
              ("type", VStr "field");
              ("inboundTag", VList [VStr "api"]);
              ("outboundTag", VStr "api")];
            VDict [
              ("type", VStr "field");
              ("ip", VList [VStr "geoip:private"]);
              ("outboundTag", VStr "block")];
            VDict [
              ("type", VStr "field");
              ("protocol", VList [VStr "bittorrent"]);
              ("outboundTag", VStr "direct")];
            VDict [
              ("type", VStr "field");
              ("port", VStr "6969,6881-6889");
              ("outboundTag", VStr "direct")];
            VDict [
              ("type", VStr "field");
              ("sourcePort", VStr "6881-6889");
              ("outboundTag", VStr "direct")];
            VDict [
              ("type", VStr "field");
              ("domain", VList [VStr "ext:customgeo.dat:coherence-extra-exceptions"]);
              ("outboundTag", VStr "proxy")];
            VDict [
              ("type", VStr "field");
              ("domain", VList [
                  VStr "geosite:cn";
                  VStr "domain:cn";
                  VStr "domain:xn--fiqs8s";
                  VStr "domain:xn--fiqz9s";
                  VStr "domain:xn--55qx5d";
                  VStr "domain:xn--io0a7i";
                  VStr "domain:ru";
                  VStr "domain:xn--p1ai";
                  VStr "domain:by";
                  VStr "domain:xn--90ais";
                  VStr "domain:ir";
                  VStr "ext:customgeo.dat:coherence-extra";
                  VStr "ext:customgeo.dat:coherence-extra-plus"]);
              ("outboundTag", VStr "direct")];
            VDict [
              ("type", VStr "field");
              ("ip", VList [
                  VStr "geoip:cn";
                  VStr "geoip:ru";
                  VStr "geoip:by";
                  VStr "geoip:ir"]);
              ("outboundTag", VStr "direct")]])])]).

(** ** build_proxies *)

(** [f"{n}"] for an [int] *)
Definition str_of_int (n : Z) : string := NilZero.string_of_int (Z.to_int n).

(** [if port: proxies[key] = f"{port}"] for a port that is an [int] or [None] *)
Definition set_if_given (key : string) (port : option Z)
    (proxies : list (string * value)) : list (string * value) :=
  match port with
  | Some n => if truthy (VInt n) then dict_set key (VStr (str_of_int n)) proxies
              else proxies
  | None => proxies
  end.

Definition build_proxies (http_port socks_port : option Z) : list (string * value) :=
  let proxies := [] in
  let proxies := set_if_given "http_port" http_port proxies in
  let proxies := set_if_given "socks_port" socks_port proxies in
  proxies.

(** ** urllib.parse *)

(** The components of a [ParseResult] that the program reads. *)
Record ParseResult : Type := {
  scheme : string;
  netloc : string;
  path : string;
  query : string;
  fragment : string
}.

(** [_WHATWG_C0_CONTROL_OR_SPACE] *)
Definition c0_control_or_space (c : ascii) : bool := N.leb (code c) 32.

(** [scheme_chars]: ASCII letters, digits and "+-." *)
Definition scheme_char (c : ascii) : bool :=
  is_ascii_alpha c || is_ascii_digit c
  || Ascii.eqb c "+" || Ascii.eqb c "-" || Ascii.eqb c ".".

(** The scheme step of [urlsplit]: with [i = url.find(':')], a scheme is
    split off when [i > 0], [url[0]] is an ASCII letter and [url[:i]] has
    scheme characters only. *)
Definition split_scheme (url : string) : string * string :=
  match break (Ascii.eqb ":") url with
  | (String c0 head, String _ tail) =>
      if is_ascii_alpha c0 && all_chars scheme_char (String c0 head)
      then (lower (String c0 head), tail)
      else (EmptyString, url)
  | _ => (EmptyString, url)
  end.

(** [_splitnetloc(url, 2)] applied to [url[2:]]: the netloc ends at the
    first of "/", "?" and "#". *)
Definition netloc_delimiter (c : ascii) : bool :=
  Ascii.eqb c "/" || Ascii.eqb c "?" || Ascii.eqb c "#".

Definition _splitnetloc (after_slashes : string) : string * string :=
  break netloc_delimiter after_slashes.

(** [url.split(sep, 1)] guarded by [sep in url] *)
Definition split_off (sep : ascii) (url : string) : string * string :=
  if contains sep url
  then match partition sep url with (head, _, tail) => (head, tail) end
  else (url, EmptyString).

(** [_userinfo[0]], the [username] property *)
Definition username (r : ParseResult) : value :=
  match rpartition "@" (netloc r) with
  | (userinfo, true, _) =>
      match partition ":" userinfo with (name, _, _) => VStr name end
  | (_, false, _) => VNone
  end.

(** [_hostinfo]: the host text and the port text, [None] when empty *)
Definition _hostinfo (r : ParseResult) : string * option string :=
  match rpartition "@" (netloc r) with
  | (_, _, hostinfo) =>
      let '(host, port) :=
        match partition "[" hostinfo with
        | (_, true, bracketed) =>
            match partition "]" bracketed with
            | (host, _, after) =>
                match partition ":" after with (_, _, port) => (host, port) end
            end
        | (_, false, _) =>
            match partition ":" hostinfo with (host, _, port) => (host, port) end
        end in
      (host, if String.eqb port "" then None else Some port)
  end.

(** The [hostname] property *)
Definition hostname (r : ParseResult) : value :=
  let host := fst (_hostinfo r) in
  if String.eqb host "" then VNone
  else
    match partition "%" host with
    | (name, percent, zone) =>
        VStr (lower name ++ (if percent then "%" else "") ++ zone)
    end.

(** The [port] property; [int()] refuses more than 4300 digits. *)
Definition port (r : ParseResult) : result value :=
  match snd (_hostinfo r) with
  | None => Ok VNone
  | Some text =>
      if isdigit_ascii text then
        if Nat.ltb 4300 (String.length text) then Raise (ValueError IntegerTooLong)
        else
          let n := int_of_digits text in
          if (Z.leb 0 n && Z.leb n 65535)%bool then Ok (VInt n)
          else Raise (ValueError PortOutOfRange)
      else Raise (ValueError PortNotInteger)
  end.

Section Urllib.

(** Two pieces of the standard library stay abstract: the decoding of
    percent escapes by [unquote] (UTF-8 with replacement), and the check
    that [urlsplit] applies to a netloc with both brackets, which differs
    between versions of the library: none at first (then it is constantly
    true), [_check_bracketed_host] on the bracketed text later. *)
Variable unquote_escapes : string -> string.
Variable bracketed_netloc_ok : string -> bool.

(** [unquote(s)] returns [s] itself when it has no percent sign. *)
Definition unquote (s : string) : string :=
  if contains "%" s then unquote_escapes s else s.

(** The netloc step of [urlsplit], for a [url] whose scheme is split off. *)
Definition netloc_step (url : string) : result (string * string) :=
  if String.prefix "//" url then
    let '(netloc, url) := _splitnetloc (drop 2 url) in
    if (contains "[" netloc && negb (contains "]" netloc))
       || (contains "]" netloc && negb (contains "[" netloc))
    then Raise (ValueError InvalidIPv6URL)
    else if contains "[" netloc && contains "]" netloc then
      if bracketed_netloc_ok netloc then Ok (netloc, url)
      else Raise (ValueError InvalidBracketedHost)
    else Ok (netloc, url)
  else Ok (EmptyString, url).

Definition urlsplit (url : string) : result ParseResult :=
  let url := lstrip c0_control_or_space url in
  let url := remove_char "009" url in
  let url := remove_char "013" url in
  let url := remove_char "010" url in
  let '(scheme, url) := split_scheme url in
  located <- netloc_step url ;;
  let '(netloc, url) := located in
  let '(url, fragment) := split_off "#" url in
  let '(url, query) := split_off "?" url in
  Ok {| scheme := scheme; netloc := netloc; path := url;
        query := query; fragment := fragment |}.

(** [urlparse] is [urlsplit] followed by the split of the path parameters,
    which the program does not read.  [_checknetloc], the last step of
    [urlsplit], rejects a netloc whose NFKC form gains one of "/?#@:";
    no character below code point 256 has such a form. *)
Definition urlparse (url : string) : result ParseResult := urlsplit url.

(** [parse_qsl(qs, keep_blank_values=True)] *)
Definition parse_field (name_value : string) : string * string :=
  match split1 "=" name_value with
  | [name; v] => (unquote (replace_char "+" " " name), unquote (replace_char "+" " " v))
  | _ => (unquote (replace_char "+" " " name_value), unquote (replace_char "+" " " ""))
  end.

Definition parse_qsl (qs : string) : list (string * string) :=
  map parse_field (filter (fun name_value => negb (String.eqb name_value ""))
                          (split "&" qs)).

(** [parse_qs(qs, keep_blank_values=True)] *)
Fixpoint collect (pairs : list (string * string))
    (parsed_result : list (string * list string)) : list (string * list string) :=
  match pairs with
  | [] => parsed_result
  | (name, v) :: rest =>
      collect rest
        match dict_get name parsed_result with
        | Some values => dict_set name (values ++ [v])%list parsed_result
        | None => dict_set name [v] parsed_result
        end
  end.

Definition parse_qs (qs : string) : list (string * list string) :=
  collect (parse_qsl qs) [].

(** ** parse_vless_link *)

(** [{k: (v[0] if isinstance(v, list) and v else "") for k, v in raw_qs.items()}] *)
Definition first_values (raw_qs : list (string * list string))
  : list (string * value) :=
  map (fun kv => (fst kv, match snd kv with
                          | first :: _ => VStr first
                          | [] => VStr ""
                          end)) raw_qs.

Definition parse_vless_link (link : string) : result (list (string * value)) :=
  if negb (startswith (lower link) "vless://")
  then Raise (SystemExit "Link should start with vless://")
  else
    parsed <- urlparse link ;;
    if negb (String.eqb (lower (scheme parsed)) "vless")
    then Raise (SystemExit "Schema should be vless://")
    else
      let uuid := username parsed in
      if negb (truthy uuid) then Raise (SystemExit "User id is undefined")
      else
        let host := hostname parsed in
        port <- port parsed ;;
        if negb (truthy host) || negb (truthy port)
        then Raise (SystemExit "Proxy host or port not defined")
        else
          let raw_qs := parse_qs (query parsed) in
          let params := first_values raw_qs in
          let name := if truthy (VStr (fragment parsed))
                      then VStr (fragment parsed) else VNone in
          Ok [("type", VStr "vless");
              ("uuid", uuid);
              ("server", VDict [("host", host); ("port", port)]);
              ("params", VDict params);
              ("name", name)].

(** ** json.dump(obj, fp, ensure_ascii=False, indent=2) *)

Definition quote : ascii := "034".
Definition backslash : ascii := "092".

Definition hex_digit (n : N) : ascii :=
  if N.ltb n 10 then ascii_of_N (48 + n) else ascii_of_N (87 + n).

(** [ESCAPE_DCT]: the short escapes, and [\u00xx] for the other characters
    below 0x20. *)
Definition escape_char (c : ascii) : string :=
  if Ascii.eqb c backslash then String backslash (String backslash "")
  else if Ascii.eqb c quote then String backslash (String quote "")
  else if Ascii.eqb c "008" then String backslash "b"
  else if Ascii.eqb c "012" then String backslash "f"
  else if Ascii.eqb c "010" then String backslash "n"
  else if Ascii.eqb c "013" then String backslash "r"
  else if Ascii.eqb c "009" then String backslash "t"
  else if N.ltb (code c) 32
  then String backslash
         ("u00" ++ String (hex_digit (code c / 16))
                          (String (hex_digit (code c mod 16)) ""))
  else String c "".

Fixpoint escape (s : string) : string :=
  match s with
  | EmptyString => EmptyString
  | String c rest => escape_char c ++ escape rest
  end.

(** [encode_basestring] *)
Definition encode_basestring (s : string) : string :=
  String quote (escape s ++ String quote "").

Fixpoint spaces (n : nat) : string :=
  match n with
  | O => EmptyString
  | S m => "  " ++ spaces m
  end.

Definition newline_indent (level : nat) : string := String "010" (spaces level).

(** The values that the loops of the encoder write in place: [str],
    [None], [True], [False] and [int]. *)
Definition encode_scalar (o : value) : option string :=
  match o with
  | VStr s => Some (encode_basestring s)
  | VNone => Some "null"
  | VBool true => Some "true"
  | VBool false => Some "false"
  | VInt n => Some (str_of_int n)
  | _ => None
  end.

Section Items.

(** The loops of [_iterencode_list] and [_iterencode_dict] over the items
    of a container at [level], as the chunks they yield.  The flag of a
    result tells whether the encoder came to its end; when an object
    cannot be serialized it is false and the chunks are those yielded
    before [TypeError]. *)
Variable encode : value -> list string * bool.
Variable level : nat.

(** In a list the text held back in [buf] (the opening bracket, later the
    separator) goes out in one chunk with a value written in place, and in
    a chunk of its own before the chunks of any other value. *)
Fixpoint list_items (buf : string) (items : list value) : list string * bool :=
  match items with
  | [] => ([newline_indent level; "]"], true)
  | item :: rest =>
      let separator := "," ++ newline_indent (S level) in
      match encode_scalar item with
      | Some text =>
          let (more, finished) := list_items separator rest in
          ((buf ++ text) :: more, finished)
      | None =>
          match encode item with
          | (chunks, true) =>
              let (more, finished) := list_items separator rest in
              (buf :: chunks ++ more, finished)%list
          | (chunks, false) => (buf :: chunks, false)
          end
      end
  end.

(** In a dict the separator, the key, the colon and the value are chunks
    of their own. *)
Fixpoint dict_items (first : bool) (items : list (string * value))
  : list string * bool :=
  match items with
  | [] => ([newline_indent level; "}"], true)
  | (key, v) :: rest =>
      let separator := "," ++ newline_indent (S level) in
      let head :=
        ((if first then [] else [separator])
         ++ [encode_basestring key; ": "])%list in
      match encode v with
      | (chunks, true) =>
          let (more, finished) := dict_items false rest in
          (head ++ chunks ++ more, finished)%list
      | (chunks, false) => (head ++ chunks, false)%list
      end
  end.

End Items.

(** [_iterencode(o, level)]: the chunks that [json.dump] hands to
    [fp.write] one by one.  A container that tests false is written as an
    empty pair of brackets; for a [DotAccessibleDict] the test is its
    [__bool__]. *)
Fixpoint iterencode (level : nat) (o : value) {struct o} : list string * bool :=
  match o with
  | VList lst =>
      if negb (truthy (VList lst)) then (["[]"], true)
      else list_items (iterencode (S level)) level ("[" ++ newline_indent (S level)) lst
  | VDict dct =>
      if negb (truthy (VDict dct)) then (["{}"], true)
      else
        let (chunks, finished) := dict_items (iterencode (S level)) level true dct in
        ("{" :: newline_indent (S level) :: chunks, finished)
  | VDot is_missing dct =>
      if negb (truthy (VDot is_missing dct)) then (["{}"], true)
      else
        let (chunks, finished) := dict_items (iterencode (S level)) level true dct in
        ("{" :: newline_indent (S level) :: chunks, finished)
  | VBuiltin _ => ([], false)
  | scalar =>
      match encode_scalar scalar with
      | Some text => ([text], true)
      | None => ([], false)
      end
  end.

(** ** parse_args and main *)

(** What [argparse] hands over: the link and the two optional ports. *)
Record Namespace : Type := {
  vless_link : string;
  http_proxy : option Z;
  socks5_proxy : option Z
}.

Definition check_port (flag : string) (port : option Z) : result unit :=
  match port with
  | Some n =>
      if negb (Z.leb 1 n && Z.leb n 65535)
      then Raise (UsageError ("--" ++ flag ++ " should be in range of 1..65535"))
      else Ok tt
  | None => Ok tt
  end.

(** The validation that [parse_args] does on the parsed arguments. *)
Definition parse_args (args : Namespace) : result Namespace :=
  _ <- check_port "http-proxy" (http_proxy args) ;;
  _ <- check_port "socks5-proxy" (socks5_proxy args) ;;
  Ok args.

(** The first argument of [json.dump] in [main]. *)
Definition main_document (argv : Namespace) : result value :=
  args <- parse_args argv ;;
  vless_info <- parse_vless_link (vless_link args) ;;
  let result :=
    dict_set "proxies"
      (py_or (VDict (build_proxies (http_proxy args) (socks5_proxy args))) VNone)
      vless_info in
  build_config result.

(** What a run finds around it. *)
Record Environment : Type := {
  encodable : ascii -> bool;
      (* the characters that the encoding of the file has: [open] takes the
         encoding of the locale *)
  open_fails : bool;
      (* [open('config.json', 'w')] raises [OSError] *)
  write_fails : nat -> bool
      (* the call of [fp.write] with this index raises [OSError] *)
}.

Variable env : Environment.

(** [for chunk in iterable: fp.write(chunk)], from the call with this
    [index] on, with what the file holds.  A chunk is encoded before it is
    written, so a chunk with a character that the encoding lacks raises
    [UnicodeEncodeError] and leaves nothing of itself; what was written
    before stays in the file, whose buffers are flushed when it is
    closed. *)
Fixpoint write_chunks (index : nat) (chunks : list string) (written : string)
  : option exn * string :=
  match chunks with
  | [] => (None, written)
  | chunk :: rest =>
      if negb (all_chars (encodable env) chunk)
      then (Some UnicodeEncodeError, written)
      else if write_fails env index then (Some OSError, written)
      else write_chunks (S index) rest (written ++ chunk)
  end.

(** [main] as a transformer of the content of [config.json] ([None]: no
    such file).  The arguments of [json.dump] are evaluated in order, so
    the file is opened, and emptied, only after [build_config] returned;
    the chunks of the document are then written one by one, and the
    encoder raises [TypeError] when it comes to an object that it cannot
    write. *)
Definition main (argv : Namespace) (config_json : option string)
  : option exn * option string :=
  match main_document argv with
  | Raise e => (Some e, config_json)
  | Ok document =>
      if open_fails env then (Some OSError, config_json)
      else
        let (chunks, finished) := iterencode 0 document in
        match write_chunks 0 chunks "" with
        | (Some e, written) => (Some e, Some written)
        | (None, written) =>
            if finished then (None, Some written)
            else (Some TypeError, Some written)
        end
  end.

(** ** Reading a document *)

Inductive step : Type :=
| Key (k : string)
| Index (i : nat).

(** The value found in [v] by following keys of mappings and positions
    of lists. *)
Fixpoint at_path (v : value) (steps : list step) : option value :=
  match steps with
  | [] => Some v
  | Key k :: rest =>
      match v with
      | VDict d | VDot _ d =>
          match dict_get k d with
          | Some x => at_path x rest
          | None => None
          end
      | _ => None
      end
  | Index i :: rest =>
      match v with
      | VList l =>
          match nth_error l i with
          | Some x => at_path x rest
          | None => None
          end
      | _ => None
      end
  end.

Definition field (key : string) (v : value) : option value := at_path v [Key key].

(** The elements of the list stored under [steps]. *)
Definition list_at (doc : value) (steps : list step) : list value :=
  match at_path doc steps with
  | Some (VList l) => l
  | _ => []
  end.

Definition inbounds (doc : value) : list value := list_at doc [Key "inbounds"].
Definition outbounds (doc : value) : list value := list_at doc [Key "outbounds"].
Definition rules (doc : value) : list value := list_at doc [Key "routing"; Key "rules"].

(** The user entry and the stream settings of the proxy outbound. *)
Definition proxy_server : list step :=
  [Key "outbounds"; Index 0; Key "settings"; Key "vnext"; Index 0].
Definition proxy_user : list step := (proxy_server ++ [Key "users"; Index 0])%list.
Definition proxy_stream : list step :=
  [Key "outbounds"; Index 0; Key "streamSettings"].
Definition proxy_reality : list step := (proxy_stream ++ [Key "realitySettings"])%list.

(** The rule list that the specification fixes, in its priority order. *)
Definition field_rule (matcher : string) (matched : value) (outbound : string) : value :=
  VDict [("type", VStr "field"); (matcher, matched); ("outboundTag", VStr outbound)].

Definition expected_rules : list value :=
  [ (* API traffic *)
    field_rule "inboundTag" (VList [VStr "api"]) "api";
    (* private addresses are blocked *)
    field_rule "ip" (VList [VStr "geoip:private"]) "block";
    (* BitTorrent and trackers go direct *)
    field_rule "protocol" (VList [VStr "bittorrent"]) "direct";
    field_rule "port" (VStr "6969,6881-6889") "direct";
    field_rule "sourcePort" (VStr "6881-6889") "direct";
    (* extra-allow override *)
    field_rule "domain" (VList [VStr "ext:customgeo.dat:coherence-extra-exceptions"]) "proxy";
    (* country and region domains bypass the proxy *)
    field_rule "domain"
      (VList [VStr "geosite:cn"; VStr "domain:cn"; VStr "domain:xn--fiqs8s";
              VStr "domain:xn--fiqz9s"; VStr "domain:xn--55qx5d";
              VStr "domain:xn--io0a7i"; VStr "domain:ru"; VStr "domain:xn--p1ai";
              VStr "domain:by"; VStr "domain:xn--90ais"; VStr "domain:ir";
              VStr "ext:customgeo.dat:coherence-extra";
              VStr "ext:customgeo.dat:coherence-extra-plus"]) "direct";
    (* country and region addresses bypass the proxy *)
    field_rule "ip"
      (VList [VStr "geoip:cn"; VStr "geoip:ru"; VStr "geoip:by"; VStr "geoip:ir"])
      "direct" ].

(** The record that [parse_vless_link] returns. *)
Definition connection_record (uuid host port : value)
    (params : list (string * value)) (name : value) : list (string * value) :=
  [("type", VStr "vless");
   ("uuid", uuid);
   ("server", VDict [("host", host); ("port", port)]);
   ("params", VDict params);
   ("name", name)].

(** [params.a.b...] as [build_config] reads it from its argument. *)
Definition read (raw_params : list (string * value)) (names : list string)
  : result value :=
  fold_left dot names (Ok (DotAccessibleDict false raw_params)).

Definition MissingIdentity (e : exn) : Prop := e = SystemExit "User id is undefined".
Definition MissingEndpoint (e : exn) : Prop :=
  e = SystemExit "Proxy host or port not defined".

(** [None] occurs somewhere in a value. *)
Fixpoint has_none (v : value) : bool :=
  match v with
  | VNone => true
  | VList l => existsb has_none l
  | VDict d | VDot _ d => existsb (fun kv => has_none (snd kv)) d
  | _ => false
  end.

(** Every part of a value is one that [json] can write. *)
Fixpoint serializable (v : value) : bool :=
  match v with
  | VList l => forallb serializable l
  | VDict d | VDot _ d => forallb (fun kv => serializable (snd kv)) d
  | VBuiltin _ => false
  | _ => true
  end.

Definition is_mapping (v : value) : bool :=
  match v with
  | VDict _ | VDot _ _ => true
  | _ => false
  end.


(** ** Vocabulary of the properties *)

(** What the hook makes of a lookup in the mapping that was wrapped. *)
Definition present (found : option value) : value :=
  match found with
  | Some v => py_or (wrap_value v) absent
  | None => absent
  end.

(** Text survives the hook when it is not empty. *)
Definition text_or_absent (found : option value) : value :=
  match found with
  | Some (VStr s) => if String.eqb s "" then absent else VStr s
  | _ => absent
  end.

Definition name_of (parsed : ParseResult) : value :=
  if truthy (VStr (fragment parsed)) then VStr (fragment parsed) else VNone.

(** ["proxies": build_proxies(args.http_proxy, args.socks5_proxy) or None] *)
Definition proxies_value (argv : Namespace) : value :=
  py_or (VDict (build_proxies (http_proxy argv) (socks5_proxy argv))) VNone.

Definition main_params (argv : Namespace) (vless_info : list (string * value))
  : list (string * value) :=
  dict_set "proxies" (proxies_value argv) vless_info.

Definition port_in_range (port : option Z) : Prop :=
  match port with
  | Some n => (1 <= n <= 65535)%Z
  | None => True
  end.

Definition valid (argv : Namespace) : Prop :=
  parse_args argv = Ok argv
  /\ exists info, parse_vless_link (vless_link argv) = Ok info.

(** The options of the link: what the record holds under ["params"]. *)
Definition options_of (parsed : ParseResult) : list (string * value) :=
  first_values (parse_qs (query parsed)).

Definition structured (doc : value) : Prop :=
  map (field "tag") (inbounds doc) = [Some (VStr "socks"); Some (VStr "http")]
  /\ Forall (fun inbound =>
               field "listen" inbound = Some (VStr "127.0.0.1")
               /\ at_path inbound [Key "sniffing"; Key "enabled"] = Some (VBool true)
               /\ at_path inbound [Key "sniffing"; Key "destOverride"]
                  = Some (VList [VStr "http"; VStr "tls"]))
            (inbounds doc)
  /\ map (field "tag") (outbounds doc)
     = [Some (VStr "proxy"); Some (VStr "direct"); Some (VStr "block")]
  /\ rules doc = expected_rules
  /\ List.length (rules doc) = 8%nat.

Definition socks_port_of (doc : value) : option value :=
  at_path doc [Key "inbounds"; Index 0; Key "port"].
Definition http_port_of (doc : value) : option value :=
  at_path doc [Key "inbounds"; Index 1; Key "port"].

Definition defaulted_fields : list (string * list step * string) :=
  [("flow", proxy_user ++ [Key "flow"], "xtls-rprx-vision-udp443");
   ("type", proxy_stream ++ [Key "network"], "tcp");
   ("security", proxy_stream ++ [Key "security"], "reality")]%list.

Definition verbatim_fields : list (string * list step) :=
  [("fp", proxy_reality ++ [Key "fingerprint"]);
   ("sni", proxy_reality ++ [Key "serverName"]);
   ("pbk", proxy_reality ++ [Key "publicKey"]);
   ("sid", proxy_reality ++ [Key "shortId"])]%list.

(** The values given to [key], in the order of the pairs. *)
Definition values_for (key : string) (pairs : list (string * string)) : list string :=
  map snd (filter (fun pair => String.eqb key (fst pair)) pairs).

Definition listed (found : option (list string)) : list string :=
  match found with
  | Some values => values
  | None => []
  end.

Definition with_fragment (r : ParseResult) (text : string) : ParseResult :=
  {| scheme := scheme r; netloc := netloc r; path := path r;
     query := query r; fragment := text |}.

(** [url.replace(b, "")] for the three unsafe characters *)
Definition without_unsafe (s : string) : string :=
  remove_char "010" (remove_char "013" (remove_char "009" s)).

(** The checks of [parse_vless_link] that follow [urlparse]. *)
Definition checks_after_urlparse (parsed : ParseResult)
  : result (list (string * value)) :=
  if negb (String.eqb (lower (scheme parsed)) "vless")
  then Raise (SystemExit "Schema should be vless://")
  else
    let uuid := username parsed in
    if negb (truthy uuid) then Raise (SystemExit "User id is undefined")
    else
      let host := hostname parsed in
      port <- port parsed ;;
      if negb (truthy host) || negb (truthy port)
      then Raise (SystemExit "Proxy host or port not defined")
      else
        Ok (connection_record uuid host port
              (first_values (parse_qs (query parsed))) (name_of parsed)).

Definition arguments (link : string) (http socks : option Z) : Namespace :=
  {| vless_link := link; http_proxy := http; socks5_proxy := socks |}.

(** The text that chunks make, one after the other. *)
Definition text_of (chunks : list string) : string := fold_right append "" chunks.

(** The file opens and every write goes through. *)
Definition writes : Prop :=
  open_fails env = false /\ forall index, write_fails env index = false.

(** The encoding of the file has every character of these chunks. *)
Definition encodes (chunks : list string) : Prop :=
  Forall (fun chunk => all_chars (encodable env) chunk = true) chunks.

(** The steps that follow keys only. *)
Definition keys (names : list string) : list step := map Key names.

(** What an attribute chain can go on from: nothing, a mapping, or a value
    that tests false (the hook turns it into the absent marker). *)
Definition chainable (found : option value) : bool :=
  match found with
  | Some v => is_mapping v || negb (truthy v)
  | None => true
  end.

(** No character of [forbidden] occurs in [s]. *)
Definition free_of (forbidden s : string) : bool :=
  all_chars (fun c => negb (contains c forbidden)) s.

(** [_UNSAFE_URL_BYTES_TO_REMOVE]: tab, carriage return and line feed *)
Definition unsafe_bytes : string := String "009" (String "013" (String "010" "")).

(** A user name or a host name written without a delimiter of a URL. *)
Definition plain (s : string) : bool := free_of ("/?#[]@:%" ++ unsafe_bytes) s.

(** A query string without a fragment sign and without a removed byte. *)
Definition plain_query (s : string) : bool := free_of (String "#" unsafe_bytes) s.

(** [k1=v1&k2=v2&...] *)
Fixpoint query_of (pairs : list (string * string)) : string :=
  match pairs with
  | [] => ""
  | (name, v) :: rest =>
      match rest with
      | [] => name ++ "=" ++ v
      | _ :: _ => name ++ "=" ++ v ++ "&" ++ query_of rest
      end
  end.

(** The options that [build_config] reads. *)
Definition read_options : list string :=
  ["flow"; "type"; "security"; "fp"; "sni"; "pbk"; "sid"].

(** ** Example inputs *)

(** An instance of the two library functions for the examples, whose links
    have no percent escape and no bracket, so that neither function is
    called on them. *)
Definition no_escapes (s : string) : string := s.
Definition any_host (netloc : string) : bool := true.

(** A file in UTF-8, which has every character, on a device that takes
    every write; and a file in ASCII on the same device. *)
Definition utf8_file : Environment :=
  {| encodable := fun _ => true; open_fails := false; write_fails := fun _ => false |}.
Definition ascii_file : Environment :=
  {| encodable := fun c => N.ltb (code c) 128; open_fails := false;
     write_fails := fun _ => false |}.

Definition sample_link : string :=
  "vless://ABC-123@example.com:443?security=reality&sni=example.com&pbk=KEY&sid=01#MyNode".

Definition sample : Namespace := arguments sample_link None None.

Definition flow_link : string :=
  "vless://ABC-123@example.com:443?flow=xtls-rprx-vision&sni=example.com".

Definition flow_parsed : ParseResult :=
  {| scheme := "vless"; netloc := "ABC-123@example.com:443"; path := "";
     query := "flow=xtls-rprx-vision&sni=example.com"; fragment := "" |}.

Definition http_9999 : Namespace := arguments sample_link (Some 9999%Z) None.


Definition plain_link : string := "vless://ABC-123@example.com:443?sni=example.com".

(** A link whose host has the letter U+00E9, which ASCII lacks. *)
Definition latin_host_link : string := "vless://u@h" ++ String "233" ":1".

Definition nested_value : value :=
  VDict [("a", VList [VInt 1; VStr "x"; VList []; VDict [("k", VNone)]]);
         ("b", absent);
         ("c", DotAccessibleDict false [])].

Definition both_ports : Namespace :=
  arguments sample_link (Some 1080%Z) (Some 1090%Z).

Definition sample_record : list (string * value) :=
  connection_record (VStr "ABC-123") (VStr "example.com") (VInt 443)
    [("security", VStr "reality"); ("sni", VStr "example.com");
     ("pbk", VStr "KEY"); ("sid", VStr "01")]
    (VStr "MyNode").

Definition path_link : string :=
  "vless://ABC-123@example.com:443/path?sni=example.com&encryption=none#node".

Definition path_parsed : ParseResult :=
  {| scheme := "vless"; netloc := "ABC-123@example.com:443"; path := "/path";
     query := "sni=example.com&encryption=none"; fragment := "node" |}.

Definition plain_parsed : ParseResult :=
  {| scheme := "vless"; netloc := "ABC-123@example.com:443"; path := "";
     query := "sni=example.com"; fragment := "" |}.

Definition port_70000_parsed : ParseResult :=
  {| scheme := "vless"; netloc := "user@host:70000"; path := "/";
     query := ""; fragment := "" |}.

(** ** Induction on values *)

Section ValueInduction.

Variable P : value -> Prop.
Hypothesis on_none : P VNone.
Hypothesis on_bool : forall b, P (VBool b).
Hypothesis on_int : forall n, P (VInt n).
Hypothesis on_str : forall s, P (VStr s).
Hypothesis on_list : forall l, Forall P l -> P (VList l).
Hypothesis on_dict : forall d, Forall (fun kv => P (snd kv)) d -> P (VDict d).
Hypothesis on_dot : forall m d, Forall (fun kv => P (snd kv)) d -> P (VDot m d).
Hypothesis on_builtin : forall name, P (VBuiltin name).

Fixpoint value_induction (v : value) : P v :=
  let entries :=
    fix entries (d : list (string * value)) : Forall (fun kv => P (snd kv)) d :=
      match d with
      | [] => Forall_nil _
      | kv :: rest => Forall_cons kv (value_induction (snd kv)) (entries rest)
      end in
  match v with
  | VNone => on_none
  | VBool b => on_bool b
  | VInt n => on_int n
  | VStr s => on_str s
  | VList l =>
      on_list l
        ((fix elements (l : list value) : Forall P l :=
            match l with
            | [] => Forall_nil _
            | x :: rest => Forall_cons x (value_induction x) (elements rest)
            end) l)
  | VDict d => on_dict d (entries d)
  | VDot m d => on_dot m d (entries d)
  | VBuiltin name => on_builtin name
  end.

End ValueInduction.

(** * Properties *)

(** ** Texts *)

Lemma append_empty (s : string) : s ++ EmptyString = s.
Proof. induction s as [|c s IH]; simpl; auto. now rewrite IH. Qed.

Lemma append_assoc (a b c : string) : (a ++ b) ++ c = a ++ b ++ c.
Proof. induction a as [|x a IH]; simpl; auto. now rewrite IH. Qed.

(** ** The encoder comes to its end on serializable values *)

Lemma list_items_finished encode level items :
  Forall (fun item => snd (encode item) = true) items ->
  forall buf, snd (list_items encode level buf items) = true.
Proof.
  induction 1 as [|item rest Hitem _ IH]; intros buf; cbn [list_items]; auto.
  specialize (IH ("," ++ newline_indent (S level))).
  destruct (list_items encode level ("," ++ newline_indent (S level)) rest)
    as [more finished].
  cbn [snd] in IH. subst finished.
  destruct (encode_scalar item); [reflexivity|].
  destruct (encode item) as [chunks finished]. cbn [snd] in Hitem. now subst finished.
Qed.

Lemma dict_items_finished encode level items :
  Forall (fun kv => snd (encode (snd kv)) = true) items ->
  forall first, snd (dict_items encode level first items) = true.
Proof.
  induction 1 as [|[key v] rest Hitem _ IH]; intros first; cbn [dict_items]; auto.
  specialize (IH false).
  destruct (dict_items encode level false rest) as [more finished].
  cbn [snd] in IH, Hitem. subst finished.
  destruct (encode v) as [chunks finished]. cbn [snd] in Hitem. now subst finished.
Qed.

Lemma iterencode_finished v :
  serializable v = true -> forall level, snd (iterencode level v) = true.
Proof.
  induction v using value_induction; intros Hs level; simpl in *;
    try reflexivity; try discriminate.
  - now destruct b.
  - destruct l; [reflexivity|]. apply list_items_finished.
    rewrite forallb_forall in Hs. rewrite Forall_forall in *.
    intros x Hx. apply H; auto.
  - destruct d; [reflexivity|].
    assert (F : snd (dict_items (iterencode (S level)) level true (p :: d)) = true).
    { apply dict_items_finished.
      rewrite forallb_forall in Hs. rewrite Forall_forall in *.
      intros kv Hkv. apply H; auto. }
    destruct (dict_items (iterencode (S level)) level true (p :: d)). exact F.
  - destruct m; [reflexivity|].
    assert (F : snd (dict_items (iterencode (S level)) level true d) = true).
    { apply dict_items_finished.
      rewrite forallb_forall in Hs. rewrite Forall_forall in *.
      intros kv Hkv. apply H; auto. }
    destruct (dict_items (iterencode (S level)) level true d). exact F.
Qed.

(** ** Writing the chunks *)

Lemma write_chunks_through index chunks written :
  (forall k, write_fails env k = false) -> encodes chunks ->
  write_chunks index chunks written = (None, written ++ text_of chunks).
Proof.
  intros Hw He. revert index written.
  induction He as [|chunk rest Hc _ IH]; intros index written; simpl.
  - now rewrite append_empty.
  - rewrite Hc, Hw. simpl. rewrite IH. now rewrite append_assoc.
Qed.



Lemma encodes_every chunks : (forall c, encodable env c = true) -> encodes chunks.
Proof.
  intros H. apply Forall_forall. intros chunk _.
  induction chunk as [|c chunk IH]; simpl; auto. now rewrite H.
Qed.

(** ** Dictionaries *)

Lemma dict_get_set_same {A : Type} (key : string) (v : A) d :
  dict_get key (dict_set key v d) = Some v.
Proof.
  induction d as [|[k w] d IH]; simpl.
  - now rewrite String.eqb_refl.
  - destruct (String.eqb key k) eqn:E; simpl; rewrite E; auto.
Qed.

Lemma dict_get_set_other {A : Type} (key other : string) (v : A) d :
  other <> key -> dict_get other (dict_set key v d) = dict_get other d.
Proof.
  intros Hne. induction d as [|[k w] d IH]; simpl.
  - destruct (String.eqb other key) eqn:E; auto.
    apply String.eqb_eq in E. contradiction.
  - destruct (String.eqb key k) eqn:E; simpl.
    + apply String.eqb_eq in E. subst k.
      destruct (String.eqb other key) eqn:E'; auto.
      apply String.eqb_eq in E'. contradiction.
    + now rewrite IH.
Qed.

Lemma dict_get_wrap_entries (key : string) raw :
  dict_get key (wrap_entries raw) = option_map wrap_value (dict_get key raw).
Proof.
  induction raw as [|[k w] raw IH]; simpl; auto.
  destruct (String.eqb key k); auto.
Qed.

(** ** build_config *)

(** The twelve attribute chains of [build_config], one case each. *)
Ltac build_config_cases H :=
  cbv beta zeta iota delta [build_config dot bind] in H;
  repeat match type of H with
         | context [match ?r with Ok _ => _ | Raise _ => _ end] =>
             destruct r eqn:?; try discriminate H
         end;
  injection H as <-.

Lemma build_config_shape raw doc :
  build_config raw = Ok doc ->
  map (field "tag") (inbounds doc) = [Some (VStr "socks"); Some (VStr "http")]
  /\ Forall (fun inbound =>
               field "listen" inbound = Some (VStr "127.0.0.1")
               /\ at_path inbound [Key "sniffing"; Key "enabled"] = Some (VBool true)
               /\ at_path inbound [Key "sniffing"; Key "destOverride"]
                  = Some (VList [VStr "http"; VStr "tls"]))
            (inbounds doc)
  /\ map (field "tag") (outbounds doc)
     = [Some (VStr "proxy"); Some (VStr "direct"); Some (VStr "block")]
  /\ rules doc = expected_rules.
Proof.
  intros H. build_config_cases H.
  repeat split; try reflexivity.
  repeat constructor.
Qed.

(** ** Attribute chains *)

Lemma ordinary_lookup_flag (m m' : bool) (name : string) :
  ordinary_lookup m name = None -> ordinary_lookup m' name = None.
Proof.
  unfold ordinary_lookup.
  repeat match goal with
         | |- context [if ?c then _ else _] => destruct c; try discriminate
         end; auto.
Qed.

Lemma getattr_hook m entries name :
  ordinary_lookup m name = None ->
  getattr (VDot m entries) name = Ok (__getattr__ m entries name).
Proof. intros H. simpl. now rewrite H. Qed.

Lemma hook_lookup entries key :
  __getattr__ false (wrap_entries entries) key = present (dict_get key entries).
Proof.
  unfold __getattr__. rewrite dict_get_wrap_entries.
  now destruct (dict_get key entries).
Qed.

Ltac unfold_read :=
  cbv beta iota delta [read fold_left dot bind DotAccessibleDict].

Lemma read_one raw a :
  ordinary_lookup false a = None ->
  read raw [a] = Ok (present (dict_get a raw)).
Proof.
  intros Ha. unfold_read. now rewrite (getattr_hook _ _ _ Ha), hook_lookup.
Qed.

Lemma read_two raw a b d :
  ordinary_lookup false a = None ->
  ordinary_lookup false b = None ->
  dict_get a raw = Some (VDict d) ->
  read raw [a; b] = Ok (present (dict_get b d)).
Proof.
  intros Ha Hb Hd. unfold_read.
  rewrite (getattr_hook _ _ _ Ha), hook_lookup, Hd.
  change (present (Some (VDict d))) with (VDot false (wrap_entries d)).
  now rewrite (getattr_hook _ _ _ Hb), hook_lookup.
Qed.

Lemma read_two_none raw a b :
  ordinary_lookup false a = None ->
  ordinary_lookup false b = None ->
  dict_get a raw = Some VNone ->
  read raw [a; b] = Ok absent.
Proof.
  intros Ha Hb Hd. unfold_read.
  rewrite (getattr_hook _ _ _ Ha), hook_lookup, Hd.
  change (present (Some VNone)) with (VDot true []).
  now rewrite (getattr_hook _ _ _ (ordinary_lookup_flag false true b Hb)).
Qed.

(** ** parse_vless_link *)

Lemma username_kind parsed :
  username parsed = VNone \/ exists s, username parsed = VStr s.
Proof.
  unfold username. destruct (rpartition "@" (netloc parsed)) as [[u []] h]; auto.
  destruct (partition ":" u) as [[name ?] ?]. eauto.
Qed.

Lemma hostname_kind parsed :
  hostname parsed = VNone \/ exists s, hostname parsed = VStr s.
Proof.
  unfold hostname. destruct (String.eqb (fst (_hostinfo parsed)) ""); auto.
  destruct (partition "%" (fst (_hostinfo parsed))) as [[name ?] ?]. eauto.
Qed.

Lemma port_kind parsed v :
  port parsed = Ok v -> v = VNone \/ exists n, v = VInt n.
Proof.
  unfold port. destruct (snd (_hostinfo parsed)) as [text|].
  - destruct (isdigit_ascii text); [|discriminate].
    destruct (Nat.ltb 4300 (String.length text)); [discriminate|].
    destruct (Z.leb 0 (int_of_digits text) && Z.leb (int_of_digits text) 65535)%bool;
      [|discriminate].
    intros [= <-]. eauto.
  - intros [= <-]. auto.
Qed.

Lemma truthy_str v :
  v = VNone \/ (exists s, v = VStr s) ->
  truthy v = true -> exists s, v = VStr s /\ s <> "".
Proof.
  intros [->|[s ->]]; simpl; [discriminate|].
  intros H. exists s. split; auto. intros ->. discriminate.
Qed.

Lemma truthy_int v :
  v = VNone \/ (exists n, v = VInt n) ->
  truthy v = true -> exists n, v = VInt n /\ n <> 0%Z.
Proof.
  intros [->|[n ->]]; simpl; [discriminate|].
  intros H. exists n. split; auto. intros ->. discriminate.
Qed.

(** What a successful [parse_vless_link] went through. *)
Lemma parse_vless_link_ok link info :
  parse_vless_link link = Ok info ->
  exists parsed u h p,
    startswith (lower link) "vless://" = true
    /\ urlparse link = Ok parsed
    /\ username parsed = VStr u /\ u <> ""
    /\ hostname parsed = VStr h /\ h <> ""
    /\ port parsed = Ok (VInt p) /\ p <> 0%Z
    /\ info = connection_record (VStr u) (VStr h) (VInt p)
                (first_values (parse_qs (query parsed))) (name_of parsed).
Proof.
  unfold parse_vless_link.
  destruct (startswith (lower link) "vless://") eqn:Hs; [|discriminate]. simpl.
  destruct (urlparse link) as [parsed|] eqn:Hp; [|discriminate]. simpl.
  destruct (String.eqb (lower (scheme parsed)) "vless"); [|discriminate]. simpl.
  destruct (truthy (username parsed)) eqn:Hu; [|discriminate]. simpl.
  destruct (port parsed) as [pv|] eqn:Hport; [|discriminate]. simpl.
  destruct (truthy (hostname parsed)) eqn:Hh; [|discriminate].
  destruct (truthy pv) eqn:Hv; [|discriminate]. simpl.
  intros [= <-].
  destruct (truthy_str _ (username_kind parsed) Hu) as (u & Eu & Nu).
  destruct (truthy_str _ (hostname_kind parsed) Hh) as (h & Eh & Nh).
  destruct (truthy_int _ (port_kind parsed pv Hport) Hv) as (p & -> & Np).
  exists parsed, u, h, p. rewrite Eu, Eh. unfold name_of, connection_record.
  repeat split; auto.
Qed.

(** ** main *)

Lemma check_port_ok flag port u :
  check_port flag port = Ok u -> port_in_range port.
Proof.
  unfold check_port, port_in_range. destruct port as [n|]; auto.
  destruct (Z.leb 1 n && Z.leb n 65535)%bool eqn:E; [|discriminate].
  intros _. apply andb_prop in E as [E1 E2]. lia.
Qed.

Lemma parse_args_ok argv args :
  parse_args argv = Ok args ->
  args = argv /\ port_in_range (http_proxy argv) /\ port_in_range (socks5_proxy argv).
Proof.
  unfold parse_args.
  destruct (check_port "http-proxy" (http_proxy argv)) eqn:E1; [|discriminate].
  destruct (check_port "socks5-proxy" (socks5_proxy argv)) eqn:E2; [|discriminate].
  simpl. intros [= <-]. eauto using check_port_ok.
Qed.

Lemma main_document_inv argv doc :
  main_document argv = Ok doc ->
  exists info,
    parse_args argv = Ok argv
    /\ parse_vless_link (vless_link argv) = Ok info
    /\ build_config (main_params argv info) = Ok doc.
Proof.
  unfold main_document. destruct (parse_args argv) as [args|] eqn:Ea; [|discriminate].
  destruct (parse_args_ok _ _ Ea) as (-> & _). simpl.
  destruct (parse_vless_link (vless_link argv)) as [info|]; [|discriminate].
  simpl. eauto.
Qed.

Lemma main_document_eq argv info :
  parse_args argv = Ok argv ->
  parse_vless_link (vless_link argv) = Ok info ->
  main_document argv = build_config (main_params argv info).
Proof. intros Ha Hp. unfold main_document. now rewrite Ha; simpl; rewrite Hp. Qed.

Lemma str_of_int_nonempty n : str_of_int n <> "".
Proof.
  unfold str_of_int, NilZero.string_of_int, NilZero.string_of_uint.
  destruct (Z.to_int n) as [d|d]; destruct d; simpl; discriminate.
Qed.

Lemma truthy_str_of_int n : truthy (VStr (str_of_int n)) = true.
Proof.
  simpl. destruct (String.eqb (str_of_int n) "") eqn:E; auto.
  apply String.eqb_eq in E. now apply str_of_int_nonempty in E.
Qed.

Lemma port_text_kept n default :
  (if truthy (if String.eqb (str_of_int n) "" then absent else VStr (str_of_int n))
   then (if String.eqb (str_of_int n) "" then absent else VStr (str_of_int n))
   else default)
  = VStr (str_of_int n).
Proof.
  destruct (String.eqb (str_of_int n) "") eqn:E.
  - apply String.eqb_eq in E. now apply str_of_int_nonempty in E.
  - now rewrite truthy_str_of_int.
Qed.

(** The values of [build_proxies] are texts. *)
Lemma build_proxies_values http socks key v :
  dict_get key (build_proxies http socks) = Some v -> exists s, v = VStr s.
Proof.
  unfold build_proxies, set_if_given.
  destruct http as [h|], socks as [k|]; simpl;
    repeat match goal with
           | |- context [if ?c then _ else _] => destruct c; simpl
           end;
    try discriminate; intros [= <-]; eauto.
Qed.

Lemma first_values_values raw_qs key v :
  dict_get key (first_values raw_qs) = Some v -> exists s, v = VStr s.
Proof.
  induction raw_qs as [|[k vs] rest IH]; simpl; [discriminate|].
  destruct (String.eqb key k); auto.
  intros [= <-]. destruct vs; eauto.
Qed.

Lemma dict_get_first_values raw_qs key :
  dict_get key (first_values raw_qs)
  = option_map (fun values => VStr (hd "" values)) (dict_get key raw_qs).
Proof.
  induction raw_qs as [|[k vs] rest IH]; simpl; auto.
  destruct (String.eqb key k); auto. now destruct vs.
Qed.

Lemma present_text (d : list (string * value)) key :
  (forall v, dict_get key d = Some v -> exists s, v = VStr s) ->
  present (dict_get key d) = text_or_absent (dict_get key d).
Proof.
  intros H. destruct (dict_get key d) as [v|]; auto.
  destruct (H v eq_refl) as [s ->]. unfold present, text_or_absent, py_or. simpl.
  now destruct (String.eqb s "").
Qed.

Lemma has_none_text_or_absent found : has_none (text_or_absent found) = false.
Proof.
  destruct found as [[]|]; auto. simpl. now destruct (String.eqb s "").
Qed.

Lemma serializable_text_or_absent found : serializable (text_or_absent found) = true.
Proof.
  destruct found as [[]|]; auto. simpl. now destruct (String.eqb s "").
Qed.

Lemma chain_one raw a :
  Ok (DotAccessibleDict false raw) .> a = read raw [a].
Proof. reflexivity. Qed.

Lemma chain_two raw a b :
  Ok (DotAccessibleDict false raw) .> a .> b = read raw [a; b].
Proof. reflexivity. Qed.

(** A chain depends on the parameters through its first name only. *)
Lemma read_first raw a rest :
  ordinary_lookup false a = None ->
  read raw (a :: rest) = fold_left dot rest (Ok (present (dict_get a raw))).
Proof.
  intros Ha. unfold read. cbn [fold_left]. f_equal.
  cbv beta iota delta [dot bind DotAccessibleDict].
  now rewrite (getattr_hook _ _ _ Ha), hook_lookup.
Qed.

(** [build_config] reads four keys of its argument and no other. *)
Lemma build_config_reads raw raw' :
  (forall key, In key ["proxies"; "server"; "uuid"; "params"] ->
               dict_get key raw = dict_get key raw') ->
  build_config raw = build_config raw'.
Proof.
  intros H. unfold build_config. cbv zeta.
  rewrite !chain_two, !chain_one.
  rewrite !(read_first raw), !(read_first raw') by reflexivity.
  rewrite !H by (simpl; tauto). reflexivity.
Qed.

(** What [build_config] reads from the parameters that [main] assembles. *)
Section Reads.

Variables (argv : Namespace) (u h : string) (p : Z)
          (options : list (string * value)) (name : value).
Hypothesis u_given : u <> "".
Hypothesis h_given : h <> "".
Hypothesis p_given : p <> 0%Z.
Hypothesis options_text :
  forall key v, dict_get key options = Some v -> exists s, v = VStr s.

Local Abbreviation raw :=
  (main_params argv (connection_record (VStr u) (VStr h) (VInt p) options name)).

Lemma read_uuid : read raw ["uuid"] = Ok (VStr u).
Proof.
  rewrite read_one by reflexivity. unfold raw, main_params, connection_record.
  simpl. unfold py_or. simpl.
  destruct (String.eqb u "") eqn:E; auto. now apply String.eqb_eq in E.
Qed.

Lemma read_host : read raw ["server"; "host"] = Ok (VStr h).
Proof.
  rewrite (read_two raw "server" "host" [("host", VStr h); ("port", VInt p)])
    by reflexivity.
  simpl. unfold py_or. simpl.
  destruct (String.eqb h "") eqn:E; auto. now apply String.eqb_eq in E.
Qed.

Lemma read_port : read raw ["server"; "port"] = Ok (VInt p).
Proof.
  rewrite (read_two raw "server" "port" [("host", VStr h); ("port", VInt p)])
    by reflexivity.
  simpl. unfold py_or. simpl.
  destruct (Z.eqb p 0) eqn:E; auto. now apply Z.eqb_eq in E.
Qed.

Lemma read_option key :
  ordinary_lookup false key = None ->
  read raw ["params"; key] = Ok (text_or_absent (dict_get key options)).
Proof.
  intros Hk. rewrite (read_two raw "params" key options) by (auto; reflexivity).
  f_equal. apply present_text. apply options_text.
Qed.

Lemma read_proxy key :
  ordinary_lookup false key = None ->
  read raw ["proxies"; key]
  = Ok (text_or_absent
          (dict_get key (build_proxies (http_proxy argv) (socks5_proxy argv)))).
Proof.
  intros Hk.
  destruct (build_proxies (http_proxy argv) (socks5_proxy argv)) as [|kv rest] eqn:E.
  - rewrite read_two_none; auto.
    unfold raw, main_params, proxies_value. now rewrite E.
  - rewrite (read_two raw "proxies" key (kv :: rest)); auto.
    + f_equal. apply present_text. intros v. rewrite <- E.
      apply build_proxies_values.
    + unfold raw, main_params, proxies_value. now rewrite E.
Qed.

Lemma has_none_or_default found default :
  has_none default = false ->
  has_none (py_or (text_or_absent found) default) = false.
Proof.
  intros H. unfold py_or.
  destruct (truthy (text_or_absent found)); auto using has_none_text_or_absent.
Qed.

Lemma serializable_or_default found default :
  serializable default = true ->
  serializable (py_or (text_or_absent found) default) = true.
Proof.
  intros H. unfold py_or.
  destruct (truthy (text_or_absent found)); auto using serializable_text_or_absent.
Qed.


(** The document for these parameters: it exists, holds no [None], and
    its twelve leaves are the parts of the link and of the ports. *)
Lemma build_config_main :
  let proxy key :=
    text_or_absent (dict_get key (build_proxies (http_proxy argv) (socks5_proxy argv))) in
  let option key := text_or_absent (dict_get key options) in
  exists doc,
    build_config raw = Ok doc
    /\ has_none doc = false
    /\ serializable doc = true
    /\ at_path doc [Key "inbounds"; Index 0; Key "port"]
       = Some (py_or (proxy "socks_port") (VInt 8107))
    /\ at_path doc [Key "inbounds"; Index 1; Key "port"]
       = Some (py_or (proxy "http_port") (VInt 8108))
    /\ at_path doc (proxy_server ++ [Key "address"]) = Some (VStr h)
    /\ at_path doc (proxy_server ++ [Key "port"]) = Some (VInt p)
    /\ at_path doc (proxy_user ++ [Key "id"]) = Some (VStr u)
    /\ at_path doc (proxy_user ++ [Key "flow"])
       = Some (py_or (option "flow") (VStr "xtls-rprx-vision-udp443"))
    /\ at_path doc (proxy_stream ++ [Key "network"])
       = Some (py_or (option "type") (VStr "tcp"))
    /\ at_path doc (proxy_stream ++ [Key "security"])
       = Some (py_or (option "security") (VStr "reality"))
    /\ at_path doc (proxy_reality ++ [Key "fingerprint"]) = Some (option "fp")
    /\ at_path doc (proxy_reality ++ [Key "serverName"]) = Some (option "sni")
    /\ at_path doc (proxy_reality ++ [Key "publicKey"]) = Some (option "pbk")
    /\ at_path doc (proxy_reality ++ [Key "shortId"]) = Some (option "sid").
Proof.
  intros proxy option. unfold build_config. cbv zeta.
  rewrite !chain_two, !chain_one.
  rewrite read_uuid, read_host, read_port.
  rewrite !read_proxy, !read_option by reflexivity.
  cbv beta iota delta [bind].
  fold (proxy "socks_port") (proxy "http_port").
  fold (option "flow") (option "type") (option "security")
       (option "fp") (option "sni") (option "pbk") (option "sid").
  assert (Hp : forall key default, has_none default = false ->
                 has_none (py_or (proxy key) default) = false)
    by (intros; now apply has_none_or_default).
  assert (Ho : forall key default, has_none default = false ->
                 has_none (py_or (option key) default) = false)
    by (intros; now apply has_none_or_default).
  assert (Hv : forall key, has_none (option key) = false)
    by (intros; apply has_none_text_or_absent).
  assert (Sp : forall key default, serializable default = true ->
                 serializable (py_or (proxy key) default) = true)
    by (intros; now apply serializable_or_default).
  assert (So : forall key default, serializable default = true ->
                 serializable (py_or (option key) default) = true)
    by (intros; now apply serializable_or_default).
  assert (Sv : forall key, serializable (option key) = true)
    by (intros; apply serializable_text_or_absent).
  clearbody proxy option.
  eexists. split; [reflexivity|]. split; [|split].
  - cbn [has_none existsb snd orb].
    rewrite !Hp, !Ho, !Hv by reflexivity. reflexivity.
  - cbn [serializable forallb snd andb].
    rewrite !Sp, !So, !Sv by reflexivity. reflexivity.
  - repeat match goal with |- _ /\ _ => split end; reflexivity.
Qed.

End Reads.

(** ** Runs on valid arguments *)

(** A run on valid arguments produces a document with these leaves. *)
Lemma main_document_valid argv :
  valid argv ->
  exists doc parsed u h p,
    main_document argv = Ok doc
    /\ urlparse (vless_link argv) = Ok parsed
    /\ username parsed = VStr u /\ hostname parsed = VStr h
    /\ port parsed = Ok (VInt p)
    /\ has_none doc = false
    /\ serializable doc = true
    /\ (let proxy key :=
          text_or_absent
            (dict_get key (build_proxies (http_proxy argv) (socks5_proxy argv))) in
        let option key := text_or_absent (dict_get key (options_of parsed)) in
        at_path doc [Key "inbounds"; Index 0; Key "port"]
        = Some (py_or (proxy "socks_port") (VInt 8107))
        /\ at_path doc [Key "inbounds"; Index 1; Key "port"]
           = Some (py_or (proxy "http_port") (VInt 8108))
        /\ at_path doc (proxy_server ++ [Key "address"]) = Some (VStr h)
        /\ at_path doc (proxy_server ++ [Key "port"]) = Some (VInt p)
        /\ at_path doc (proxy_user ++ [Key "id"]) = Some (VStr u)
        /\ at_path doc (proxy_user ++ [Key "flow"])
           = Some (py_or (option "flow") (VStr "xtls-rprx-vision-udp443"))
        /\ at_path doc (proxy_stream ++ [Key "network"])
           = Some (py_or (option "type") (VStr "tcp"))
        /\ at_path doc (proxy_stream ++ [Key "security"])
           = Some (py_or (option "security") (VStr "reality"))
        /\ at_path doc (proxy_reality ++ [Key "fingerprint"]) = Some (option "fp")
        /\ at_path doc (proxy_reality ++ [Key "serverName"]) = Some (option "sni")
        /\ at_path doc (proxy_reality ++ [Key "publicKey"]) = Some (option "pbk")
        /\ at_path doc (proxy_reality ++ [Key "shortId"]) = Some (option "sid")).
Proof.
  intros (Ha & info & Hp).
  destruct (parse_vless_link_ok _ _ Hp)
    as (parsed & u & h & p & _ & Hparsed & Eu & Hu & Eh & Hh & Ep & Hpz & Hinfo).
  destruct (build_config_main argv u h p (options_of parsed) (name_of parsed)
              Hu Hh Hpz (first_values_values _))
    as (doc & Hdoc & Hnone & Hser & Hleaves).
  exists doc, parsed, u, h, p.
  rewrite (main_document_eq _ _ Ha Hp), Hinfo.
  repeat match goal with |- _ /\ _ => split end; auto; apply Hleaves.
Qed.

(** ** The shape of the document *)

(** C1. For every valid link and resolved ports the document has exactly
    two inbounds, socks then http, each listening on 127.0.0.1 with
    sniffing enabled and destination override http and tls; exactly three
    outbounds, proxy, direct, block; and exactly the eight routing rules in
    their priority order. *)
Theorem document_structure argv :
  valid argv ->
  exists doc, main_document argv = Ok doc /\ structured doc.
Proof.
  intros Hv.
  destruct (main_document_valid argv Hv) as (doc & parsed & u & h & p & Hdoc & _).
  exists doc. split; auto.
  destruct (main_document_inv _ _ Hdoc) as (info & _ & _ & Hb).
  destruct (build_config_shape _ _ Hb) as (H1 & H2 & H3 & H4).
  unfold structured. rewrite H4. repeat split; auto.
Qed.

(** ** Defaults of the protocol options *)

(** C2. A query string without the keys flow, type and security gives the
    outbound flow xtls-rprx-vision-udp443, network tcp and security
    reality; a query that supplies flow=xtls-rprx-vision gives that flow. *)
Theorem default_substitution argv parsed :
  valid argv ->
  urlparse (vless_link argv) = Ok parsed ->
  let supplied key := dict_get key (parse_qs (query parsed)) in
  exists doc,
    main_document argv = Ok doc
    /\ (supplied "flow" = None ->
        at_path doc (proxy_user ++ [Key "flow"])
        = Some (VStr "xtls-rprx-vision-udp443"))
    /\ (supplied "type" = None ->
        at_path doc (proxy_stream ++ [Key "network"]) = Some (VStr "tcp"))
    /\ (supplied "security" = None ->
        at_path doc (proxy_stream ++ [Key "security"]) = Some (VStr "reality"))
    /\ (forall more, supplied "flow" = Some ("xtls-rprx-vision" :: more) ->
        at_path doc (proxy_user ++ [Key "flow"]) = Some (VStr "xtls-rprx-vision")).
Proof.
  intros Hv Hparsed supplied.
  destruct (main_document_valid argv Hv)
    as (doc & parsed' & u & h & p & Hdoc & Hp' & _ & _ & _ & _ & _ & Hleaves).
  rewrite Hparsed in Hp'. injection Hp' as Heq. subst parsed'.
  destruct Hleaves as (_ & _ & _ & _ & _ & Hflow & Htype & Hsec & _).
  exists doc. split; auto.
  unfold options_of in *. rewrite dict_get_first_values in Hflow, Htype, Hsec.
  fold (supplied "flow") in Hflow. fold (supplied "type") in Htype.
  fold (supplied "security") in Hsec.
  repeat split.
  - intros E. now rewrite E in Hflow.
  - intros E. now rewrite E in Htype.
  - intros E. now rewrite E in Hsec.
  - intros more E. now rewrite E in Hflow.
Qed.

(** ** Listener ports *)

(** C3, as the code has it.  Without --socks5-proxy the socks inbound port
    is the number 8107; without --http-proxy the http inbound port is the
    number 8108; with --http-proxy n it is the decimal text of n, so for
    9999 the text "9999" and not the number. *)
Theorem port_fallback argv :
  valid argv ->
  socks5_proxy argv = None ->
  exists doc,
    main_document argv = Ok doc
    /\ socks_port_of doc = Some (VInt 8107)
    /\ (http_proxy argv = None -> http_port_of doc = Some (VInt 8108))
    /\ (forall n, http_proxy argv = Some n ->
                  http_port_of doc = Some (VStr (str_of_int n)))
    /\ (http_proxy argv = Some 9999%Z -> http_port_of doc = Some (VStr "9999")).
Proof.
  intros Hv Hsocks.
  destruct Hv as (Ha & Hinfo). pose proof (parse_args_ok _ _ Ha) as (_ & Hrange & _).
  destruct (main_document_valid argv (conj Ha Hinfo))
    as (doc & parsed & u & h & p & Hdoc & _ & _ & _ & _ & _ & _ & Hleaves).
  destruct Hleaves as (Hs & Hh & _).
  exists doc. split; auto. unfold socks_port_of, http_port_of.
  rewrite Hs, Hh, Hsocks. clear Hs Hh.
  assert (Hn : forall n, http_proxy argv = Some n ->
            build_proxies (http_proxy argv) None
            = [("http_port", VStr (str_of_int n))]).
  { intros n E. rewrite E in *. unfold build_proxies, set_if_given. simpl in *.
    destruct (Z.eqb n 0) eqn:Z0; [apply Z.eqb_eq in Z0; lia|]. reflexivity. }
  repeat split.
  - destruct (http_proxy argv) as [n|]; [rewrite (Hn n eq_refl)|]; reflexivity.
  - intros E. rewrite E. reflexivity.
  - intros n E. rewrite (Hn n E). cbn [dict_get String.eqb Ascii.eqb Bool.eqb text_or_absent].
    unfold py_or. now rewrite port_text_kept.
  - intros E. rewrite (Hn _ E). reflexivity.
Qed.

(** ** No field is null *)

(** C9. The document holds no null.  A field with a default takes the
    option when it is present and not empty, and the default otherwise.
    fingerprint, serverName, publicKey and shortId take the options fp,
    sni, pbk and sid verbatim when present and not empty, and without a
    default are the absent marker (an empty object) otherwise. *)
Theorem no_null_field argv :
  valid argv ->
  exists doc parsed,
    main_document argv = Ok doc
    /\ urlparse (vless_link argv) = Ok parsed
    /\ has_none doc = false
    /\ (forall key steps default, In (key, steps, default) defaulted_fields ->
        at_path doc steps
        = Some match dict_get key (options_of parsed) with
               | Some (VStr s) => if String.eqb s "" then VStr default else VStr s
               | _ => VStr default
               end)
    /\ (forall key steps, In (key, steps) verbatim_fields ->
        at_path doc steps
        = Some match dict_get key (options_of parsed) with
               | Some (VStr s) => if String.eqb s "" then absent else VStr s
               | _ => absent
               end).
Proof.
  intros Hv.
  destruct (main_document_valid argv Hv)
    as (doc & parsed & u & h & p & Hdoc & Hparsed & _ & _ & _ & Hnone & _ & Hleaves).
  destruct Hleaves as (_ & _ & _ & _ & _ & Hflow & Htype & Hsec & Hfp & Hsni & Hpbk & Hsid).
  exists doc, parsed. repeat split; auto.
  - intros key steps default Hin. simpl in Hin.
    assert (D : forall found d,
               py_or (text_or_absent found) (VStr d)
               = match found with
                 | Some (VStr s) => if String.eqb s "" then VStr d else VStr s
                 | _ => VStr d
                 end).
    { intros [[]|] d; try reflexivity. unfold text_or_absent, py_or.
      destruct (String.eqb s "") eqn:E; simpl; [reflexivity|]. now rewrite E. }
    destruct Hin as [[= <- <- <-]|[[= <- <- <-]|[[= <- <- <-]|[]]]];
      rewrite <- D; assumption.
  - intros key steps Hin. simpl in Hin.
    destruct Hin as [[= <- <-]|[[= <- <-]|[[= <- <-]|[[= <- <-]|[]]]]]; assumption.
Qed.

(** ** The checks of parse_vless_link *)

Lemma lower_char_inv c d :
  lower_char c = d -> c = d \/ (c = ascii_of_N (code d - 32) /\ is_upper c = true).
Proof.
  unfold lower_char. destruct (is_upper c) eqn:U; auto.
  intros <-. right. split; auto.
  destruct c as [[] [] [] [] [] [] [] []]; try discriminate U; reflexivity.
Qed.

(** A link that passes the first check spells vless:// in some case. *)
Lemma vless_prefix (link : string) :
  startswith (lower link) "vless://" = true ->
  exists c1 c2 c3 c4 c5 rest,
    link = String c1 (String c2 (String c3 (String c4 (String c5
             (String ":" (String "/" (String "/" rest)))))))
    /\ (c1 = "v" \/ c1 = "V")%char /\ (c2 = "l" \/ c2 = "L")%char
    /\ (c3 = "e" \/ c3 = "E")%char /\ (c4 = "s" \/ c4 = "S")%char
    /\ (c5 = "s" \/ c5 = "S")%char.
Proof.
  unfold startswith. intros H. apply String.prefix_correct in H.
  destruct link as [|c1 [|c2 [|c3 [|c4 [|c5 [|c6 [|c7 [|c8 rest]]]]]]]];
    try discriminate H.
  cbn [lower String.length substring] in H.
  injection H as H1 H2 H3 H4 H5 H6 H7 H8 _.
  exists c1, c2, c3, c4, c5, rest.
  apply lower_char_inv in H1, H2, H3, H4, H5, H6, H7, H8.
  destruct H6 as [->|[-> U]]; [|vm_compute in U; discriminate U].
  destruct H7 as [->|[-> U]]; [|vm_compute in U; discriminate U].
  destruct H8 as [->|[-> U]]; [|vm_compute in U; discriminate U].
  split; [reflexivity|].
  repeat split;
    match goal with
    | H : ?c = _ \/ _ |- ?c = _ \/ _ => destruct H as [->|[-> _]]; auto
    end.
Qed.

(** For such a link [urlsplit] finds the scheme vless. *)
Lemma urlsplit_vless c1 c2 c3 c4 c5 rest :
  (c1 = "v" \/ c1 = "V")%char -> (c2 = "l" \/ c2 = "L")%char ->
  (c3 = "e" \/ c3 = "E")%char -> (c4 = "s" \/ c4 = "S")%char ->
  (c5 = "s" \/ c5 = "S")%char ->
  urlsplit (String c1 (String c2 (String c3 (String c4 (String c5
              (String ":" (String "/" (String "/" rest))))))))
  = (located <- netloc_step (String "/" (String "/" (without_unsafe rest))) ;;
     let '(netloc, url) := located in
     let '(url, fragment) := split_off "#" url in
     let '(url, query) := split_off "?" url in
     Ok {| scheme := "vless"; netloc := netloc; path := url;
           query := query; fragment := fragment |}).
Proof.
  intros [-> | ->] [-> | ->] [-> | ->] [-> | ->] [-> | ->]; reflexivity.
Qed.

(** The second scheme check cannot fail: a link that passes the first one
    has the parsed scheme vless. *)
Lemma parsed_scheme link parsed :
  startswith (lower link) "vless://" = true ->
  urlparse link = Ok parsed ->
  scheme parsed = "vless".
Proof.
  intros H Hp.
  destruct (vless_prefix link H) as (c1 & c2 & c3 & c4 & c5 & rest & -> & L).
  destruct L as (L1 & L2 & L3 & L4 & L5).
  unfold urlparse in Hp. rewrite (urlsplit_vless _ _ _ _ _ rest L1 L2 L3 L4 L5) in Hp.
  destruct (netloc_step (String "/" (String "/" (without_unsafe rest))))
    as [[netloc url]|]; [|discriminate Hp].
  cbn [bind] in Hp.
  destruct (split_off "#" url) as [url' fragment].
  destruct (split_off "?" url') as [url'' query].
  now injection Hp as <-.
Qed.



(** The endpoint check, once the library could read the port. *)
Lemma endpoint_rejected link parsed port_value :
  startswith (lower link) "vless://" = true ->
  urlparse link = Ok parsed ->
  truthy (username parsed) = true ->
  port parsed = Ok port_value ->
  truthy (hostname parsed) = false \/ truthy port_value = false ->
  parse_vless_link link = Raise (SystemExit "Proxy host or port not defined").
Proof.
  intros H Hp Hu Hport Hmissing. unfold parse_vless_link.
  rewrite H, Hp. simpl. rewrite (parsed_scheme link parsed H Hp), Hu. simpl.
  rewrite Hport. simpl.
  destruct Hmissing as [-> | ->]; auto. now rewrite orb_true_r.
Qed.

(** A port text that is not a number never reaches the endpoint check. *)
Lemma port_text_rejected link parsed text :
  startswith (lower link) "vless://" = true ->
  urlparse link = Ok parsed ->
  truthy (username parsed) = true ->
  snd (_hostinfo parsed) = Some text ->
  isdigit_ascii text = false ->
  parse_vless_link link = Raise (ValueError PortNotInteger).
Proof.
  intros H Hp Hu Htext Hd. unfold parse_vless_link.
  rewrite H, Hp. simpl. rewrite (parsed_scheme link parsed H Hp), Hu. simpl.
  unfold port. now rewrite Htext, Hd.
Qed.

(** C4, at the link vless://user@host:abc/.  The link passes the scheme
    check and the identity check and its port text is not a number: the
    [port] property of the library raises ValueError, which nothing
    catches, so the run does not end with the diagnostic "Proxy host or
    port not defined".  A port above 65535 does the same. *)
Theorem unparseable_port_raises :
  let link := "vless://user@host:abc/" in
  startswith (lower link) "vless://" = true
  /\ (exists parsed,
        urlparse link = Ok parsed
        /\ username parsed = VStr "user"
        /\ hostname parsed = VStr "host"
        /\ snd (_hostinfo parsed) = Some "abc")
  /\ parse_vless_link link = Raise (ValueError PortNotInteger)
  /\ ~ MissingEndpoint (ValueError PortNotInteger)
  /\ parse_vless_link "vless://user@host:70000/" = Raise (ValueError PortOutOfRange).
Proof.
  cbv zeta. split; [reflexivity|]. split.
  - eexists. split; [reflexivity|]. repeat split.
  - split; [reflexivity|]. split; [|reflexivity].
    unfold MissingEndpoint. discriminate.
Qed.

Lemma main_failure argv e config_json :
  main_document argv = Raise e -> main argv config_json = (Some e, config_json).
Proof. intros H. unfold main. now rewrite H. Qed.

(** C5, at the link vless://@[host:1/.  The link declares the scheme and
    its identity is empty, which by the claim gives MissingIdentity.  But
    its netloc has an opening bracket without the closing one: [urlparse]
    raises ValueError before the identity is looked at and nothing catches
    it, so the run ends with a traceback and not with the diagnostic
    "User id is undefined".  It is the handler that is missing for the
    port of C4 as well. *)
Theorem malformed_netloc_raises :
  let link := "vless://@[host:1/" in
  startswith (lower link) "vless://" = true
  /\ _splitnetloc "@[host:1/" = ("@[host:1", "/")
  /\ username {| scheme := "vless"; netloc := "@[host:1"; path := "/";
                 query := ""; fragment := "" |} = VStr ""
  /\ urlparse link = Raise (ValueError InvalidIPv6URL)
  /\ parse_vless_link link = Raise (ValueError InvalidIPv6URL)
  /\ ~ MissingIdentity (ValueError InvalidIPv6URL)
  /\ (forall before,
        main (arguments link None None) before
        = (Some (ValueError InvalidIPv6URL), before)).
Proof.
  cbv zeta. repeat match goal with |- _ /\ _ => split end; try reflexivity.
  unfold MissingIdentity. discriminate.
Qed.


(** ** The query string *)

Lemma dict_get_first_pair key (pairs : list (string * string)) :
  dict_get key pairs = hd_error (values_for key pairs).
Proof.
  induction pairs as [|[k v] rest IH]; simpl; auto.
  unfold values_for. simpl. destruct (String.eqb key k); auto.
Qed.

Lemma dict_set_keys {A : Type} key (v : A) d :
  map fst (dict_set key v d)
  = if existsb (String.eqb key) (map fst d) then map fst d
    else (map fst d ++ [key])%list.
Proof.
  induction d as [|[k w] d IH]; simpl; auto.
  destruct (String.eqb key k); simpl; auto.
  rewrite IH. now destruct (existsb (String.eqb key) (map fst d)).
Qed.

Lemma dict_set_NoDup {A : Type} key (v : A) d :
  NoDup (map fst d) -> NoDup (map fst (dict_set key v d)).
Proof.
  intros H. rewrite dict_set_keys.
  destruct (existsb (String.eqb key) (map fst d)) eqn:E; auto.
  apply NoDup_app; auto.
  - repeat constructor. intros [].
  - intros k Hk [Ek|[]]. subst k.
    assert (existsb (String.eqb key) (map fst d) = true); [|congruence].
    apply existsb_exists. exists key. split; auto. apply String.eqb_refl.
Qed.

Lemma collect_NoDup pairs acc :
  NoDup (map fst acc) -> NoDup (map fst (collect pairs acc)).
Proof.
  revert acc. induction pairs as [|[k v] rest IH]; simpl; auto.
  intros acc H. apply IH. destruct (dict_get k acc); now apply dict_set_NoDup.
Qed.

(** [parse_qs] keeps, for each name, all its values in their order. *)
Lemma collect_values pairs acc key :
  listed (dict_get key (collect pairs acc))
  = (listed (dict_get key acc) ++ values_for key pairs)%list.
Proof.
  revert acc. induction pairs as [|[k v] rest IH]; intros acc; simpl.
  - unfold values_for. simpl. now rewrite app_nil_r.
  - rewrite IH. unfold values_for. simpl.
    destruct (String.eqb key k) eqn:E.
    + apply String.eqb_eq in E. subst k.
      destruct (dict_get key acc) as [vs|]; rewrite dict_get_set_same; simpl;
        [now rewrite <- app_assoc | reflexivity].
    + assert (key <> k) by (intros ->; now rewrite String.eqb_refl in E).
      destruct (dict_get k acc); now rewrite dict_get_set_other.
Qed.

Lemma collect_nonempty pairs acc :
  (forall k vs, dict_get k acc = Some vs -> vs <> []) ->
  forall k vs, dict_get k (collect pairs acc) = Some vs -> vs <> [].
Proof.
  revert acc. induction pairs as [|[n v] rest IH]; simpl; auto.
  intros acc H. apply IH. intros k vs.
  destruct (String.eqb k n) eqn:E.
  - apply String.eqb_eq in E. subst k.
    destruct (dict_get n acc) as [ws|]; rewrite dict_get_set_same;
      intros [= <-]; [destruct ws|]; simpl; discriminate.
  - assert (k <> n) by (intros ->; now rewrite String.eqb_refl in E).
    destruct (dict_get n acc); rewrite dict_get_set_other by assumption;
      apply H.
Qed.

Lemma parse_qs_first qs key :
  dict_get key (first_values (parse_qs qs))
  = option_map VStr (dict_get key (parse_qsl qs)).
Proof.
  rewrite dict_get_first_values, dict_get_first_pair. unfold parse_qs.
  pose proof (collect_values (parse_qsl qs) [] key) as Hv. simpl in Hv.
  pose proof (collect_nonempty (parse_qsl qs) []) as Hne.
  destruct (dict_get key (collect (parse_qsl qs) [])) as [vs|] eqn:E; simpl in *.
  - rewrite <- Hv. destruct vs; [|reflexivity].
    exfalso. eapply Hne; eauto. discriminate.
  - now rewrite <- Hv.
Qed.

Lemma parse_qsl_keeps qs name_value :
  In name_value (split "&" qs) -> name_value <> "" ->
  In (parse_field name_value) (parse_qsl qs).
Proof.
  intros Hin Hne. unfold parse_qsl. apply in_map. apply filter_In. split; auto.
  destruct (String.eqb name_value "") eqn:E; auto.
  now apply String.eqb_eq in E.
Qed.

Lemma dict_get_in {A : Type} key (v : A) d :
  In (key, v) d -> exists w, dict_get key d = Some w.
Proof.
  induction d as [|[k w] d IH]; simpl; [intros []|].
  intros [[= -> ->]|Hin].
  - rewrite String.eqb_refl. eauto.
  - destruct (String.eqb key k); eauto.
Qed.

Lemma break_none stop s :
  all_chars (fun c => negb (stop c)) s = true -> break stop s = (s, EmptyString).
Proof.
  induction s as [|c s IH]; simpl; auto.
  intros H. apply andb_prop in H as [Hc Hs].
  destruct (stop c); [discriminate|]. now rewrite IH.
Qed.

Lemma break_at stop s c tail :
  all_chars (fun c => negb (stop c)) s = true -> stop c = true ->
  break stop (s ++ String c tail) = (s, String c tail).
Proof.
  intros Hs Hc. induction s as [|d s IH]; simpl in *.
  - now rewrite Hc.
  - apply andb_prop in Hs as [Hd Hs]. destruct (stop d); [discriminate|].
    now rewrite IH.
Qed.

Lemma no_char_all c s :
  contains c s = false -> all_chars (fun d => negb (Ascii.eqb c d)) s = true.
Proof.
  induction s as [|d s IH]; simpl; auto.
  intros H. apply orb_false_elim in H as [Hd Hs].
  rewrite Ascii.eqb_sym, Hd. simpl. auto.
Qed.

(** A field without a value, with or without its equals sign, is a pair
    whose value is the empty text. *)
Lemma parse_field_blank name :
  contains "=" name = false ->
  parse_field name = (unquote (replace_char "+" " " name), "")
  /\ parse_field (name ++ "=") = (unquote (replace_char "+" " " name), "").
Proof.
  intros H. apply no_char_all in H. unfold parse_field, split1, partition. split.
  - rewrite break_none by assumption. now destruct name.
  - now rewrite break_at.
Qed.

Lemma record_params uuid host port options name :
  dict_get "params" (connection_record uuid host port options name)
  = Some (VDict options).
Proof. reflexivity. Qed.

(** C6. In the record that [parse_vless_link] returns, the options under
    params are decoded from the query string of the link: every key
    occurs once and holds the first of the values that the query gives to
    it, every field of the query that is not empty has its key among
    them, and a key whose value is blank is kept with the empty text as
    its value. *)
Theorem query_decoding link info :
  parse_vless_link link = Ok info ->
  exists parsed options,
    urlparse link = Ok parsed
    /\ dict_get "params" info = Some (VDict options)
    /\ NoDup (map fst options)
    /\ (forall key,
          dict_get key options
          = option_map VStr (hd_error (values_for key (parse_qsl (query parsed)))))
    /\ (forall name_value,
          In name_value (split "&" (query parsed)) -> name_value <> "" ->
          In (parse_field name_value) (parse_qsl (query parsed))
          /\ exists v,
               dict_get (fst (parse_field name_value)) options = Some (VStr v))
    /\ (forall name,
          contains "=" name = false ->
          parse_field name = (unquote (replace_char "+" " " name), "")
          /\ parse_field (name ++ "=") = (unquote (replace_char "+" " " name), "")).
Proof.
  intros H.
  destruct (parse_vless_link_ok _ _ H)
    as (parsed & u & h & p & _ & Hp & _ & _ & _ & _ & _ & _ & ->).
  exists parsed, (first_values (parse_qs (query parsed))).
  repeat match goal with |- _ /\ _ => split end.
  - exact Hp.
  - apply record_params.
  - unfold first_values. rewrite map_map. simpl.
    change (map (fun kv => fst kv) (parse_qs (query parsed)))
      with (map fst (parse_qs (query parsed))).
    apply collect_NoDup. constructor.
  - intros key. now rewrite parse_qs_first, dict_get_first_pair.
  - intros name_value Hin Hne.
    pose proof (parse_qsl_keeps (query parsed) name_value Hin Hne) as Hkept.
    split; [exact Hkept|]. rewrite parse_qs_first.
    destruct (parse_field name_value) as [k v]. simpl.
    destruct (dict_get_in k v _ Hkept) as [w ->]. simpl. eauto.
  - apply parse_field_blank.
Qed.

(** ** Attribute access *)

Lemma wrap_value_plain v : is_mapping v = false -> wrap_value v = v.
Proof. now destruct v. Qed.

(** C7, as the code has it.  For a wrapped mapping and a field name that
    ordinary attribute lookup does not resolve, attribute access returns
    the field when it holds a mapping, which comes back wrapped and tests
    true even when it is empty, or when it holds another value that tests
    true, which comes back as it is; it returns the absent marker when the
    field holds another value that tests false, or is missing.  The absent
    marker is false; a field that holds the empty text, zero or false
    reads as an absent one; and a chain of such names through the absent
    marker raises nothing and yields the absent marker at every depth. *)
Theorem attribute_access mapping name :
  ordinary_lookup false name = None ->
  let d := DotAccessibleDict false mapping in
  (forall inner,
      dict_get name mapping = Some (VDict inner) ->
      getattr d name = Ok (DotAccessibleDict false inner)
      /\ truthy (DotAccessibleDict false inner) = true)
  /\ (forall v, dict_get name mapping = Some v -> is_mapping v = true ->
                getattr d name = Ok (wrap_value v)
                /\ truthy (wrap_value v) = true)
  /\ (forall v, dict_get name mapping = Some v -> is_mapping v = false ->
                truthy v = true -> getattr d name = Ok v)
  /\ (forall v, dict_get name mapping = Some v -> is_mapping v = false ->
                truthy v = false -> getattr d name = Ok absent)
  /\ (dict_get name mapping = None -> getattr d name = Ok absent)
  /\ truthy absent = false
  /\ (forall v, In v [VStr ""; VInt 0; VBool false] ->
                dict_get name mapping = Some v -> getattr d name = Ok absent)
  /\ (forall names,
        Forall (fun n => ordinary_lookup false n = None) names ->
        fold_left dot names (Ok absent) = Ok absent).
Proof.
  intros Hname d. unfold d, DotAccessibleDict.
  rewrite (getattr_hook _ _ _ Hname), hook_lookup.
  repeat match goal with |- _ /\ _ => split end.
  - intros inner ->. split; reflexivity.
  - intros v -> M. destruct v; try discriminate M; split; reflexivity.
  - intros v -> M T. unfold present, py_or. now rewrite (wrap_value_plain v M), T.
  - intros v -> M T. unfold present, py_or. now rewrite (wrap_value_plain v M), T.
  - intros ->. reflexivity.
  - reflexivity.
  - intros v Hin ->. simpl in Hin.
    destruct Hin as [<-|[<-|[<-|[]]]]; reflexivity.
  - intros names H. induction H as [|n names Hn _ IH]; [reflexivity|].
    simpl. unfold absent, DotAccessibleDict at 1. simpl.
    rewrite (ordinary_lookup_flag false true n Hn). exact IH.
Qed.

(** ** Determinism *)

Lemma main_opened argv doc before :
  main_document argv = Ok doc -> open_fails env = false ->
  main argv before
  = (match fst (write_chunks 0 (fst (iterencode 0 doc)) "") with
     | Some e => Some e
     | None => if snd (iterencode 0 doc) then None else Some TypeError
     end,
     Some (snd (write_chunks 0 (fst (iterencode 0 doc)) ""))).
Proof.
  intros Hdoc Ho. unfold main. rewrite Hdoc, Ho.
  destruct (iterencode 0 doc) as [chunks finished]. cbn [fst snd].
  destruct (write_chunks 0 chunks "") as [[e|] written]; [reflexivity|].
  now destruct finished.
Qed.


(** The run of a document that the encoder can write to its end, in
    surroundings that take it. *)
Lemma main_written argv doc before :
  main_document argv = Ok doc -> serializable doc = true ->
  writes -> encodes (fst (iterencode 0 doc)) ->
  main argv before = (None, Some (text_of (fst (iterencode 0 doc)))).
Proof.
  intros Hdoc Hser [Ho Hw] He. rewrite (main_opened argv doc before Hdoc Ho).
  rewrite (write_chunks_through 0 _ "" Hw He).
  pose proof (iterencode_finished doc Hser 0) as F.
  cbn [fst snd append]. now rewrite F.
Qed.



(** ** The fragment *)

Lemma contains_app c a b : contains c (a ++ b) = contains c a || contains c b.
Proof.
  induction a as [|d a IH]; simpl; auto. now rewrite IH, orb_assoc.
Qed.

Lemma lower_app a b : lower (a ++ b) = lower a ++ lower b.
Proof. induction a as [|c a IH]; simpl; auto. now rewrite IH. Qed.

Lemma prefix_before c p x y :
  contains c p = false -> String.prefix p (x ++ String c y) = String.prefix p x.
Proof.
  revert x. induction p as [|d p IH]; intros x H; [now destruct x|].
  simpl in H. apply orb_false_elim in H as [Hd Hp].
  destruct x as [|e x]; simpl.
  - destruct (ascii_dec d c) as [->|]; auto. now rewrite Ascii.eqb_refl in Hd.
  - destruct (ascii_dec d e); auto.
Qed.

Lemma lstrip_before strip a c f :
  strip c = false -> lstrip strip (a ++ String c f) = lstrip strip a ++ String c f.
Proof.
  intros H. induction a as [|d a IH]; simpl.
  - now rewrite H.
  - now destruct (strip d).
Qed.

Lemma contains_lstrip strip c a :
  contains c a = false -> contains c (lstrip strip a) = false.
Proof.
  induction a as [|d a IH]; simpl; auto.
  intros H. apply orb_false_elim in H as [Hd Ha].
  destruct (strip d); auto. simpl. now rewrite Hd, Ha.
Qed.

Lemma remove_char_app c a b :
  remove_char c (a ++ b) = remove_char c a ++ remove_char c b.
Proof.
  induction a as [|d a IH]; simpl; auto.
  destruct (Ascii.eqb d c); simpl; now rewrite IH.
Qed.

Lemma contains_remove_char c x a :
  contains x a = false -> contains x (remove_char c a) = false.
Proof.
  induction a as [|d a IH]; simpl; auto.
  intros H. apply orb_false_elim in H as [Hd Ha].
  destruct (Ascii.eqb d c); auto. simpl. now rewrite Hd, IH.
Qed.

Lemma break_rejoin stop s : fst (break stop s) ++ snd (break stop s) = s.
Proof.
  induction s as [|c s IH]; simpl; auto.
  destruct (stop c); simpl; auto.
  destruct (break stop s). simpl in *. now rewrite IH.
Qed.

Lemma break_app stop a b :
  break stop (a ++ b)
  = match snd (break stop a) with
    | EmptyString => (a ++ fst (break stop b), snd (break stop b))
    | String _ _ => (fst (break stop a), snd (break stop a) ++ b)
    end.
Proof.
  induction a as [|c a IH]; simpl.
  - now destruct (break stop b).
  - destruct (stop c); simpl; auto.
    rewrite IH. destruct (break stop a) as [head tail]. simpl.
    now destruct tail.
Qed.

Lemma break_whole stop a :
  snd (break stop a) = EmptyString -> fst (break stop a) = a.
Proof.
  intros H. pose proof (break_rejoin stop a) as E. rewrite H in E.
  now rewrite append_empty in E.
Qed.

(** Breaking before a stop character that follows [a]. *)
Lemma break_before stop a c f :
  stop c = true ->
  break stop (a ++ String c f)
  = (fst (break stop a), snd (break stop a) ++ String c f).
Proof.
  intros H. rewrite break_app.
  destruct (snd (break stop a)) eqn:E; auto.
  rewrite (break_whole _ _ E). simpl. rewrite H. simpl.
  now rewrite append_empty.
Qed.

Lemma contains_break c stop a :
  contains c a = false ->
  contains c (fst (break stop a)) = false /\ contains c (snd (break stop a)) = false.
Proof.
  intros H. rewrite <- (break_rejoin stop a), contains_app in H.
  now apply orb_false_elim in H.
Qed.

Lemma all_chars_app keep a b :
  all_chars keep (a ++ b) = all_chars keep a && all_chars keep b.
Proof.
  induction a as [|c a IH]; simpl; auto. now rewrite IH, andb_assoc.
Qed.

(** The scheme step does not see what follows a "#" sign. *)
Lemma split_scheme_before a f :
  contains "#" a = false ->
  split_scheme (a ++ String "#" f)
  = (fst (split_scheme a), snd (split_scheme a) ++ String "#" f)
  /\ contains "#" (snd (split_scheme a)) = false.
Proof.
  intros Ha. unfold split_scheme. rewrite break_app.
  destruct (contains_break "#" (Ascii.eqb ":") a Ha) as [Hhead Htail].
  destruct (break (Ascii.eqb ":") a) as [head tail] eqn:E. simpl in *.
  destruct tail as [|colon tail].
  - pose proof (break_whole (Ascii.eqb ":") a) as W. rewrite E in W.
    simpl in W. specialize (W eq_refl). subst head.
    destruct a as [|c0 a]; simpl.
    + destruct (break (Ascii.eqb ":") f) as [head' tail']; simpl.
      now destruct tail'.
    + destruct (break (Ascii.eqb ":") f) as [head' tail']; simpl.
      split; auto. destruct tail'; auto.
      rewrite all_chars_app. simpl.
      now rewrite !andb_false_r.
  - destruct head as [|c0 head]; simpl; auto.
    destruct (is_ascii_alpha c0 && (scheme_char c0 && all_chars scheme_char head));
      simpl; auto.
    split; auto. simpl in Htail. now apply orb_false_elim in Htail.
Qed.

Lemma drop_before r s :
  String.prefix "//" r = true -> drop 2 (r ++ s) = drop 2 r ++ s.
Proof.
  destruct r as [|c [|d r]]; cbn -[ascii_dec]; try discriminate; auto.
  destruct (ascii_dec "/" c); discriminate.
Qed.

Lemma contains_drop c n a : contains c a = false -> contains c (drop n a) = false.
Proof.
  revert a. induction n as [|n IH]; intros [|d a]; simpl; auto.
  intros H. apply orb_false_elim in H as [_ H]. auto.
Qed.

(** The netloc step does not see what follows a "#" sign either. *)
Lemma netloc_step_before r f :
  contains "#" r = false ->
  netloc_step (r ++ String "#" f)
  = (located <- netloc_step r ;;
     Ok (fst located, snd located ++ String "#" f))
  /\ (forall located, netloc_step r = Ok located ->
                      contains "#" (snd located) = false).
Proof.
  intros Hr. unfold netloc_step.
  rewrite (prefix_before "#" "//" r f) by reflexivity.
  destruct (String.prefix "//" r) eqn:P; [|split; [reflexivity|]].
  - rewrite (drop_before _ _ P). unfold _splitnetloc.
    rewrite break_before by reflexivity.
    pose proof (contains_break "#" netloc_delimiter (drop 2 r)
                  (contains_drop "#" 2 r Hr)) as [_ Htail].
    destruct (break netloc_delimiter (drop 2 r)) as [netloc rest]. simpl in *.
    destruct ((contains "[" netloc && negb (contains "]" netloc))
              || (contains "]" netloc && negb (contains "[" netloc)));
      [split; [reflexivity|discriminate]|].
    destruct (contains "[" netloc && contains "]" netloc).
    + destruct (bracketed_netloc_ok netloc); simpl;
        (split; [reflexivity|]); [|discriminate].
      now intros located [= <-].
    + split; [reflexivity|]. now intros located [= <-].
  - now intros located [= <-].
Qed.

Lemma split_off_at c u f :
  contains c u = false -> split_off c (u ++ String c f) = (u, f).
Proof.
  intros H. unfold split_off, partition.
  rewrite contains_app. simpl. rewrite Ascii.eqb_refl, orb_true_r.
  rewrite break_at; auto using no_char_all, Ascii.eqb_refl.
Qed.

Lemma split_off_none c u : contains c u = false -> split_off c u = (u, EmptyString).
Proof. intros H. unfold split_off. now rewrite H. Qed.

(** A link with a fragment parses as the link without it, the fragment
    apart. *)
Lemma urlsplit_fragment base f :
  contains "#" base = false ->
  urlsplit (base ++ String "#" f)
  = (r <- urlsplit base ;; Ok (with_fragment r (without_unsafe f)))
  /\ (forall r, urlsplit base = Ok r -> fragment r = EmptyString).
Proof.
  intros Hb. unfold urlsplit.
  rewrite lstrip_before by reflexivity.
  rewrite !remove_char_app. simpl remove_char. fold (without_unsafe f).
  set (url := remove_char "010" (remove_char "013" (remove_char "009"
                (lstrip c0_control_or_space base)))).
  assert (Hurl : contains "#" url = false)
    by (unfold url; auto using contains_remove_char, contains_lstrip).
  destruct (split_scheme_before url (without_unsafe f) Hurl) as [-> Hrest].
  destruct (split_scheme url) as [sch rest]. simpl in *.
  destruct (netloc_step_before rest (without_unsafe f) Hrest) as [-> Hloc].
  destruct (netloc_step rest) as [[netloc after]|e]; simpl; [|split; auto; discriminate].
  specialize (Hloc _ eq_refl). simpl in Hloc.
  rewrite (split_off_at "#" after _ Hloc), (split_off_none "#" after Hloc).
  destruct (split_off "?" after) as [path query]. split; [reflexivity|].
  now intros r [= <-].
Qed.

Lemma parse_vless_link_steps link :
  parse_vless_link link
  = if negb (startswith (lower link) "vless://")
    then Raise (SystemExit "Link should start with vless://")
    else parsed <- urlparse link ;; checks_after_urlparse parsed.
Proof. reflexivity. Qed.

Lemma checks_with_fragment r text :
  checks_after_urlparse (with_fragment r text)
  = (info <- checks_after_urlparse r ;;
     Ok (dict_set "name" (name_of (with_fragment r text)) info)).
Proof.
  unfold checks_after_urlparse.
  change (scheme (with_fragment r text)) with (scheme r).
  change (username (with_fragment r text)) with (username r).
  change (hostname (with_fragment r text)) with (hostname r).
  change (port (with_fragment r text)) with (port r).
  change (query (with_fragment r text)) with (query r).
  destruct (negb (String.eqb (lower (scheme r)) "vless")); [reflexivity|].
  destruct (negb (truthy (username r))); [reflexivity|]. simpl.
  destruct (port r) as [pv|]; [|reflexivity]. simpl.
  destruct (negb (truthy (hostname r)) || negb (truthy pv)); reflexivity.
Qed.

(** The record of a link with a fragment is the record of the link
    without it, with the fragment stored under "name". *)
Lemma parse_vless_link_fragment base f :
  contains "#" base = false ->
  exists name,
    parse_vless_link (base ++ String "#" f)
    = (info <- parse_vless_link base ;; Ok (dict_set "name" name info)).
Proof.
  intros Hb. rewrite !parse_vless_link_steps. unfold urlparse.
  rewrite lower_app. simpl lower. unfold startswith.
  change (String (lower_char "#") (lower f)) with (String "#" (lower f)).
  rewrite (prefix_before "#" "vless://") by reflexivity.
  destruct (urlsplit_fragment base f Hb) as [-> _].
  destruct (urlsplit base) as [r|e]; simpl.
  - exists (name_of (with_fragment r (without_unsafe f))).
    destruct (negb (String.prefix "vless://" (lower base))); [reflexivity|].
    apply checks_with_fragment.
  - exists VNone. now destruct (negb (String.prefix "vless://" (lower base))).
Qed.

(** [build_config] never reads the key "name". *)
Lemma build_config_ignores_name argv name info :
  build_config (main_params argv (dict_set "name" name info))
  = build_config (main_params argv info).
Proof.
  apply build_config_reads. intros key Hin. unfold main_params.
  destruct (String.eqb key "proxies") eqn:E.
  - apply String.eqb_eq in E. subst key. now rewrite !dict_get_set_same.
  - assert (key <> "proxies") by (intros ->; discriminate).
    rewrite (dict_get_set_other "proxies" key _ info) by assumption.
    rewrite (dict_get_set_other "proxies" key) by assumption.
    apply dict_get_set_other. simpl in Hin.
    destruct Hin as [<-|[<-|[<-|[<-|[]]]]]; discriminate.
Qed.

Lemma main_document_fragment base f http socks :
  contains "#" base = false ->
  main_document (arguments (base ++ String "#" f) http socks)
  = main_document (arguments base http socks).
Proof.
  intros Hb. unfold main_document, parse_args, arguments.
  cbn [vless_link http_proxy socks5_proxy].
  destruct (check_port "http-proxy" http); [|reflexivity].
  destruct (check_port "socks5-proxy" socks); [|reflexivity].
  cbn [bind vless_link http_proxy socks5_proxy].
  destruct (parse_vless_link_fragment base f Hb) as [name ->].
  destruct (parse_vless_link base) as [info|]; [|reflexivity].
  cbn [bind]. exact (build_config_ignores_name (arguments base http socks) name info).
Qed.

(** C10. Two links that differ in their fragment only, of which one may
    have none, give the same document for the same ports, and the same
    run: the fragment is stored in the record under "name", which
    [build_config] never reads. *)
Theorem fragment_ignored base f f' http socks :
  contains "#" base = false ->
  let run link := main_document (arguments link http socks) in
  run (base ++ String "#" f) = run (base ++ String "#" f')
  /\ run (base ++ String "#" f) = run base
  /\ (forall config_json,
        main (arguments (base ++ String "#" f) http socks) config_json
        = main (arguments base http socks) config_json)
  /\ (exists name,
        parse_vless_link (base ++ String "#" f)
        = (info <- parse_vless_link base ;; Ok (dict_set "name" name info)))
  /\ (forall argv name info,
        build_config (main_params argv (dict_set "name" name info))
        = build_config (main_params argv info)).
Proof.
  intros Hb run. unfold run.
  repeat match goal with |- _ /\ _ => split end.
  - now rewrite !main_document_fragment.
  - now apply main_document_fragment.
  - intros config_json. unfold main. now rewrite main_document_fragment.
  - now apply parse_vless_link_fragment.
  - apply build_config_ignores_name.
Qed.

(** ** Wrapping *)

Lemma wrap_value_idempotent v : wrap_value (wrap_value v) = wrap_value v.
Proof.
  induction v using value_induction; simpl; auto; f_equal;
    rewrite map_map; apply map_ext_in; intros [k w] Hin;
    rewrite Forall_forall in H; simpl; f_equal; exact (H _ Hin).
Qed.

Lemma wrap_value_mapping v :
  is_mapping v = true -> exists entries, wrap_value v = VDot false entries.
Proof. destruct v; try discriminate; simpl; eauto. Qed.

Lemma wrap_value_other v : is_mapping v = false -> wrap_value v = v.
Proof. now destruct v. Qed.

Lemma is_mapping_wrap_value v : is_mapping (wrap_value v) = is_mapping v.
Proof. now destruct v. Qed.

Lemma at_path_wrap_keys names v :
  at_path (wrap_value v) (keys names) = option_map wrap_value (at_path v (keys names)).
Proof.
  revert v. induction names as [|name names IH]; intros v; [reflexivity|].
  destruct v; try reflexivity; cbn [keys map at_path wrap_value];
    fold (wrap_entries entries); rewrite dict_get_wrap_entries;
    destruct (dict_get name entries) as [x|]; try reflexivity; apply IH.
Qed.

Lemma at_path_app v (a b : list step) :
  at_path v (a ++ b)
  = match at_path v a with
    | Some node => at_path node b
    | None => None
    end.
Proof.
  revert v. induction a as [|[k|i] a IH]; intros v; [reflexivity| |].
  - destruct v; try reflexivity; simpl;
      destruct (dict_get k entries); auto.
  - destruct v; try reflexivity; simpl. destruct (nth_error elements i); auto.
Qed.

(** X1. Wrapping what is already wrapped changes nothing: the constructor
    applied to the entries of a wrapped mapping gives the wrapped mapping
    again, at every level. *)
Theorem wrapping_idempotent :
  (forall v, wrap_value (wrap_value v) = wrap_value v)
  /\ (forall missing mapping,
        DotAccessibleDict missing (wrap_entries mapping)
        = DotAccessibleDict missing mapping)
  /\ (forall missing mapping,
        wrap_value (DotAccessibleDict missing mapping)
        = DotAccessibleDict false mapping).
Proof.
  assert (E : forall mapping, wrap_entries (wrap_entries mapping) = wrap_entries mapping).
  { intros mapping. unfold wrap_entries. rewrite map_map.
    apply map_ext. intros [k v]. simpl. now rewrite wrap_value_idempotent. }
  split; [exact wrap_value_idempotent|]. split.
  - intros missing mapping. unfold DotAccessibleDict. now rewrite E.
  - intros missing mapping. unfold DotAccessibleDict. simpl.
    fold (wrap_entries (wrap_entries mapping)). now rewrite E.
Qed.

(** X2. Every level below a wrapped mapping is wrapped: following keys in
    the wrapped mapping finds the wrapped form of what the keys find in
    the plain one, so a mapping found there is a [DotAccessibleDict] whose
    flag is false; what is stored in a list is left as it is. *)
Theorem wrapped_levels missing mapping :
  (forall name names,
      at_path (DotAccessibleDict missing mapping) (keys (name :: names))
      = option_map wrap_value (at_path (VDict mapping) (keys (name :: names))))
  /\ (forall name names node,
        at_path (DotAccessibleDict missing mapping) (keys (name :: names)) = Some node ->
        is_mapping node = true -> exists entries, node = VDot false entries)
  /\ (forall names i rest,
        at_path (DotAccessibleDict missing mapping) (keys names ++ Index i :: rest)
        = at_path (VDict mapping) (keys names ++ Index i :: rest)).
Proof.
  assert (W : forall name names,
             at_path (DotAccessibleDict missing mapping) (keys (name :: names))
             = option_map wrap_value (at_path (VDict mapping) (keys (name :: names)))).
  { intros name names. exact (at_path_wrap_keys (name :: names) (VDict mapping)). }
  split; [exact W|]. split.
  - intros name names node. rewrite W.
    destruct (at_path (VDict mapping) (keys (name :: names))) as [x|];
      [|discriminate].
    intros [= <-] Hm. apply wrap_value_mapping. now rewrite <- is_mapping_wrap_value.
  - intros [|name names] i rest; [reflexivity|].
    rewrite !at_path_app, W.
    destruct (at_path (VDict mapping) (keys (name :: names))) as [x|]; [|reflexivity].
    destruct x; reflexivity.
Qed.

(** ** get_path *)

Lemma split_nonempty sep s : split sep s <> [].
Proof.
  induction s as [|c s IH]; simpl; [discriminate|].
  destruct (Ascii.eqb c sep); [discriminate|].
  destruct (split sep s); [contradiction|discriminate].
Qed.

Lemma split_app sep p q :
  split sep (p ++ String sep q) = (split sep p ++ split sep q)%list.
Proof.
  induction p as [|c p IH]; simpl.
  - now rewrite Ascii.eqb_refl.
  - rewrite IH. destruct (Ascii.eqb c sep); [reflexivity|].
    destruct (split sep p) eqn:E; [now apply split_nonempty in E|reflexivity].
Qed.

Lemma split_whole sep s : contains sep s = false -> split sep s = [s].
Proof.
  induction s as [|c s IH]; simpl; auto.
  intros H. apply orb_false_elim in H as [Hc Hs]. now rewrite Hc, (IH Hs).
Qed.

Lemma get_path_parts_at current parts default :
  get_path_parts current parts default
  = match at_path current (keys parts) with
    | Some v => v
    | None => default
    end.
Proof.
  revert current. induction parts as [|part parts IH]; intros current; [reflexivity|].
  destruct current; try reflexivity; simpl;
    destruct (dict_get part entries); auto; apply IH.
Qed.

Lemma get_path_parts_app current a b default :
  b <> [] ->
  get_path_parts current (a ++ b) default
  = get_path_parts (get_path_parts current a VNone) b default.
Proof.
  intros Hb. revert current. induction a as [|part a IH]; intros current; [reflexivity|].
  assert (N : get_path_parts VNone b default = default) by now destruct b.
  destruct current; simpl; auto;
    destruct (dict_get part entries); auto.
Qed.

(** X3. A dotted path is a walk in two parts: looking up p.q is looking up
    q in what p leads to, and the default comes back as soon as p leads
    nowhere. *)
Theorem get_path_composition self p q default :
  get_path self (p ++ String "." q) default
  = get_path (get_path self p VNone) q default.
Proof.
  unfold get_path. rewrite split_app.
  apply get_path_parts_app. apply split_nonempty.
Qed.

(** X4. A path without a dot is one key: [get_path] returns what is stored
    under it as it is stored (wrapped when it is a mapping), also when
    that value tests false and whatever the flag of the object is, and
    the default when the key is missing; a longer path through a value
    that is not a mapping gives the default. *)
Theorem get_path_key missing mapping key default :
  contains "." key = false ->
  get_path (DotAccessibleDict missing mapping) key default
  = match dict_get key mapping with
    | Some v => wrap_value v
    | None => default
    end
  /\ (forall v rest,
        dict_get key mapping = Some v -> is_mapping v = false ->
        get_path (DotAccessibleDict missing mapping) (key ++ String "." rest) default
        = default).
Proof.
  intros Hkey.
  assert (E : forall d, get_path (DotAccessibleDict missing mapping) key d
                        = match dict_get key mapping with
                          | Some v => wrap_value v
                          | None => d
                          end).
  { intros d. unfold get_path. rewrite (split_whole _ _ Hkey).
    unfold DotAccessibleDict. simpl. rewrite dict_get_wrap_entries.
    now destruct (dict_get key mapping). }
  split; [apply E|].
  intros v rest Hv Hm. pose proof (E VNone) as E'. unfold get_path in *.
  rewrite split_app, get_path_parts_app by apply split_nonempty.
  rewrite E', Hv, (wrap_value_other _ Hm).
  destruct (split "." rest) eqn:S; [now apply split_nonempty in S|].
  now destruct v.
Qed.

(** ** build_config on any parameters *)

Lemma present_chainable found :
  chainable found = true -> exists m entries, present found = VDot m entries.
Proof.
  destruct found as [v|]; [|unfold present, absent, DotAccessibleDict; eauto].
  unfold chainable, present, py_or. intros H.
  destruct (is_mapping v) eqn:M.
  - destruct (wrap_value_mapping v M) as [entries ->]. simpl. eauto.
  - rewrite (wrap_value_other v M). simpl in H.
    destruct (truthy v); [discriminate|]. unfold absent, DotAccessibleDict. eauto.
Qed.

Lemma present_unchainable found name :
  chainable found = false -> getattr (present found) name = Raise (AttributeError name).
Proof.
  destruct found as [v|]; [|discriminate]. unfold chainable, present, py_or.
  intros H. apply orb_false_elim in H as [M T]. rewrite (wrap_value_other v M).
  destruct (truthy v); [|discriminate]. now destruct v.
Qed.

Lemma read_through raw a b :
  ordinary_lookup false a = None ->
  read raw [a; b] = getattr (present (dict_get a raw)) b.
Proof. intros Ha. now rewrite read_first. Qed.

Lemma read_chainable raw a b :
  ordinary_lookup false a = None -> ordinary_lookup false b = None ->
  chainable (dict_get a raw) = true -> exists v, read raw [a; b] = Ok v.
Proof.
  intros Ha Hb Hc. rewrite read_through by assumption.
  destruct (present_chainable _ Hc) as (m & entries & ->).
  rewrite (getattr_hook _ _ _ (ordinary_lookup_flag false m b Hb)). eauto.
Qed.

Lemma read_unchainable raw a b :
  ordinary_lookup false a = None ->
  chainable (dict_get a raw) = false -> read raw [a; b] = Raise (AttributeError b).
Proof.
  intros Ha Hc. rewrite read_through by assumption. now apply present_unchainable.
Qed.

Ltac read_sections raw :=
  repeat match goal with
         | H : chainable (dict_get ?a raw) = true |- context [read raw [?a; ?b]] =>
             let E := fresh "E" in
             destruct (read_chainable raw a b eq_refl eq_refl H) as [? E];
             rewrite E; clear E
         end;
  cbn [bind].

(** X5. [build_config] validates nothing: it returns a document whenever
    each of the entries proxies, server and params of its argument is
    missing, a mapping, or a value that tests false; when one of them is
    any other value, the first attribute read through it raises
    AttributeError. *)
Theorem build_config_total raw :
  let given key := chainable (dict_get key raw) in
  (given "proxies" = true -> given "server" = true -> given "params" = true ->
   exists doc, build_config raw = Ok doc)
  /\ (given "proxies" = false ->
      build_config raw = Raise (AttributeError "socks_port"))
  /\ (given "proxies" = true -> given "server" = false ->
      build_config raw = Raise (AttributeError "host"))
  /\ (given "proxies" = true -> given "server" = true -> given "params" = false ->
      build_config raw = Raise (AttributeError "flow")).
Proof.
  intros given. unfold given, build_config. cbv zeta.
  rewrite !chain_two, !chain_one. rewrite (read_one raw "uuid") by reflexivity.
  repeat match goal with |- _ /\ _ => split end.
  - intros Hp Hs Hq. read_sections raw. eauto.
  - intros Hp. now rewrite (read_unchainable raw "proxies" "socks_port" eq_refl Hp).
  - intros Hp Hs. read_sections raw.
    now rewrite (read_unchainable raw "server" "host" eq_refl Hs).
  - intros Hp Hs Hq. read_sections raw.
    now rewrite (read_unchainable raw "params" "flow" eq_refl Hq).
Qed.

(** ** Attribute chains and paths *)

Lemma getattr_absent name :
  ordinary_lookup false name = None -> getattr absent name = Ok absent.
Proof.
  intros H. unfold absent, DotAccessibleDict. cbn [wrap_entries map].
  now rewrite (getattr_hook _ _ _ (ordinary_lookup_flag false true name H)).
Qed.

(** X6. The two ways of reading agree where the chain does not raise: for
    two field names a and b, the chain params.a.b is what
    [get_path] finds under the path a.b with the absent marker as its
    default, a value that tests false being replaced by the absent
    marker. *)
Theorem attribute_chain_is_path raw a b :
  ordinary_lookup false a = None -> ordinary_lookup false b = None ->
  contains "." a = false -> contains "." b = false ->
  chainable (dict_get a raw) = true ->
  Ok (DotAccessibleDict false raw) .> a .> b
  = Ok (py_or (get_path (DotAccessibleDict false raw) (a ++ "." ++ b) absent) absent).
Proof.
  intros Ha Hb Da Db Hc. rewrite chain_two, read_through by assumption.
  unfold get_path. cbn [append]. rewrite split_app, (split_whole _ _ Da), (split_whole _ _ Db).
  unfold DotAccessibleDict. cbn [app get_path_parts].
  rewrite dict_get_wrap_entries.
  destruct (dict_get a raw) as [v|]; cbn [option_map];
    [|exact (getattr_absent b Hb)].
  assert (M : forall d,
             getattr (VDot false (wrap_entries d)) b
             = Ok (py_or match dict_get b (wrap_entries d) with
                         | Some x => x
                         | None => absent
                         end absent)).
  { intros d. rewrite (getattr_hook _ _ _ Hb), hook_lookup, dict_get_wrap_entries.
    now destruct (dict_get b d). }
  destruct (is_mapping v) eqn:Mv.
  - destruct v; try discriminate Mv; unfold present, py_or at 1; cbn [wrap_value truthy negb];
      fold (wrap_entries entries); now apply M.
  - unfold chainable in Hc. rewrite Mv in Hc. cbn [orb] in Hc.
    apply negb_true_iff in Hc. unfold present, py_or at 1.
    rewrite (wrap_value_other v Mv), Hc, (getattr_absent b Hb).
    now destruct v.
Qed.

(** ** Both listener ports *)

Lemma build_proxies_get http socks :
  let stored port :=
    match port with
    | Some n => if Z.eqb n 0 then None else Some (VStr (str_of_int n))
    | None => None
    end in
  dict_get "http_port" (build_proxies http socks) = stored http
  /\ dict_get "socks_port" (build_proxies http socks) = stored socks.
Proof.
  unfold build_proxies, set_if_given. destruct http as [h|], socks as [k|]; simpl;
    repeat match goal with |- context [Z.eqb ?n 0] => destruct (Z.eqb n 0) end;
    simpl; auto.
Qed.

Lemma given_port_leaf port default :
  port_in_range port ->
  py_or (text_or_absent
           match port with
           | Some n => if Z.eqb n 0 then None else Some (VStr (str_of_int n))
           | None => None
           end) default
  = match port with
    | Some n => VStr (str_of_int n)
    | None => default
    end.
Proof.
  destruct port as [n|]; simpl; [|reflexivity]. intros R.
  destruct (Z.eqb n 0) eqn:E; [apply Z.eqb_eq in E; lia|].
  unfold text_or_absent, py_or. apply port_text_kept.
Qed.

(** X7. Each listener port of the document comes from its own flag alone:
    the socks inbound port is the decimal text of --socks5-proxy when it
    is given and the number 8107 when it is not, and the http inbound port
    is the decimal text of --http-proxy when it is given and the number
    8108 when it is not. *)
Theorem listener_ports argv :
  valid argv ->
  exists doc,
    main_document argv = Ok doc
    /\ socks_port_of doc
       = Some match socks5_proxy argv with
              | Some n => VStr (str_of_int n)
              | None => VInt 8107
              end
    /\ http_port_of doc
       = Some match http_proxy argv with
              | Some n => VStr (str_of_int n)
              | None => VInt 8108
              end.
Proof.
  intros Hv. pose proof Hv as (Ha & _). apply parse_args_ok in Ha as (_ & Rh & Rs).
  destruct (main_document_valid argv Hv)
    as (doc & parsed & u & h & p & Hdoc & _ & _ & _ & _ & _ & _ & Hleaves).
  destruct Hleaves as (Hs & Hh & _). exists doc. split; auto.
  unfold socks_port_of, http_port_of. rewrite Hs, Hh.
  destruct (build_proxies_get (http_proxy argv) (socks5_proxy argv)) as [-> ->].
  now rewrite !given_port_leaf.
Qed.

(** ** The range of the ports *)

Lemma check_port_out flag n :
  ~ (1 <= n <= 65535)%Z ->
  check_port flag (Some n)
  = Raise (UsageError ("--" ++ flag ++ " should be in range of 1..65535")).
Proof.
  intros H. unfold check_port.
  destruct (Z.leb 1 n && Z.leb n 65535)%bool eqn:E; [|reflexivity].
  apply andb_prop in E as [E1 E2]. lia.
Qed.

Lemma check_port_in flag port : port_in_range port -> check_port flag port = Ok tt.
Proof.
  unfold check_port, port_in_range. destruct port as [n|]; auto. intros H.
  destruct (Z.leb 1 n && Z.leb n 65535)%bool eqn:E; [reflexivity|].
  apply andb_false_iff in E as [E|E]; lia.
Qed.

(** X8. The ports are checked before the link is looked at: a run is past
    [parse_args] exactly when each given port is in 1..65535; a
    --http-proxy out of range ends the run with a usage error that names
    it, whatever the link and the other port are; a --socks5-proxy out of
    range does the same when --http-proxy is in range; config.json is
    left as it was. *)
Theorem port_range_enforced argv :
  (port_in_range (http_proxy argv) /\ port_in_range (socks5_proxy argv)
   <-> parse_args argv = Ok argv)
  /\ (forall n config_json,
        http_proxy argv = Some n -> ~ (1 <= n <= 65535)%Z ->
        main argv config_json
        = (Some (UsageError "--http-proxy should be in range of 1..65535"),
           config_json))
  /\ (forall n config_json,
        port_in_range (http_proxy argv) ->
        socks5_proxy argv = Some n -> ~ (1 <= n <= 65535)%Z ->
        main argv config_json
        = (Some (UsageError "--socks5-proxy should be in range of 1..65535"),
           config_json)).
Proof.
  split; [split|split].
  - intros [Hh Hs]. unfold parse_args.
    now rewrite (check_port_in _ _ Hh), (check_port_in _ _ Hs).
  - intros H. now apply parse_args_ok in H.
  - intros n config_json Hn Hout. apply main_failure.
    unfold main_document, parse_args. now rewrite Hn, check_port_out.
  - intros n config_json Hh Hn Hout. apply main_failure.
    unfold main_document, parse_args.
    now rewrite (check_port_in _ _ Hh), Hn, check_port_out.
Qed.

(** ** The outcomes of parse_vless_link *)

Lemma netloc_step_raises url e :
  netloc_step url = Raise e -> exists site, e = ValueError site.
Proof.
  unfold netloc_step. destruct (String.prefix "//" url); [|discriminate].
  destruct (_splitnetloc (drop 2 url)) as [netloc rest].
  repeat match goal with
         | |- context [if ?c then _ else _] => destruct c
         end; try discriminate; intros [= <-]; eauto.
Qed.

Lemma urlsplit_raises url e :
  urlsplit url = Raise e -> exists site, e = ValueError site.
Proof.
  unfold urlsplit.
  destruct (split_scheme _) as [sch rest].
  destruct (netloc_step rest) as [[netloc after]|e'] eqn:E; cbn [bind].
  - destruct (split_off "#" after) as [u f]. destruct (split_off "?" u). discriminate.
  - intros [= <-]. eapply netloc_step_raises; eauto.
Qed.

Lemma port_raises parsed e :
  port parsed = Raise e -> exists site, e = ValueError site.
Proof.
  unfold port. destruct (snd (_hostinfo parsed)) as [text|]; [|discriminate].
  repeat match goal with
         | |- context [if ?c then _ else _] => destruct c
         end; try discriminate; intros [= <-]; eauto.
Qed.

(** X9. [parse_vless_link] ends in one of five ways: it returns a record,
    it leaves with one of the diagnostics "Link should start with
    vless://", "User id is undefined" and "Proxy host or port not
    defined", or a ValueError of the library goes through it.  The
    diagnostic "Schema should be vless://" is never given: a link that
    passes the first check always has the parsed scheme vless. *)
Theorem parse_outcomes link :
  match parse_vless_link link with
  | Ok _ => True
  | Raise (SystemExit message) =>
      In message ["Link should start with vless://"; "User id is undefined";
                  "Proxy host or port not defined"]
  | Raise (ValueError _) => True
  | Raise _ => False
  end
  /\ parse_vless_link link <> Raise (SystemExit "Schema should be vless://").
Proof.
  unfold parse_vless_link.
  destruct (startswith (lower link) "vless://") eqn:Hs; cbn [negb];
    [|split; [simpl; auto|discriminate]].
  destruct (urlparse link) as [parsed|e] eqn:Hp; cbn [bind].
  - rewrite (parsed_scheme link parsed Hs Hp).
    change (negb (String.eqb (lower "vless") "vless")) with false. cbv iota.
    destruct (truthy (username parsed)); cbn [negb];
      [|split; [simpl; auto|discriminate]].
    destruct (port parsed) as [pv|e] eqn:Hport; cbn [bind].
    + destruct (negb (truthy (hostname parsed)) || negb (truthy pv));
        (split; [simpl; auto|discriminate]).
    + destruct (port_raises _ _ Hport) as [site ->]. split; [exact I|discriminate].
  - destruct (urlsplit_raises _ _ Hp) as [site ->]. split; [exact I|discriminate].
Qed.

(** ** The record of a link *)

Lemma break_head_free stop s :
  all_chars (fun c => negb (stop c)) (fst (break stop s)) = true.
Proof.
  induction s as [|c s IH]; simpl; auto.
  destruct (stop c) eqn:E; simpl; auto.
  destruct (break stop s). simpl in *. now rewrite E.
Qed.

Lemma break_no_stop stop s :
  snd (break stop s) = EmptyString -> all_chars (fun c => negb (stop c)) s = true.
Proof.
  intros H. pose proof (break_head_free stop s) as F.
  now rewrite (break_whole stop s H) in F.
Qed.

Lemma all_no_char c s :
  all_chars (fun d => negb (Ascii.eqb c d)) s = true -> contains c s = false.
Proof.
  induction s as [|d s IH]; simpl; auto.
  intros H. apply andb_prop in H as [Hd Hs].
  rewrite Ascii.eqb_sym. apply negb_true_iff in Hd. now rewrite Hd, IH.
Qed.

Lemma partition_not_found sep s head tail :
  partition sep s = (head, false, tail) ->
  head = s /\ tail = EmptyString /\ contains sep s = false.
Proof.
  unfold partition. destruct (break (Ascii.eqb sep) s) as [h t] eqn:E.
  destruct t; [|discriminate]. intros [= <- <-]. repeat split.
  apply all_no_char. apply break_no_stop. now rewrite E.
Qed.

Lemma partition_head_free sep s :
  contains sep (fst (fst (partition sep s))) = false.
Proof.
  destruct (partition sep s) as [[head found] tail] eqn:P. simpl.
  destruct found.
  - unfold partition in P. pose proof (break_head_free (Ascii.eqb sep) s) as F.
    destruct (break (Ascii.eqb sep) s) as [h t]. destruct t; [discriminate|].
    injection P as <- _. now apply all_no_char.
  - now apply partition_not_found in P as (-> & _ & H).
Qed.

Lemma lower_char_idempotent c : lower_char (lower_char c) = lower_char c.
Proof. destruct c as [[] [] [] [] [] [] [] []]; reflexivity. Qed.

Lemma lower_idempotent s : lower (lower s) = lower s.
Proof.
  induction s as [|c s IH]; simpl; auto. now rewrite lower_char_idempotent, IH.
Qed.

Lemma username_free parsed u : username parsed = VStr u -> contains ":" u = false.
Proof.
  unfold username. destruct (rpartition "@" (netloc parsed)) as [[info []] h];
    [|discriminate].
  pose proof (partition_head_free ":" info) as F.
  destruct (partition ":" info) as [[name found] rest]. simpl in F.
  now intros [= <-].
Qed.

Lemma hostname_lower parsed h :
  hostname parsed = VStr h -> contains "%" h = false -> lower h = h.
Proof.
  unfold hostname. destruct (String.eqb (fst (_hostinfo parsed)) ""); [discriminate|].
  destruct (partition "%" (fst (_hostinfo parsed))) as [[name percent] zone] eqn:P.
  intros [= <-]. destruct percent.
  - rewrite contains_app. simpl. rewrite orb_true_r. discriminate.
  - apply partition_not_found in P as (-> & -> & _). intros _.
    cbn [append]. now rewrite !append_empty, lower_idempotent.
Qed.

Lemma port_range parsed p : port parsed = Ok (VInt p) -> (0 <= p <= 65535)%Z.
Proof.
  unfold port. destruct (snd (_hostinfo parsed)) as [text|]; [|discriminate].
  destruct (isdigit_ascii text); [|discriminate].
  destruct (Nat.ltb 4300 (String.length text)); [discriminate|].
  destruct (Z.leb 0 (int_of_digits text) && Z.leb (int_of_digits text) 65535)%bool
    eqn:E; [|discriminate].
  intros [= <-]. apply andb_prop in E as [E1 E2]. lia.
Qed.

Lemma options_NoDup qs : NoDup (map fst (first_values (parse_qs qs))).
Proof.
  unfold first_values. rewrite map_map. simpl.
  change (map (fun kv => fst kv) (parse_qs qs)) with (map fst (parse_qs qs)).
  apply collect_NoDup. constructor.
Qed.

(** X10. What a returned record holds: the five entries type, uuid,
    server, params and name in this order; the identity is a text that is
    not empty and has no colon (a password after the colon is dropped);
    the host is a text that is not empty, in lower case when it has no
    zone; the port is a number in 1..65535; the options have unique keys
    and texts as values; the name is None or a text that is not empty. *)
Theorem record_invariants link info :
  parse_vless_link link = Ok info ->
  exists u h p options name,
    info = [("type", VStr "vless"); ("uuid", VStr u);
            ("server", VDict [("host", VStr h); ("port", VInt p)]);
            ("params", VDict options); ("name", name)]
    /\ u <> "" /\ contains ":" u = false
    /\ h <> "" /\ (contains "%" h = false -> lower h = h)
    /\ (1 <= p <= 65535)%Z
    /\ NoDup (map fst options)
    /\ (forall key v, dict_get key options = Some v -> exists s, v = VStr s)
    /\ (name = VNone \/ exists s, name = VStr s /\ s <> "").
Proof.
  intros H.
  destruct (parse_vless_link_ok _ _ H)
    as (parsed & u & h & p & _ & _ & Eu & Hu & Eh & Hh & Ep & Hp & ->).
  exists u, h, p, (first_values (parse_qs (query parsed))), (name_of parsed).
  repeat match goal with |- _ /\ _ => split end; auto.
  - now apply (username_free parsed).
  - now apply (hostname_lower parsed).
  - apply port_range in Ep. lia.
  - apply port_range in Ep. lia.
  - apply options_NoDup.
  - apply first_values_values.
  - unfold name_of. simpl. destruct (String.eqb (fragment parsed) "") eqn:E; auto.
    right. eexists. split; [reflexivity|]. intros F. rewrite F in E. discriminate.
Qed.

(** ** The file *)


(** ** The proxy outbound *)

(** X12. The proxy outbound of the document points at the server of the
    link: its address is the host name that the library reads from the
    link, its port is the port number, and the id of its user is the user
    name. *)
Theorem outbound_endpoint argv :
  valid argv ->
  exists doc parsed u h p,
    main_document argv = Ok doc
    /\ urlparse (vless_link argv) = Ok parsed
    /\ username parsed = VStr u /\ hostname parsed = VStr h
    /\ port parsed = Ok (VInt p)
    /\ at_path doc (proxy_server ++ [Key "address"]) = Some (VStr h)
    /\ at_path doc (proxy_server ++ [Key "port"]) = Some (VInt p)
    /\ at_path doc (proxy_user ++ [Key "id"]) = Some (VStr u).
Proof.
  intros Hv.
  destruct (main_document_valid argv Hv)
    as (doc & parsed & u & h & p & Hdoc & Hp & Eu & Eh & Ep & _ & _ & Hleaves).
  destruct Hleaves as (_ & _ & Ha & Hport & Hid & _).
  exists doc, parsed, u, h, p. repeat split; assumption.
Qed.

(** ** Characters that urlsplit removes *)

Lemma prefix_app p x y : String.prefix p x = true -> String.prefix p (x ++ y) = true.
Proof.
  revert x. induction p as [|c p IH]; intros x H; [now destruct (x ++ y)|].
  destruct x as [|d x]; simpl in *; [discriminate|].
  destruct (ascii_dec c d); auto.
Qed.

Lemma without_unsafe_app a b :
  without_unsafe (a ++ b) = without_unsafe a ++ without_unsafe b.
Proof. unfold without_unsafe. now rewrite !remove_char_app. Qed.

Lemma without_unsafe_skip c b :
  In c ["009"; "010"; "013"]%char -> without_unsafe (String c b) = without_unsafe b.
Proof. intros [<-|[<-|[<-|[]]]]; reflexivity. Qed.

Lemma urlsplit_cleaned x y :
  without_unsafe (lstrip c0_control_or_space x)
  = without_unsafe (lstrip c0_control_or_space y) ->
  urlsplit x = urlsplit y.
Proof. unfold urlsplit, without_unsafe. cbv zeta. now intros ->. Qed.

(** X13. Tabs, carriage returns and line feeds in a link are ignored: a
    link that starts with vless:// and has one of them further on gives
    the result of the link without it. *)
Theorem unsafe_characters_ignored a c b :
  startswith (lower a) "vless://" = true ->
  In c ["009"; "010"; "013"]%char ->
  parse_vless_link (a ++ String c b) = parse_vless_link (a ++ b).
Proof.
  intros Ha Hc. rewrite !parse_vless_link_steps. unfold startswith in *.
  rewrite !lower_app, !(prefix_app _ _ _ Ha). cbn [negb]. unfold urlparse.
  rewrite (urlsplit_cleaned (a ++ String c b) (a ++ b)); [reflexivity|].
  destruct (vless_prefix a Ha) as (c1 & c2 & c3 & c4 & c5 & rest & -> & H1 & _).
  assert (L : forall z, lstrip c0_control_or_space (String c1 z) = String c1 z)
    by (intros z; destruct H1 as [-> | ->]; reflexivity).
  cbn [append]. rewrite !L.
  change (String c1 (String c2 (String c3 (String c4 (String c5
            (String ":" (String "/" (String "/" (rest ++ String c b)))))))))
    with ((String c1 (String c2 (String c3 (String c4 (String c5
            (String ":" (String "/" (String "/" rest)))))))) ++ String c b).
  change (String c1 (String c2 (String c3 (String c4 (String c5
            (String ":" (String "/" (String "/" (rest ++ b)))))))))
    with ((String c1 (String c2 (String c3 (String c4 (String c5
            (String ":" (String "/" (String "/" rest)))))))) ++ b).
  now rewrite !without_unsafe_app, (without_unsafe_skip c b Hc).
Qed.

(** ** The case of the scheme *)

(** X14. The scheme is read without regard to case: a link whose first
    eight characters spell vless:// in any mix of cases gives the result
    of the same link written with vless:// in lower case. *)
Theorem scheme_case_insensitive p rest :
  lower p = "vless://" ->
  parse_vless_link (p ++ rest) = parse_vless_link ("vless://" ++ rest).
Proof.
  intros Hp. rewrite !parse_vless_link_steps. unfold startswith.
  rewrite !lower_app, Hp. change (lower "vless://") with "vless://".
  assert (P : forall z, String.prefix "vless://" ("vless://" ++ z) = true)
    by (intros z; cbn; now destruct z).
  rewrite !P. cbn [negb]. unfold urlparse.
  destruct p as [|c1 [|c2 [|c3 [|c4 [|c5 [|c6 [|c7 [|c8 [|c9 p]]]]]]]]];
    cbn [lower] in Hp; try discriminate Hp.
  injection Hp as H1 H2 H3 H4 H5 H6 H7 H8.
  apply lower_char_inv in H1, H2, H3, H4, H5, H6, H7, H8.
  destruct H6 as [->|[-> U]]; [|vm_compute in U; discriminate U].
  destruct H7 as [->|[-> U]]; [|vm_compute in U; discriminate U].
  destruct H8 as [->|[-> U]]; [|vm_compute in U; discriminate U].
  cbn [append].
  rewrite (urlsplit_vless c1 c2 c3 c4 c5 rest), (urlsplit_vless "v" "l" "e" "s" "s" rest);
    auto;
    match goal with
    | H : ?c = _ \/ _ |- ?c = _ \/ _ => destruct H as [->|[-> _]]; auto
    end.
Qed.

(** ** A link in the documented form *)

Lemma free_of_contains forbidden s c :
  free_of forbidden s = true -> contains c forbidden = true -> contains c s = false.
Proof.
  unfold free_of. induction s as [|d s IH]; simpl; auto.
  intros H Hc. apply andb_prop in H as [Hd Hs]. rewrite (IH Hs Hc), orb_false_r.
  destruct (Ascii.eqb d c) eqn:E; auto. apply Ascii.eqb_eq in E. subst d.
  now rewrite Hc in Hd.
Qed.

Lemma digits_free c s :
  is_ascii_digit c = false -> all_chars is_ascii_digit s = true -> contains c s = false.
Proof.
  intros Hc. induction s as [|d s IH]; simpl; auto.
  intros H. apply andb_prop in H as [Hd Hs]. rewrite (IH Hs), orb_false_r.
  destruct (Ascii.eqb d c) eqn:E; auto. apply Ascii.eqb_eq in E. subst d. congruence.
Qed.

Lemma remove_char_free c s : contains c s = false -> remove_char c s = s.
Proof.
  induction s as [|d s IH]; simpl; auto.
  intros H. apply orb_false_elim in H as [Hd Hs]. now rewrite Hd, IH.
Qed.

Lemma replace_char_free c d s : contains c s = false -> replace_char c d s = s.
Proof.
  induction s as [|e s IH]; simpl; auto.
  intros H. apply orb_false_elim in H as [He Hs]. now rewrite He, IH.
Qed.

Lemma without_unsafe_free s :
  contains "009" s = false -> contains "013" s = false -> contains "010" s = false ->
  without_unsafe s = s.
Proof.
  intros H1 H2 H3. unfold without_unsafe.
  now rewrite (remove_char_free "009" s H1), (remove_char_free "013" s H2),
    (remove_char_free "010" s H3).
Qed.

Lemma break_delimiter netloc c tail :
  contains "/" netloc = false -> contains "?" netloc = false ->
  contains "#" netloc = false -> netloc_delimiter c = true ->
  break netloc_delimiter (netloc ++ String c tail) = (netloc, String c tail).
Proof.
  intros H1 H2 H3 Hc. apply break_at; auto.
  clear Hc. induction netloc as [|d s IH]; simpl in *; auto.
  apply orb_false_elim in H1 as [D1 S1]. apply orb_false_elim in H2 as [D2 S2].
  apply orb_false_elim in H3 as [D3 S3].
  unfold netloc_delimiter. rewrite D1, D2, D3. simpl. auto.
Qed.

Lemma rpartition_none sep s :
  contains sep s = false -> rpartition sep s = (EmptyString, false, s).
Proof.
  induction s as [|c s IH]; simpl; auto.
  intros H. apply orb_false_elim in H as [Hc Hs]. now rewrite (IH Hs), Hc.
Qed.

Lemma rpartition_last sep a tail :
  contains sep tail = false ->
  rpartition sep (a ++ String sep tail) = (a, true, tail).
Proof.
  intros H. induction a as [|c a IH]; simpl.
  - now rewrite (rpartition_none _ _ H), Ascii.eqb_refl.
  - now rewrite IH.
Qed.

Lemma partition_none sep s :
  contains sep s = false -> partition sep s = (s, false, EmptyString).
Proof.
  intros H. unfold partition. now rewrite (break_none _ _ (no_char_all _ _ H)).
Qed.

Lemma partition_first sep a tail :
  contains sep a = false -> partition sep (a ++ String sep tail) = (a, true, tail).
Proof.
  intros H. unfold partition.
  now rewrite (break_at _ _ _ _ (no_char_all _ _ H) (Ascii.eqb_refl sep)).
Qed.

Lemma int_of_digits_nonneg s : (0 <= int_of_digits s)%Z.
Proof.
  unfold int_of_digits. generalize (list_ascii_of_string s). intros l.
  assert (G : forall acc, (0 <= acc)%Z ->
            (0 <= fold_left (fun acc c => 10 * acc + Z.of_N (code c - 48)) l acc)%Z).
  { induction l as [|c l IH]; cbn [fold_left]; auto. intros acc Hacc. apply IH.
    pose proof (N2Z.is_nonneg (code c - 48)). lia. }
  apply G. lia.
Qed.

(** The parts of a link of the form vless://user@host:port?query. *)
Section DocumentedLink.

Variables u h pt q : string.
Hypothesis u_plain : plain u = true.
Hypothesis h_plain : plain h = true.
Hypothesis pt_digits : all_chars is_ascii_digit pt = true.
Hypothesis q_plain : plain_query q = true.

Local Abbreviation link := ("vless://" ++ u ++ "@" ++ h ++ ":" ++ pt ++ "?" ++ q).

Local Abbreviation parts :=
  {| scheme := "vless"; netloc := u ++ "@" ++ h ++ ":" ++ pt; path := "";
     query := q; fragment := "" |}.

Lemma plain_free s c :
  plain s = true -> contains c ("/?#[]@:%" ++ unsafe_bytes) = true ->
  contains c s = false.
Proof. apply free_of_contains. Qed.

Lemma netloc_free c :
  contains c ("/?#[]" ++ unsafe_bytes) = true ->
  contains c (u ++ "@" ++ h ++ ":" ++ pt) = false.
Proof.
  intros Hc.
  assert (F : contains c ("/?#[]@:%" ++ unsafe_bytes) = true /\ is_ascii_digit c = false
              /\ Ascii.eqb "@" c = false /\ Ascii.eqb ":" c = false).
  { cbv [append contains unsafe_bytes] in Hc.
    repeat match type of Hc with
           | (Ascii.eqb ?d c || _)%bool = true =>
               destruct (Ascii.eqb d c) eqn:E;
               [apply Ascii.eqb_eq in E; subst c; repeat split; reflexivity|];
               clear E; cbn [orb] in Hc
           end.
    discriminate. }
  destruct F as (F1 & F2 & F3 & F4).
  rewrite !contains_app. cbn [contains append].
  rewrite (plain_free u c u_plain F1), (plain_free h c h_plain F1),
    (digits_free c pt F2 pt_digits), F3, F4.
  reflexivity.
Qed.

Lemma documented_link_parsed : urlparse link = Ok parts.
Proof.
  unfold urlparse.
  change link
    with (String "v" (String "l" (String "e" (String "s" (String "s"
            (String ":" (String "/" (String "/"
               (u ++ "@" ++ h ++ ":" ++ pt ++ "?" ++ q))))))))).
  rewrite urlsplit_vless by (left; reflexivity).
  assert (A : u ++ "@" ++ h ++ ":" ++ pt ++ "?" ++ q
              = (u ++ "@" ++ h ++ ":" ++ pt) ++ String "?" q).
  { rewrite !append_assoc. reflexivity. }
  rewrite A. clear A.
  assert (Q : forall c, contains c unsafe_bytes = true -> contains c q = false).
  { intros c Hc. apply (free_of_contains _ _ _ q_plain). simpl in *.
    now rewrite Hc, orb_true_r. }
  rewrite without_unsafe_app.
  rewrite (without_unsafe_free (u ++ "@" ++ h ++ ":" ++ pt))
    by (apply netloc_free; reflexivity).
  assert (W : without_unsafe (String "?" q) = String "?" q).
  { apply without_unsafe_free; cbn [contains]; rewrite Q; reflexivity. }
  rewrite W. unfold netloc_step.
  assert (S : forall x, String.prefix "//" (String "/" (String "/" x)) = true)
    by (intros x; cbn; now destruct x).
  rewrite S. cbn [drop]. unfold _splitnetloc.
  rewrite break_delimiter by (try apply netloc_free; reflexivity).
  rewrite !netloc_free by reflexivity. cbn [andb orb negb bind].
  assert (H : contains "#" (String "?" q) = false).
  { cbn [contains]. rewrite (free_of_contains _ _ "#" q_plain); reflexivity. }
  rewrite (split_off_none "#" _ H).
  unfold split_off. cbn [contains]. rewrite Ascii.eqb_refl. cbn [orb].
  pose proof (partition_first "?" EmptyString q eq_refl) as E. cbn [append] in E.
  now rewrite E.
Qed.

Lemma host_port_free c :
  contains c ("@[" ++ unsafe_bytes) = true -> contains c (h ++ String ":" pt) = false.
Proof.
  intros Hc.
  assert (G : contains c ("/?#[]@:%" ++ unsafe_bytes) = true /\ is_ascii_digit c = false
              /\ Ascii.eqb ":" c = false).
  { cbv [append contains unsafe_bytes] in Hc.
    repeat match type of Hc with
           | (Ascii.eqb ?d c || _)%bool = true =>
               destruct (Ascii.eqb d c) eqn:E;
               [apply Ascii.eqb_eq in E; subst c; repeat split; reflexivity|];
               clear E; cbn [orb] in Hc
           end.
    discriminate. }
  destruct G as (G1 & G2 & G3).
  rewrite contains_app. cbn [contains].
  now rewrite (plain_free h c h_plain G1), (digits_free c pt G2 pt_digits), G3.
Qed.

Lemma documented_username : username parts = VStr u.
Proof.
  unfold username. cbn [netloc append].
  rewrite (rpartition_last "@" u (h ++ String ":" pt))
    by (apply host_port_free; reflexivity).
  now rewrite (partition_none ":" u) by (apply plain_free; auto).
Qed.

Lemma documented_hostinfo :
  _hostinfo parts = (h, if String.eqb pt "" then None else Some pt).
Proof.
  unfold _hostinfo. cbn [netloc append].
  rewrite (rpartition_last "@" u (h ++ String ":" pt))
    by (apply host_port_free; reflexivity).
  rewrite (partition_none "[" (h ++ String ":" pt))
    by (apply host_port_free; reflexivity).
  now rewrite (partition_first ":" h pt) by (apply plain_free; auto).
Qed.

Lemma documented_hostname :
  hostname parts = if String.eqb h "" then VNone else VStr (lower h).
Proof.
  unfold hostname. rewrite documented_hostinfo. cbn [fst].
  destruct (String.eqb h ""); auto.
  rewrite (partition_none "%" h) by (apply plain_free; auto).
  cbn [append]. now rewrite append_empty.
Qed.

Lemma documented_port :
  (String.length pt <= 4300)%nat -> (int_of_digits pt <= 65535)%Z ->
  port parts = Ok (if String.eqb pt "" then VNone else VInt (int_of_digits pt)).
Proof.
  intros Hlen Hmax. unfold port. rewrite documented_hostinfo. cbn [snd].
  destruct (String.eqb pt "") eqn:E; auto.
  unfold isdigit_ascii. rewrite E, pt_digits. cbn [negb andb].
  destruct (Nat.ltb 4300 (String.length pt)) eqn:L; [apply Nat.ltb_lt in L; lia|].
  pose proof (int_of_digits_nonneg pt) as N.
  destruct (Z.leb 0 (int_of_digits pt) && Z.leb (int_of_digits pt) 65535)%bool eqn:R;
    auto.
  apply andb_false_iff in R as [R|R]; lia.
Qed.

Lemma documented_link_checks :
  parse_vless_link link = checks_after_urlparse parts.
Proof.
  rewrite parse_vless_link_steps.
  assert (P : startswith (lower link) "vless://" = true).
  { unfold startswith. cbn [append lower].
    change (lower_char "v") with "v"%char. change (lower_char "l") with "l"%char.
    change (lower_char "e") with "e"%char. change (lower_char "s") with "s"%char.
    change (lower_char ":") with ":"%char. change (lower_char "/") with "/"%char.
    cbn. now destruct (lower _). }
  now rewrite P, documented_link_parsed.
Qed.

End DocumentedLink.

(** The checks on the parts of such a link, for a host and a port that are
    there. *)
Lemma documented_parts_record u h pt q :
  plain u = true -> u <> "" ->
  plain h = true -> h <> "" ->
  isdigit_ascii pt = true -> (String.length pt <= 4300)%nat ->
  (1 <= int_of_digits pt <= 65535)%Z ->
  checks_after_urlparse
    {| scheme := "vless"; netloc := u ++ "@" ++ h ++ ":" ++ pt; path := "";
       query := q; fragment := "" |}
  = Ok [("type", VStr "vless");
        ("uuid", VStr u);
        ("server", VDict [("host", VStr (lower h));
                          ("port", VInt (int_of_digits pt))]);
        ("params", VDict (first_values (parse_qs q)));
        ("name", VNone)].
Proof.
  intros Hu Nu Hh Nh Hpt Hlen Hrange.
  unfold isdigit_ascii in Hpt. apply andb_prop in Hpt as [Ne Hd].
  apply negb_true_iff in Ne.
  unfold checks_after_urlparse. cbn [scheme query].
  change (negb (String.eqb (lower "vless") "vless")) with false. cbv iota.
  rewrite documented_username, documented_hostname by assumption.
  rewrite documented_port by (assumption || lia).
  rewrite Ne.
  assert (Eu : String.eqb u "" = false) by now apply String.eqb_neq.
  assert (Eh : String.eqb h "" = false) by now apply String.eqb_neq.
  assert (Ep : Z.eqb (int_of_digits pt) 0 = false) by (apply Z.eqb_neq; lia).
  rewrite Eh. cbn [truthy bind]. rewrite Eu, Ep.
  assert (El : String.eqb (lower h) "" = false)
    by (destruct h; [discriminate Eh|reflexivity]).
  rewrite El. reflexivity.
Qed.

(** X15. A link in the documented form is read back part by part: for a
    user name and a host name without delimiters, a port written in
    digits with a value in 1..65535, and a query without a fragment sign,
    vless://user@host:port?query gives the record with this user name,
    the host name in lower case, the port as a number, the options of the
    query and no name. *)
Theorem documented_link u h pt q :
  plain u = true -> u <> "" ->
  plain h = true -> h <> "" ->
  isdigit_ascii pt = true -> (String.length pt <= 4300)%nat ->
  (1 <= int_of_digits pt <= 65535)%Z ->
  plain_query q = true ->
  parse_vless_link ("vless://" ++ u ++ "@" ++ h ++ ":" ++ pt ++ "?" ++ q)
  = Ok [("type", VStr "vless");
        ("uuid", VStr u);
        ("server", VDict [("host", VStr (lower h));
                          ("port", VInt (int_of_digits pt))]);
        ("params", VDict (first_values (parse_qs q)));
        ("name", VNone)].
Proof.
  intros Hu Nu Hh Nh Hpt Hlen Hrange Hq.
  pose proof Hpt as Hd. unfold isdigit_ascii in Hd. apply andb_prop in Hd as [_ Hd].
  rewrite (documented_link_checks u h pt q Hu Hh Hd Hq).
  now apply documented_parts_record.
Qed.

(** X16. The endpoint is required: a link in the documented form, with a
    port of at most 4300 digits and a value of at most 65535, whose host
    is empty, or whose port is empty or has the value zero, is refused
    with the diagnostic "Proxy host or port not defined". *)
Theorem endpoint_required u h pt q :
  plain u = true -> u <> "" ->
  plain h = true ->
  all_chars is_ascii_digit pt = true -> (String.length pt <= 4300)%nat ->
  (int_of_digits pt <= 65535)%Z ->
  plain_query q = true ->
  h = "" \/ int_of_digits pt = 0%Z ->
  parse_vless_link ("vless://" ++ u ++ "@" ++ h ++ ":" ++ pt ++ "?" ++ q)
  = Raise (SystemExit "Proxy host or port not defined").
Proof.
  intros Hu Nu Hh Hd Hlen Hmax Hq Hmissing.
  rewrite (documented_link_checks u h pt q Hu Hh Hd Hq).
  unfold checks_after_urlparse. cbn [scheme query].
  change (negb (String.eqb (lower "vless") "vless")) with false. cbv iota.
  rewrite documented_username, documented_hostname by assumption.
  rewrite documented_port by (assumption || lia).
  assert (Eu : String.eqb u "" = false) by now apply String.eqb_neq.
  cbn [truthy]. rewrite Eu. cbn [negb bind].
  destruct Hmissing as [-> | Hz].
  - reflexivity.
  - rewrite Hz. destruct (String.eqb pt ""); cbn [truthy Z.eqb negb];
      now rewrite orb_true_r.
Qed.

(** ** The errors of the port *)

(** X17. A port that the library cannot read ends the run with a
    ValueError and not with a diagnostic: for a link that passes the
    scheme check and the identity check, a port text that is not made of
    ASCII digits, a port text of more than 4300 digits, and a port above
    65535 each raise before the check of the endpoint is reached. *)
Theorem port_errors link parsed text :
  startswith (lower link) "vless://" = true ->
  urlparse link = Ok parsed ->
  truthy (username parsed) = true ->
  snd (_hostinfo parsed) = Some text ->
  (isdigit_ascii text = false ->
   parse_vless_link link = Raise (ValueError PortNotInteger))
  /\ (isdigit_ascii text = true -> (4300 < String.length text)%nat ->
      parse_vless_link link = Raise (ValueError IntegerTooLong))
  /\ (isdigit_ascii text = true -> (String.length text <= 4300)%nat ->
      (65535 < int_of_digits text)%Z ->
      parse_vless_link link = Raise (ValueError PortOutOfRange)).
Proof.
  intros H Hp Hu Htext. unfold parse_vless_link.
  rewrite H, Hp. cbn [negb bind]. rewrite (parsed_scheme link parsed H Hp), Hu.
  change (negb (String.eqb (lower "vless") "vless")) with false. cbn [negb].
  unfold port. rewrite Htext.
  repeat match goal with |- _ /\ _ => split end.
  - now intros ->.
  - intros -> L. apply Nat.ltb_lt in L. now rewrite L.
  - intros -> L R.
    destruct (Nat.ltb 4300 (String.length text)) eqn:E; [apply Nat.ltb_lt in E; lia|].
    destruct (Z.leb 0 (int_of_digits text) && Z.leb (int_of_digits text) 65535)%bool
      eqn:B; [|reflexivity].
    apply andb_prop in B as [_ B]. apply Z.leb_le in B. lia.
Qed.

(** ** The name of a link *)

Lemma parse_vless_link_named base f :
  contains "#" base = false ->
  parse_vless_link (base ++ String "#" f)
  = (info <- parse_vless_link base ;;
     Ok (dict_set "name"
           (if String.eqb (without_unsafe f) "" then VNone
            else VStr (without_unsafe f))
           info)).
Proof.
  intros Hb. rewrite !parse_vless_link_steps. unfold urlparse.
  rewrite lower_app. simpl lower. unfold startswith.
  change (String (lower_char "#") (lower f)) with (String "#" (lower f)).
  rewrite (prefix_before "#" "vless://") by reflexivity.
  destruct (urlsplit_fragment base f Hb) as [-> _].
  destruct (negb (String.prefix "vless://" (lower base))); [reflexivity|].
  destruct (urlsplit base) as [r|e]; cbn [bind]; [|reflexivity].
  rewrite checks_with_fragment. unfold name_of. cbn [fragment with_fragment truthy].
  now destruct (String.eqb (without_unsafe f) "").
Qed.

(** X18. The fragment of a link becomes the name of the record and
    nothing else: a link without "#" gives a record whose name is None,
    and the same link followed by "#" and a text gives the same record
    with this text as its name (without the tabs and line ends that the
    library removes), or None when the text is empty. *)
Theorem fragment_is_name base f info :
  contains "#" base = false ->
  parse_vless_link base = Ok info ->
  let name :=
    if String.eqb (without_unsafe f) "" then VNone else VStr (without_unsafe f) in
  exists uuid host port options,
    info = connection_record uuid host port options VNone
    /\ parse_vless_link (base ++ String "#" f)
       = Ok (connection_record uuid host port options name).
Proof.
  intros Hb Hinfo name.
  destruct (parse_vless_link_ok _ _ Hinfo)
    as (parsed & u & h & p & _ & Hp & _ & _ & _ & _ & _ & _ & E).
  destruct (urlsplit_fragment base f Hb) as [_ Hf].
  assert (N : name_of parsed = VNone)
    by (unfold name_of; now rewrite (Hf parsed Hp)).
  rewrite N in E.
  exists (VStr u), (VStr h), (VInt p), (first_values (parse_qs (query parsed))).
  split; [exact E|].
  rewrite (parse_vless_link_named base f Hb), Hinfo, E. reflexivity.
Qed.

(** ** Writing and reading a query string *)

Lemma dict_get_absent {A : Type} key (d : list (string * A)) :
  ~ In key (map fst d) -> dict_get key d = None.
Proof.
  induction d as [|[k v] d IH]; simpl; auto.
  intros H. destruct (String.eqb key k) eqn:E.
  - apply String.eqb_eq in E. subst k. exfalso. apply H. now left.
  - apply IH. intros Hin. apply H. now right.
Qed.

Lemma dict_set_absent {A : Type} key (v : A) d :
  ~ In key (map fst d) -> dict_set key v d = (d ++ [(key, v)])%list.
Proof.
  induction d as [|[k w] d IH]; simpl; auto.
  intros H. destruct (String.eqb key k) eqn:E.
  - apply String.eqb_eq in E. subst k. exfalso. apply H. now left.
  - rewrite IH; auto.
Qed.

Lemma collect_distinct pairs acc :
  NoDup (map fst acc ++ map fst pairs) ->
  collect pairs acc = (acc ++ map (fun kv => (fst kv, [snd kv])) pairs)%list.
Proof.
  revert acc. induction pairs as [|[k v] rest IH]; intros acc H; simpl.
  - now rewrite app_nil_r.
  - simpl in H.
    assert (N : ~ In k (map fst acc)).
    { apply NoDup_remove_2 in H. intros Hin. apply H. apply in_or_app. now left. }
    rewrite (dict_get_absent _ _ N), (dict_set_absent _ _ _ N).
    rewrite IH.
    + now rewrite <- app_assoc.
    + rewrite map_app. simpl. now rewrite <- app_assoc.
Qed.

Lemma query_fields pairs :
  Forall (fun kv => contains "&" (fst kv) = false /\ contains "&" (snd kv) = false)
         pairs ->
  pairs <> [] ->
  split "&" (query_of pairs) = map (fun kv => fst kv ++ String "=" (snd kv)) pairs.
Proof.
  induction 1 as [|[k v] rest [Hk Hv] Hrest IH]; [contradiction|]. intros _.
  assert (F : contains "&" (k ++ String "=" v) = false).
  { rewrite contains_app. simpl in *. now rewrite Hk, Hv. }
  destruct rest as [|kv rest].
  - cbn [query_of map fst snd append]. now apply split_whole.
  - change (query_of ((k, v) :: kv :: rest))
      with (k ++ "=" ++ v ++ "&" ++ query_of (kv :: rest)).
    assert (A : k ++ "=" ++ v ++ "&" ++ query_of (kv :: rest)
                = (k ++ String "=" v) ++ String "&" (query_of (kv :: rest))).
    { rewrite !append_assoc. reflexivity. }
    rewrite A, split_app, (split_whole _ _ F), IH by discriminate. reflexivity.
Qed.

Lemma filter_all {A : Type} (f : A -> bool) l :
  Forall (fun x => f x = true) l -> filter f l = l.
Proof. induction 1 as [|x l Hx _ IH]; simpl; auto. now rewrite Hx, IH. Qed.

Lemma parse_field_pair name v :
  free_of "&=+%" name = true -> free_of "&+%" v = true ->
  parse_field (name ++ String "=" v) = (name, v).
Proof.
  intros Hn Hv. unfold parse_field, split1.
  rewrite partition_first by (apply (free_of_contains _ _ _ Hn); reflexivity).
  rewrite !replace_char_free
    by (first [apply (free_of_contains _ _ _ Hn) | apply (free_of_contains _ _ _ Hv)];
        reflexivity).
  unfold unquote.
  now rewrite (free_of_contains _ _ "%" Hn), (free_of_contains _ _ "%" Hv).
Qed.

Lemma parse_qsl_query_of pairs :
  Forall (fun kv => free_of "&=+%" (fst kv) = true /\ free_of "&+%" (snd kv) = true)
         pairs ->
  parse_qsl (query_of pairs) = pairs.
Proof.
  intros H. destruct pairs as [|kv pairs]; [reflexivity|].
  unfold parse_qsl. rewrite query_fields; [|..|discriminate].
  - rewrite filter_all.
    + rewrite map_map. rewrite <- (map_id (kv :: pairs)) at 2.
      apply map_ext_in. intros [k v] Hin. rewrite Forall_forall in H.
      destruct (H _ Hin) as [Hk Hv]. now apply parse_field_pair.
    + apply Forall_forall. intros x Hx. apply in_map_iff in Hx as ([k v] & <- & _).
      now destruct k.
  - eapply Forall_impl; [|exact H]. intros [k v] [Hk Hv].
    split; [apply (free_of_contains _ _ _ Hk)|apply (free_of_contains _ _ _ Hv)];
      reflexivity.
Qed.

(** X19. A query string written from pairs is read back as these pairs:
    for names without "&", "=", "+" and "%" and values without "&", "+"
    and "%" (a value may hold "="), [parse_qsl] of
    name1=value1&name2=value2... gives the pairs in their order, and when
    the names are distinct the options of the link are these pairs. *)
Theorem query_round_trip pairs :
  Forall (fun kv => free_of "&=+%" (fst kv) = true /\ free_of "&+%" (snd kv) = true)
         pairs ->
  parse_qsl (query_of pairs) = pairs
  /\ (NoDup (map fst pairs) ->
      first_values (parse_qs (query_of pairs))
      = map (fun kv => (fst kv, VStr (snd kv))) pairs).
Proof.
  intros H. split; [now apply parse_qsl_query_of|].
  intros Hd. unfold parse_qs. rewrite (parse_qsl_query_of pairs H).
  rewrite collect_distinct by exact Hd.
  unfold first_values. cbn [app]. rewrite map_map. reflexivity.
Qed.

(** ** What the document does not depend on *)

Lemma build_config_options argv u h p options options' name name' :
  u <> "" -> h <> "" -> p <> 0%Z ->
  (forall key v, dict_get key options = Some v -> exists s, v = VStr s) ->
  (forall key v, dict_get key options' = Some v -> exists s, v = VStr s) ->
  (forall key, In key read_options -> dict_get key options = dict_get key options') ->
  build_config (main_params argv
                  (connection_record (VStr u) (VStr h) (VInt p) options name))
  = build_config (main_params argv
                    (connection_record (VStr u) (VStr h) (VInt p) options' name')).
Proof.
  intros Hu Hh Hp Ht Ht' Hsame. unfold build_config. cbv zeta.
  rewrite !chain_two, !chain_one.
  rewrite !read_uuid, !read_host, !read_port by assumption.
  rewrite !read_proxy by reflexivity.
  rewrite !read_option by (assumption || reflexivity).
  rewrite !Hsame by (unfold read_options; simpl; auto 10). reflexivity.
Qed.

(** X20. The document depends on the link through its netloc and the
    seven options flow, type, security, fp, sni, pbk and sid alone: two
    valid runs with the same ports, whose links have the same netloc and
    the same values of these options, give the same document, whatever
    their paths, their fragments and their other options are. *)
Theorem unread_parts_ignored argv argv' parsed parsed' :
  valid argv -> valid argv' ->
  http_proxy argv = http_proxy argv' ->
  socks5_proxy argv = socks5_proxy argv' ->
  urlparse (vless_link argv) = Ok parsed ->
  urlparse (vless_link argv') = Ok parsed' ->
  netloc parsed = netloc parsed' ->
  (forall key, In key read_options ->
               dict_get key (options_of parsed) = dict_get key (options_of parsed')) ->
  main_document argv = main_document argv'.
Proof.
  intros (Ha & info & Hi) (Ha' & info' & Hi') Hhttp Hsocks Hp Hp' Hnet Hsame.
  rewrite (main_document_eq _ _ Ha Hi), (main_document_eq _ _ Ha' Hi').
  destruct (parse_vless_link_ok _ _ Hi)
    as (r & u & h & p & _ & Hr & Eu & Nu & Eh & Nh & Ep & Np & ->).
  destruct (parse_vless_link_ok _ _ Hi')
    as (r' & u' & h' & p' & _ & Hr' & Eu' & Nu' & Eh' & Nh' & Ep' & Np' & ->).
  rewrite Hp in Hr. injection Hr as <-. rewrite Hp' in Hr'. injection Hr' as <-.
  assert (U : username parsed = username parsed')
    by (unfold username; now rewrite Hnet).
  assert (H : hostname parsed = hostname parsed')
    by (unfold hostname, _hostinfo; now rewrite Hnet).
  assert (P : port parsed = port parsed')
    by (unfold port, _hostinfo; now rewrite Hnet).
  rewrite U, Eu' in Eu. injection Eu as <-.
  rewrite H, Eh' in Eh. injection Eh as <-.
  rewrite P, Ep' in Ep. injection Ep as <-.
  assert (M : forall record, main_params argv' record = main_params argv record)
    by (intros record; unfold main_params, proxies_value; now rewrite Hhttp, Hsocks).
  rewrite M. apply build_config_options; auto; apply first_values_values.
Qed.

(** ** The text of a port *)

Lemma digits_of_uint d : all_chars is_ascii_digit (NilEmpty.string_of_uint d) = true.
Proof. induction d; simpl; auto. Qed.

Ltac digit_value :=
  match goal with
  | |- context [Z.of_N ?n] =>
      let v := eval vm_compute in (Z.of_N n) in change (Z.of_N n) with v
  end.

Lemma digits_value_from d a :
  fold_left (fun acc c => (10 * acc + Z.of_N (code c - 48))%Z)
            (list_ascii_of_string (NilEmpty.string_of_uint d)) (Z.pos a)
  = Z.pos (Pos.of_uint_acc d a).
Proof.
  revert a. induction d; intros a;
    cbn [NilEmpty.string_of_uint list_ascii_of_string fold_left Pos.of_uint_acc];
    auto; rewrite <- IHd; f_equal; digit_value; lia.
Qed.

Lemma digits_value d :
  int_of_digits (NilEmpty.string_of_uint d) = Z.of_N (Pos.of_uint d).
Proof.
  unfold int_of_digits. induction d;
    cbn [NilEmpty.string_of_uint list_ascii_of_string fold_left Pos.of_uint];
    auto; digit_value; cbn [Z.mul Z.add Z.of_N]; auto; apply digits_value_from.
Qed.

Lemma str_of_int_digits n :
  (0 <= n)%Z -> isdigit_ascii (str_of_int n) = true /\ int_of_digits (str_of_int n) = n.
Proof.
  intros Hn. destruct n as [|p|p]; [split; reflexivity| |lia].
  unfold isdigit_ascii. pose proof (str_of_int_nonempty (Z.pos p)) as Ne.
  apply String.eqb_neq in Ne. rewrite Ne. clear Ne.
  unfold str_of_int, NilZero.string_of_int, NilZero.string_of_uint. cbn [Z.to_int].
  pose proof (DecimalPos.Unsigned.of_to p) as E.
  destruct (Pos.to_uint p) eqn:D; try discriminate E;
    rewrite digits_of_uint, digits_value, E; auto.
Qed.

(** X21. [build_proxies] has an entry for a port exactly when the port is
    given and not zero, under http_port for the first port and socks_port
    for the second and under no other key; the entry of a port is its
    decimal text, which for a port above zero is made of digits and reads
    back as the number. *)
Theorem port_text_reads_back http socks :
  let given port := match port with Some n => negb (Z.eqb n 0) | None => false end in
  (forall key value,
      dict_get key (build_proxies http socks) = Some value ->
      (key = "http_port" /\ given http = true)
      \/ (key = "socks_port" /\ given socks = true))
  /\ (given http = false -> dict_get "http_port" (build_proxies http socks) = None)
  /\ (given socks = false -> dict_get "socks_port" (build_proxies http socks) = None)
  /\ (forall n, http = Some n -> n <> 0%Z ->
        dict_get "http_port" (build_proxies http socks) = Some (VStr (str_of_int n)))
  /\ (forall n, socks = Some n -> n <> 0%Z ->
        dict_get "socks_port" (build_proxies http socks) = Some (VStr (str_of_int n)))
  /\ (forall n, (0 < n)%Z ->
        isdigit_ascii (str_of_int n) = true /\ int_of_digits (str_of_int n) = n).
Proof.
  intros given.
  destruct (build_proxies_get http socks) as [Hh Hs].
  repeat match goal with |- _ /\ _ => split end.
  - intros key value. unfold build_proxies, set_if_given, given.
    destruct http as [a|], socks as [b|]; simpl;
      repeat match goal with
             | |- context [Z.eqb ?n 0] => destruct (Z.eqb n 0)
             end; simpl;
      repeat match goal with
             | |- context [String.eqb key ?k] =>
                 destruct (String.eqb key k) eqn:?
             end;
      try discriminate; intros _;
      repeat match goal with
             | E : String.eqb _ _ = true |- _ => apply String.eqb_eq in E
             end; auto.
  - rewrite Hh. unfold given. destruct http as [n|]; auto.
    destruct (Z.eqb n 0); [auto|discriminate].
  - rewrite Hs. unfold given. destruct socks as [n|]; auto.
    destruct (Z.eqb n 0); [auto|discriminate].
  - intros n -> Hn. rewrite Hh. apply Z.eqb_neq in Hn. now rewrite Hn.
  - intros n -> Hn. rewrite Hs. apply Z.eqb_neq in Hn. now rewrite Hn.
  - intros n Hn. apply str_of_int_digits. lia.
Qed.

(** ** From the link to the document *)

(** X22. From end to end: for a link in the documented form, whose port
    has at most 4300 digits and a value in 1..65535, and ports in
    1..65535, in surroundings where the file opens, every write goes
    through and the encoding has every character, the run writes into
    config.json the whole text of its document, and in the document the
    address of the proxy outbound is the host of the link in lower case,
    its port is the port of the link as a number, and the id of its user
    is the user name of the link. *)
Theorem documented_link_document u h pt q http socks :
  plain u = true -> u <> "" ->
  plain h = true -> h <> "" ->
  isdigit_ascii pt = true -> (String.length pt <= 4300)%nat ->
  (1 <= int_of_digits pt <= 65535)%Z ->
  plain_query q = true ->
  port_in_range http -> port_in_range socks ->
  writes -> (forall c, encodable env c = true) ->
  let argv :=
    arguments ("vless://" ++ u ++ "@" ++ h ++ ":" ++ pt ++ "?" ++ q) http socks in
  exists doc,
    main_document argv = Ok doc
    /\ at_path doc (proxy_server ++ [Key "address"]) = Some (VStr (lower h))
    /\ at_path doc (proxy_server ++ [Key "port"]) = Some (VInt (int_of_digits pt))
    /\ at_path doc (proxy_user ++ [Key "id"]) = Some (VStr u)
    /\ forall before,
         main argv before = (None, Some (text_of (fst (iterencode 0 doc)))).
Proof.
  intros Hu Nu Hh Nh Hpt Hlen Hrange Hq Rh Rs Hw He argv.
  assert (Hrec : parse_vless_link (vless_link argv)
                 = Ok (connection_record (VStr u) (VStr (lower h))
                         (VInt (int_of_digits pt)) (first_values (parse_qs q)) VNone)).
  { pose proof Hpt as Hd. unfold isdigit_ascii in Hd.
    apply andb_prop in Hd as [_ Hd]. unfold argv, arguments. cbn [vless_link].
    rewrite (documented_link_checks u h pt q Hu Hh Hd Hq).
    now apply documented_parts_record. }
  assert (Ha : parse_args argv = Ok argv).
  { unfold parse_args, argv, arguments. cbn [http_proxy socks5_proxy].
    now rewrite (check_port_in _ _ Rh), (check_port_in _ _ Rs). }
  assert (Nl : lower h <> "") by (destruct h; [contradiction|discriminate]).
  assert (Np : int_of_digits pt <> 0%Z) by lia.
  destruct (build_config_main argv u (lower h) (int_of_digits pt)
              (first_values (parse_qs q)) VNone Nu Nl Np (first_values_values _))
    as (doc & Hdoc & _ & Hser & _ & _ & Haddr & Hport & Hid & _).
  assert (Hmain : main_document argv = Ok doc).
  { rewrite (main_document_eq argv _ Ha Hrec). exact Hdoc. }
  exists doc.
  repeat match goal with |- _ /\ _ => split end; auto.
  intros before. apply main_written; auto. now apply encodes_every.
Qed.

End Urllib.

(** * Examples *)

Ltac by_evaluation := vm_compute; reflexivity.

Ltac valid_by_evaluation := split; [by_evaluation | eexists; by_evaluation].

Lemma sample_valid : valid no_escapes any_host sample.
Proof. valid_by_evaluation. Defined.

Lemma document_structure_witness :
  valid no_escapes any_host sample
  /\ exists doc,
       main_document no_escapes any_host sample = Ok doc /\ structured doc.
Proof.
  split; [exact sample_valid|].
  exact (document_structure no_escapes any_host sample sample_valid).
Defined.

Lemma flow_valid : valid no_escapes any_host (arguments flow_link None None).
Proof. valid_by_evaluation. Defined.

Lemma default_substitution_witness :
  valid no_escapes any_host (arguments flow_link None None)
  /\ urlparse any_host flow_link = Ok flow_parsed
  /\ exists doc,
       main_document no_escapes any_host (arguments flow_link None None) = Ok doc
       /\ at_path doc (proxy_stream ++ [Key "network"]) = Some (VStr "tcp")
       /\ at_path doc (proxy_stream ++ [Key "security"]) = Some (VStr "reality")
       /\ at_path doc (proxy_user ++ [Key "flow"]) = Some (VStr "xtls-rprx-vision").
Proof.
  assert (Hparsed : urlparse any_host flow_link = Ok flow_parsed) by by_evaluation.
  split; [exact flow_valid|]. split; [exact Hparsed|].
  destruct (default_substitution no_escapes any_host
              (arguments flow_link None None) flow_parsed flow_valid Hparsed)
    as (doc & Hdoc & _ & Htype & Hsecurity & Hflow).
  exists doc. split; [exact Hdoc|].
  split; [apply Htype; by_evaluation|].
  split; [apply Hsecurity; by_evaluation|].
  apply (Hflow []). by_evaluation.
Defined.

Lemma http_9999_valid : valid no_escapes any_host http_9999.
Proof. valid_by_evaluation. Defined.

Lemma port_fallback_witness :
  valid no_escapes any_host http_9999
  /\ socks5_proxy http_9999 = None
  /\ exists doc,
       main_document no_escapes any_host http_9999 = Ok doc
       /\ socks_port_of doc = Some (VInt 8107)
       /\ http_port_of doc = Some (VStr "9999").
Proof.
  split; [exact http_9999_valid|]. split; [reflexivity|].
  destruct (port_fallback no_escapes any_host http_9999 http_9999_valid eq_refl)
    as (doc & Hdoc & Hsocks & _ & _ & Hhttp).
  exists doc. split; [exact Hdoc|]. split; [exact Hsocks|]. exact (Hhttp eq_refl).
Defined.

(** C3, as it is stated, fails with --http-proxy 9999: the http inbound
    port of the document is the text "9999", which [json] writes in
    quotes, and not the number 9999. *)
Lemma port_fallback_counterexample :
  exists doc,
    main_document no_escapes any_host http_9999 = Ok doc
    /\ http_port_of doc = Some (VStr "9999")
    /\ http_port_of doc <> Some (VInt 9999).
Proof.
  eexists. split; [by_evaluation|]. split; [by_evaluation|].
  vm_compute. discriminate.
Qed.


Lemma query_decoding_witness :
  let link := "vless://u@h:1?a=1&a=2&b=&c&&b=3" in
  let record :=
    connection_record (VStr "u") (VStr "h") (VInt 1)
      [("a", VStr "1"); ("b", VStr ""); ("c", VStr "")] VNone in
  parse_vless_link no_escapes any_host link = Ok record
  /\ exists options,
       dict_get "params" record = Some (VDict options)
       /\ NoDup (map fst options)
       /\ dict_get "a" options = Some (VStr "1")
       /\ dict_get "b" options = Some (VStr "")
       /\ dict_get "c" options = Some (VStr "").
Proof.
  cbv zeta.
  assert (H : parse_vless_link no_escapes any_host "vless://u@h:1?a=1&a=2&b=&c&&b=3"
              = Ok (connection_record (VStr "u") (VStr "h") (VInt 1)
                      [("a", VStr "1"); ("b", VStr ""); ("c", VStr "")] VNone))
    by by_evaluation.
  split; [exact H|].
  destruct (query_decoding no_escapes any_host _ _ H)
    as (parsed & options & Hp & Ho & Hn & Hfirst & _).
  assert (Hparsed : urlparse any_host "vless://u@h:1?a=1&a=2&b=&c&&b=3"
                    = Ok {| scheme := "vless"; netloc := "u@h:1"; path := "";
                            query := "a=1&a=2&b=&c&&b=3"; fragment := "" |})
    by by_evaluation.
  rewrite Hparsed in Hp. injection Hp as <-.
  exists options. split; [exact Ho|]. split; [exact Hn|].
  split; [exact (Hfirst "a")|]. split; [exact (Hfirst "b")|exact (Hfirst "c")].
Defined.

Lemma attribute_access_witness :
  let mapping := [("uuid", VStr "ABC-123"); ("server", VDict []); ("name", VNone)] in
  ordinary_lookup false "uuid" = None
  /\ getattr (DotAccessibleDict false mapping) "uuid" = Ok (VStr "ABC-123")
  /\ getattr (DotAccessibleDict false mapping) "server"
     = Ok (DotAccessibleDict false [])
  /\ getattr (DotAccessibleDict false mapping) "name" = Ok absent.
Proof.
  cbv zeta.
  assert (Hu : ordinary_lookup false "uuid" = None) by by_evaluation.
  assert (Hs : ordinary_lookup false "server" = None) by by_evaluation.
  assert (Hn : ordinary_lookup false "name" = None) by by_evaluation.
  split; [exact Hu|].
  destruct (attribute_access
              [("uuid", VStr "ABC-123"); ("server", VDict []); ("name", VNone)]
              "uuid" Hu) as (_ & _ & Htrue & _).
  destruct (attribute_access
              [("uuid", VStr "ABC-123"); ("server", VDict []); ("name", VNone)]
              "server" Hs) as (Hmapping & _).
  destruct (attribute_access
              [("uuid", VStr "ABC-123"); ("server", VDict []); ("name", VNone)]
              "name" Hn) as (_ & _ & _ & Hfalse & _).
  split; [exact (Htrue (VStr "ABC-123") eq_refl eq_refl eq_refl)|].
  split; [exact (proj1 (Hmapping [] eq_refl))|].
  exact (Hfalse VNone eq_refl eq_refl eq_refl).
Defined.

Lemma utf8_file_writes : writes utf8_file.
Proof. split; reflexivity. Defined.


Lemma no_null_field_witness :
  valid no_escapes any_host sample
  /\ exists doc,
       main_document no_escapes any_host sample = Ok doc /\ has_none doc = false.
Proof.
  split; [exact sample_valid|].
  destruct (no_null_field no_escapes any_host sample sample_valid)
    as (doc & parsed & Hdoc & _ & Hnone & _).
  exists doc. split; [exact Hdoc | exact Hnone].
Defined.

Lemma fragment_ignored_witness :
  contains "#" plain_link = false
  /\ main_document no_escapes any_host
       (arguments (plain_link ++ String "#" "MyNode") None None)
     = main_document no_escapes any_host (arguments plain_link None None).
Proof.
  assert (H : contains "#" plain_link = false) by by_evaluation.
  split; [exact H|].
  destruct (fragment_ignored no_escapes any_host utf8_file plain_link "MyNode" ""
              None None H) as (_ & Hsame & _).
  exact Hsame.
Defined.

(** ** Ordinary lookup comes first *)

(** C7, as it is stated, fails on a field that is named like a method of
    the class: the field get_path is present with a true value, yet
    attribute access yields the bound method; and the names items and
    keys yield methods where the claim has the absent marker. *)
Lemma attribute_access_counterexample :
  let mapping := [("get_path", VStr "v"); ("options", VDict [])] in
  dict_get "get_path" mapping = Some (VStr "v")
  /\ truthy (VStr "v") = true
  /\ getattr (DotAccessibleDict false mapping) "get_path" = Ok (VBuiltin "get_path")
  /\ getattr (DotAccessibleDict false mapping) "get_path" <> Ok (VStr "v")
  /\ getattr (DotAccessibleDict false mapping) "items" <> Ok absent
  /\ getattr absent "keys" <> Ok absent
  /\ ordinary_lookup false "options" = None
  /\ dict_get "options" mapping = Some (VDict [])
  /\ truthy (VDict []) = false
  /\ getattr (DotAccessibleDict false mapping) "options"
     = Ok (DotAccessibleDict false [])
  /\ getattr (DotAccessibleDict false mapping) "options" <> Ok absent.
Proof.
  cbv zeta. repeat match goal with |- _ /\ _ => split end;
    try reflexivity; discriminate.
Qed.

(** ** Further examples *)

Lemma get_path_key_witness :
  contains "." "uuid" = false
  /\ get_path (DotAccessibleDict false [("uuid", VStr "")]) "uuid" VNone = VStr "".
Proof.
  assert (H : contains "." "uuid" = false) by by_evaluation.
  split; [exact H|].
  destruct (get_path_key false [("uuid", VStr "")] "uuid" VNone H) as (E & _).
  exact E.
Defined.

Lemma attribute_chain_is_path_witness :
  let raw := [("server", VDict [("host", VStr "example.com"); ("port", VInt 443)])] in
  Ok (DotAccessibleDict false raw) .> "server" .> "host"
  = Ok (py_or (get_path (DotAccessibleDict false raw) "server.host" absent) absent).
Proof.
  cbv zeta.
  apply (attribute_chain_is_path
           [("server", VDict [("host", VStr "example.com"); ("port", VInt 443)])]
           "server" "host"); by_evaluation.
Defined.

Lemma both_ports_valid : valid no_escapes any_host both_ports.
Proof. valid_by_evaluation. Defined.

Lemma listener_ports_witness :
  valid no_escapes any_host both_ports
  /\ exists doc,
       main_document no_escapes any_host both_ports = Ok doc
       /\ socks_port_of doc = Some (VStr "1090")
       /\ http_port_of doc = Some (VStr "1080").
Proof.
  split; [exact both_ports_valid|].
  exact (listener_ports no_escapes any_host both_ports both_ports_valid).
Defined.

Lemma record_invariants_witness :
  parse_vless_link no_escapes any_host sample_link = Ok sample_record
  /\ exists u h p,
       dict_get "uuid" sample_record = Some (VStr u)
       /\ dict_get "server" sample_record
          = Some (VDict [("host", VStr h); ("port", VInt p)])
       /\ u <> "" /\ h <> "" /\ (1 <= p <= 65535)%Z.
Proof.
  assert (H : parse_vless_link no_escapes any_host sample_link = Ok sample_record)
    by by_evaluation.
  split; [exact H|].
  destruct (record_invariants no_escapes any_host sample_link sample_record H)
    as (u & h & p & options & name & E & Nu & _ & Nh & _ & Rp & _).
  exists u, h, p. rewrite E.
  split; [reflexivity|]. split; [reflexivity|]. split; [exact Nu|].
  split; [exact Nh|exact Rp].
Defined.

Lemma outbound_endpoint_witness :
  valid no_escapes any_host sample
  /\ exists doc h p,
       main_document no_escapes any_host sample = Ok doc
       /\ at_path doc (proxy_server ++ [Key "address"]) = Some (VStr h)
       /\ at_path doc (proxy_server ++ [Key "port"]) = Some (VInt p).
Proof.
  split; [exact sample_valid|].
  destruct (outbound_endpoint no_escapes any_host sample sample_valid)
    as (doc & parsed & u & h & p & Hdoc & _ & _ & _ & _ & Ha & Hp & _).
  exists doc, h, p. split; [exact Hdoc|]. split; [exact Ha|exact Hp].
Defined.

Lemma unsafe_characters_ignored_witness :
  parse_vless_link no_escapes any_host
    ("vless://ABC-123@example.com" ++ String "010" ":443?sni=example.com")
  = parse_vless_link no_escapes any_host
      ("vless://ABC-123@example.com" ++ ":443?sni=example.com").
Proof.
  apply (unsafe_characters_ignored no_escapes any_host);
    [by_evaluation | simpl; auto].
Defined.

Lemma scheme_case_insensitive_witness :
  lower "VleSS://" = "vless://"
  /\ parse_vless_link no_escapes any_host ("VleSS://" ++ "ABC-123@example.com:443")
     = parse_vless_link no_escapes any_host ("vless://" ++ "ABC-123@example.com:443").
Proof.
  assert (H : lower "VleSS://" = "vless://") by by_evaluation.
  split; [exact H|].
  exact (scheme_case_insensitive no_escapes any_host "VleSS://"
           "ABC-123@example.com:443" H).
Defined.

Lemma documented_link_witness :
  parse_vless_link no_escapes any_host
    ("vless://" ++ "ABC-123" ++ "@" ++ "Example.COM" ++ ":" ++ "0443" ++ "?"
       ++ "security=reality&pbk=KEY")
  = Ok [("type", VStr "vless");
        ("uuid", VStr "ABC-123");
        ("server", VDict [("host", VStr "example.com"); ("port", VInt 443)]);
        ("params", VDict [("security", VStr "reality"); ("pbk", VStr "KEY")]);
        ("name", VNone)].
Proof.
  assert (Hu : plain "ABC-123" = true) by by_evaluation.
  assert (Nu : "ABC-123" <> "") by discriminate.
  assert (Hh : plain "Example.COM" = true) by by_evaluation.
  assert (Nh : "Example.COM" <> "") by discriminate.
  assert (Hd : isdigit_ascii "0443" = true) by by_evaluation.
  assert (Hlen : (String.length "0443" <= 4300)%nat) by (simpl; lia).
  assert (Hrange : (1 <= int_of_digits "0443" <= 65535)%Z)
    by (vm_compute; split; discriminate).
  assert (Hq : plain_query "security=reality&pbk=KEY" = true) by by_evaluation.
  exact (documented_link no_escapes any_host "ABC-123" "Example.COM" "0443"
           "security=reality&pbk=KEY" Hu Nu Hh Nh Hd Hlen Hrange Hq).
Defined.

Lemma endpoint_required_witness :
  parse_vless_link no_escapes any_host
    ("vless://" ++ "ABC-123" ++ "@" ++ "example.com" ++ ":" ++ "0" ++ "?" ++ "")
  = Raise (SystemExit "Proxy host or port not defined").
Proof.
  assert (Hu : plain "ABC-123" = true) by by_evaluation.
  assert (Nu : "ABC-123" <> "") by discriminate.
  assert (Hh : plain "example.com" = true) by by_evaluation.
  assert (Hd : all_chars is_ascii_digit "0" = true) by by_evaluation.
  assert (Hlen : (String.length "0" <= 4300)%nat) by (simpl; lia).
  assert (Hmax : (int_of_digits "0" <= 65535)%Z) by (vm_compute; discriminate).
  assert (Hq : plain_query "" = true) by by_evaluation.
  assert (Hz : "example.com" = "" \/ int_of_digits "0" = 0%Z)
    by (right; reflexivity).
  exact (endpoint_required no_escapes any_host "ABC-123" "example.com" "0" ""
           Hu Nu Hh Hd Hlen Hmax Hq Hz).
Defined.

Lemma query_round_trip_witness :
  parse_qsl no_escapes (query_of [("security", "reality"); ("pbk", "a=b")])
  = [("security", "reality"); ("pbk", "a=b")].
Proof.
  apply (query_round_trip no_escapes [("security", "reality"); ("pbk", "a=b")]).
  repeat constructor.
Defined.

Lemma path_link_valid : valid no_escapes any_host (arguments path_link None None).
Proof. valid_by_evaluation. Defined.

Lemma plain_link_valid : valid no_escapes any_host (arguments plain_link None None).
Proof. valid_by_evaluation. Defined.

Lemma unread_parts_ignored_witness :
  urlparse any_host path_link = Ok path_parsed
  /\ urlparse any_host plain_link = Ok plain_parsed
  /\ main_document no_escapes any_host (arguments path_link None None)
     = main_document no_escapes any_host (arguments plain_link None None).
Proof.
  assert (H : urlparse any_host path_link = Ok path_parsed) by by_evaluation.
  assert (H' : urlparse any_host plain_link = Ok plain_parsed) by by_evaluation.
  split; [exact H|]. split; [exact H'|].
  apply (unread_parts_ignored no_escapes any_host
           (arguments path_link None None) (arguments plain_link None None)
           path_parsed plain_parsed path_link_valid plain_link_valid
           eq_refl eq_refl H H' eq_refl).
  intros key Hin. simpl in Hin.
  destruct Hin as [<-|[<-|[<-|[<-|[<-|[<-|[<-|[]]]]]]]]; by_evaluation.
Defined.

Lemma documented_link_document_witness :
  exists doc,
    main_document no_escapes any_host
      (arguments ("vless://" ++ "ABC-123" ++ "@" ++ "Example.COM" ++ ":" ++ "0443"
                    ++ "?" ++ "security=reality&pbk=KEY")
                 (Some 1080%Z) None)
    = Ok doc
    /\ at_path doc (proxy_server ++ [Key "address"]) = Some (VStr "example.com")
    /\ at_path doc (proxy_server ++ [Key "port"]) = Some (VInt 443)
    /\ at_path doc (proxy_user ++ [Key "id"]) = Some (VStr "ABC-123")
    /\ forall before,
         main no_escapes any_host utf8_file
           (arguments ("vless://" ++ "ABC-123" ++ "@" ++ "Example.COM" ++ ":"
                         ++ "0443" ++ "?" ++ "security=reality&pbk=KEY")
                      (Some 1080%Z) None)
           before
         = (None, Some (text_of (fst (iterencode 0 doc)))).
Proof.
  assert (Hu : plain "ABC-123" = true) by by_evaluation.
  assert (Nu : "ABC-123" <> "") by discriminate.
  assert (Hh : plain "Example.COM" = true) by by_evaluation.
  assert (Nh : "Example.COM" <> "") by discriminate.
  assert (Hd : isdigit_ascii "0443" = true) by by_evaluation.
  assert (Hlen : (String.length "0443" <= 4300)%nat) by (simpl; lia).
  assert (Hrange : (1 <= int_of_digits "0443" <= 65535)%Z)
    by (vm_compute; split; discriminate).
  assert (Hq : plain_query "security=reality&pbk=KEY" = true) by by_evaluation.
  assert (Rh : port_in_range (Some 1080%Z)) by (simpl; lia).
  assert (He : forall c, encodable utf8_file c = true) by reflexivity.
  exact (documented_link_document no_escapes any_host utf8_file "ABC-123"
           "Example.COM" "0443" "security=reality&pbk=KEY" (Some 1080%Z) None
           Hu Nu Hh Nh Hd Hlen Hrange Hq Rh I utf8_file_writes He).
Defined.

Lemma port_errors_witness :
  urlparse any_host "vless://user@host:70000/" = Ok port_70000_parsed
  /\ parse_vless_link no_escapes any_host "vless://user@host:70000/"
     = Raise (ValueError PortOutOfRange).
Proof.
  assert (H : startswith (lower "vless://user@host:70000/") "vless://" = true)
    by by_evaluation.
  assert (Hp : urlparse any_host "vless://user@host:70000/" = Ok port_70000_parsed)
    by by_evaluation.
  assert (Hu : truthy (username port_70000_parsed) = true) by by_evaluation.
  assert (Ht : snd (_hostinfo port_70000_parsed) = Some "70000") by by_evaluation.
  split; [exact Hp|].
  destruct (port_errors no_escapes any_host "vless://user@host:70000/"
              port_70000_parsed "70000" H Hp Hu Ht) as (_ & _ & Hrange).
  apply Hrange; [by_evaluation | simpl; lia | vm_compute; reflexivity].
Defined.

Lemma fragment_is_name_witness :
  exists uuid host port options,
    parse_vless_link no_escapes any_host (plain_link ++ String "#" "MyNode")
    = Ok (connection_record uuid host port options (VStr "MyNode")).
Proof.
  assert (Hb : contains "#" plain_link = false) by by_evaluation.
  assert (Hi : parse_vless_link no_escapes any_host plain_link
               = Ok (connection_record (VStr "ABC-123") (VStr "example.com")
                       (VInt 443) [("sni", VStr "example.com")] VNone))
    by by_evaluation.
  destruct (fragment_is_name no_escapes any_host plain_link "MyNode" _ Hb Hi)
    as (uuid & host & port & options & _ & E).
  exists uuid, host, port, options. exact E.
Defined.

(** ** The text of a document *)

(** The text of a small value, as [json.dump] lays it out with indent=2:
    an empty list and the absent marker are written in place, and a
    [DotAccessibleDict] that is empty but true opens and closes on lines of
    their own. *)
Lemma written_text_example :
  text_of (fst (iterencode 0 nested_value))
  = "{
  " ++ encode_basestring "a" ++ ": [
    1,
    " ++ encode_basestring "x" ++ ",
    [],
    {
      " ++ encode_basestring "k" ++ ": null
    }
  ],
  " ++ encode_basestring "b" ++ ": {},
  " ++ encode_basestring "c" ++ ": {" ++ newline_indent 2 ++ newline_indent 1
  ++ "}" ++ newline_indent 0 ++ "}"
  /\ firstn 6 (fst (iterencode 0 nested_value))
     = ["{"; newline_indent 1; encode_basestring "a"; ": ";
        "[" ++ newline_indent 2 ++ "1";
        "," ++ newline_indent 2 ++ encode_basestring "x"].
Proof. split; by_evaluation. Qed.

(** A run that stops in the middle of the write: the host of the link has
    a letter that ASCII lacks, the chunk of the address cannot be encoded,
    and config.json is left with the 1257 characters before it of the 3442
    of the document; in UTF-8 the same run writes them all. *)
Lemma truncated_file_example :
  let argv := arguments latin_host_link None None in
  exists doc written,
    main_document no_escapes any_host argv = Ok doc
    /\ main no_escapes any_host ascii_file argv (Some "earlier")
       = (Some UnicodeEncodeError, Some written)
    /\ String.prefix written (text_of (fst (iterencode 0 doc))) = true
    /\ String.length written = 1257%nat
    /\ String.length (text_of (fst (iterencode 0 doc))) = 3442%nat
    /\ main no_escapes any_host utf8_file argv (Some "earlier")
       = (None, Some (text_of (fst (iterencode 0 doc)))).
Proof.
  cbv zeta. eexists. eexists.
  split; [by_evaluation|]. split; [by_evaluation|].
  repeat match goal with |- _ /\ _ => split end; by_evaluation.
Qed.
